(** * FileManager: the search-and-indexing engine ([src/utils/search_engine.py])

    A shallow embedding of [SearchIndex] and [SearchEngine] and the proofs of
    the properties stated about them.

    Modelling conventions.
    - Python [str] is [string]; the model covers ASCII text ([str.lower],
      [\w] and [str.strip] are given their ASCII meaning).
    - Python [dict] is [gmap], Python [set] is [gset]; a set is iterated in
      the order of [elements].
    - [os.stat], [os.walk], [open] are oracles collected in [World]; a failing
      call ([OSError]) is [None].  The file system does not change while one
      call runs.
    - [datetime.fromtimestamp] is an oracle of [World] too: it gives a
      [datetime], raises [OSError], or raises an exception of another class
      ([ValueError], [OverflowError]) for a time it cannot convert.
    - [fnmatch.fnmatch] and [re.search] belong to the Python library; the
      engine is parameterised by them.  [re.search] answers, raises
      [re.error], or raises an exception of another class.
    - File times (Python floats returned by [os.path.getmtime]) and
      [datetime] values are totally ordered and only compared; each is
      modelled as [Z].  The [datetime] arguments of a query are naive, as
      those [fromtimestamp] returns.
    - An exception a method does not catch is the [Escapes] outcome of
      that method, and the [Raise] outcome of the public methods; object
      state is passed explicitly.  The thread that may call
      [cancel_search()] during a call is a count of polls of the flag; a
      progress callback only records its arguments and returns. *)

From Stdlib Require Import ZArith String Ascii List Bool Lia.
From stdpp Require Import gmap strings list fin_maps.

Local Open Scope Z_scope.
Local Open Scope nat_scope.

(* ===================================================================== *)
(** ** Python string primitives used by the engine *)
(* ===================================================================== *)

Module Py.

Definition is_upper (c : ascii) : bool :=
  let n := nat_of_ascii c in (65 <=? n) && (n <=? 90).

Definition is_lower (c : ascii) : bool :=
  let n := nat_of_ascii c in (97 <=? n) && (n <=? 122).

Definition is_digit (c : ascii) : bool :=
  let n := nat_of_ascii c in (48 <=? n) && (n <=? 57).

(** one character of [str.lower()] *)
Definition lower_char (c : ascii) : ascii :=
  if is_upper c then ascii_of_nat (nat_of_ascii c + 32) else c.

(** [s.lower()] *)
Fixpoint lower (s : string) : string :=
  match s with
  | EmptyString => EmptyString
  | String c t => String (lower_char c) (lower t)
  end.

(** the regex class [\w] *)
Definition is_word_char (c : ascii) : bool :=
  is_upper c || is_lower c || is_digit c || Ascii.eqb c "_".

(** [s.startswith(p)] *)
Definition startswith (s p : string) : bool := String.prefix p s.

(** [s.endswith(suf)] *)
Definition endswith (s suf : string) : bool :=
  let n := String.length s in
  let k := String.length suf in
  (k <=? n) && String.eqb (String.substring (n - k) k s) suf.

(** [needle in hay] *)
Fixpoint contains (needle hay : string) : bool :=
  String.prefix needle hay ||
  match hay with
  | EmptyString => false
  | String _ t => contains needle t
  end.

(** [c in s] for a single character *)
Fixpoint has_char (c : ascii) (s : string) : bool :=
  match s with
  | EmptyString => false
  | String d t => Ascii.eqb c d || has_char c t
  end.

(** [bool(s)] for a string *)
Definition truthy (s : string) : bool :=
  match s with EmptyString => false | _ => true end.

(** [bool(x)] for [Optional[str]] *)
Definition truthy_opt (o : option string) : bool :=
  match o with Some s => truthy s | None => false end.

(** [bool(x)] for [Optional[int]] *)
Definition truthy_int (o : option Z) : bool :=
  match o with Some n => negb (n =? 0)%Z | None => false end.

(** [re.findall(r'\w+', s)]: the maximal runs of word characters, left to
    right.  [cur] is the run being read. *)
Fixpoint findall_word_go (cur : string) (s : string) : list string :=
  match s with
  | EmptyString => if truthy cur then [cur] else []
  | String c t =>
      if is_word_char c then findall_word_go (cur +:+ String c EmptyString) t
      else (if truthy cur then [cur] else []) ++ findall_word_go EmptyString t
  end.

Definition findall_word (s : string) : list string :=
  findall_word_go EmptyString s.

(** [p.rfind('/') + 1] splits [p] into the head, which keeps the last
    slash, and the tail after it ([posixpath.split] before the head is
    cleaned). *)
Fixpoint split_last_slash (p : string) : string * string :=
  match p with
  | EmptyString => (EmptyString, EmptyString)
  | String c t =>
      let '(h, tl) := split_last_slash t in
      if truthy h then (String c h, tl)
      else if Ascii.eqb c "/" then (String c EmptyString, t)
      else (EmptyString, String c t)
  end.

(** [os.path.basename(p)] *)
Definition basename (p : string) : string := snd (split_last_slash p).

Fixpoint all_slashes (s : string) : bool :=
  match s with
  | EmptyString => true
  | String c t => Ascii.eqb c "/" && all_slashes t
  end.

(** [s.rstrip('/')] *)
Fixpoint rstrip_slash (s : string) : string :=
  match s with
  | EmptyString => EmptyString
  | String c t =>
      match rstrip_slash t with
      | EmptyString => if Ascii.eqb c "/" then EmptyString else String c EmptyString
      | r => String c r
      end
  end.

(** [os.path.dirname(p)] *)
Definition dirname (p : string) : string :=
  let h := fst (split_last_slash p) in
  if truthy h && negb (all_slashes h) then rstrip_slash h else h.

(** [os.path.join(a, b)] *)
Definition join (a b : string) : string :=
  if startswith b "/" then b
  else if negb (truthy a) || endswith a "/" then a +:+ b
  else a +:+ "/" +:+ b.

(** [s.split('\n')]: always at least one piece. *)
Fixpoint split_nl (s : string) : list string :=
  match s with
  | EmptyString => [EmptyString]
  | String c t =>
      match split_nl t with
      | [] => [String c EmptyString]
      | l :: ls =>
          if Ascii.eqb c "010" then EmptyString :: l :: ls
          else String c l :: ls
      end
  end.

(** whitespace removed by [str.strip()] *)
Definition is_space (c : ascii) : bool :=
  let n := nat_of_ascii c in
  ((9 <=? n) && (n <=? 13)) || ((28 <=? n) && (n <=? 32)).

Fixpoint lstrip (s : string) : string :=
  match s with
  | EmptyString => EmptyString
  | String c t => if is_space c then lstrip t else s
  end.

Fixpoint rstrip (s : string) : string :=
  match s with
  | EmptyString => EmptyString
  | String c t =>
      match rstrip t with
      | EmptyString => if is_space c then EmptyString else String c EmptyString
      | r => String c r
      end
  end.

(** [s.strip()] *)
Definition strip (s : string) : string := rstrip (lstrip s).

(** [s[:n]] for [n >= 0] *)
Definition prefix_of (n : nat) (s : string) : string := String.substring 0 n s.

(** [xs[:n]] for a list and any integer [n]: a negative bound counts from
    the end. *)
Definition slice_to {A} (n : Z) (xs : list A) : list A :=
  if (0 <=? n)%Z then take (Z.to_nat n) xs
  else take (length xs - Z.to_nat (- n)) xs.

(** [pathlib.Path(p).suffix] of the final component *)
Fixpoint rfind_dot (s : string) : option nat :=
  match s with
  | EmptyString => None
  | String c t =>
      match rfind_dot t with
      | Some i => Some (S i)
      | None => if Ascii.eqb c "." then Some 0 else None
      end
  end.

Definition path_suffix (p : string) : string :=
  let name := basename p in
  match rfind_dot name with
  | Some i =>
      if (0 <? i) && (i <? String.length name - 1)
      then String.substring i (String.length name - i) name
      else EmptyString
  | None => EmptyString
  end.

(** the text [f.read(n)] returns piece by piece until it returns [''];
    [fuel] bounds the number of pieces by the length of the text. *)
Fixpoint chunks_go (fuel n : nat) (s : string) : list string :=
  match fuel with
  | O => []
  | S fuel' =>
      match String.substring 0 n s with
      | EmptyString => []
      | chunk => chunk :: chunks_go fuel' n
                   (String.substring n (String.length s - n) s)
      end
  end.

Definition chunks (n : nat) (s : string) : list string :=
  chunks_go (String.length s) n s.

End Py.

(* ===================================================================== *)
(** ** The operating system as seen by the engine *)
(* ===================================================================== *)

(** What a call that can raise gives: its value, an [OSError] (or one of
    its subclasses), or an exception of another class with its text. *)
Inductive result (A : Type) :=
| Ok (a : A)
| OsError
| Failure (msg : string).
Arguments Ok {A} a.
Arguments OsError {A}.
Arguments Failure {A} msg.

(** what the engine reads of [os.stat(p)] *)
Record stat_result := mk_stat {
  st_is_dir : bool;
  st_size : Z;
  st_mtime : Z
}.

(** The part of a directory tree [os.walk] goes through: the names of the
    files of a directory, and its sub-directories in listing order.  A
    sub-directory that [os.walk] lists but does not enter (a symbolic link,
    an unreadable directory) carries [None]. *)
Inductive dtree :=
| DTree (files : list string) (dirs : list (string * option dtree)).

Record World := mk_world {
  (** [os.stat(p)]; [None] when it raises [OSError] *)
  os_stat : string → option stat_result;
  (** the tree [os.walk(p)] enumerates; [None] when [p] cannot be listed *)
  os_listing : string → option dtree;
  (** the decoded text of [open(p, 'r', encoding='utf-8', errors='ignore')];
      [None] when opening or reading raises *)
  read_text : string → option string;
  (** the bytes of [open(p, 'rb')]; [None] when opening or reading raises *)
  read_bytes : string → option string;
  (** [datetime.fromtimestamp(t)] *)
  fromtimestamp : Z → result Z
}.

(** [os.path.getmtime(p)] *)
Definition getmtime (w : World) (p : string) : option Z :=
  st_mtime <$> os_stat w p.

(** [os.path.exists(p)] *)
Definition path_exists (w : World) (p : string) : bool :=
  match os_stat w p with Some _ => true | None => false end.

(** [os.path.isdir(p)] *)
Definition path_isdir (w : World) (p : string) : bool :=
  match os_stat w p with Some st => st_is_dir st | None => false end.

(** One step of [os.walk]: the triple [(root, dirs, files)] it yields. *)
Definition walk_item : Type := string * list string * list string.

(** [os.walk(root)] over a listed tree, top-down, as the list of the triples
    it yields.  [keep] is the in-place filter the loop body applies to
    [dirs] before the walk descends ([dirs[:] = [d for d in dirs if ...]]). *)
Fixpoint os_walk (keep : string → bool) (root : string) (t : dtree)
  : list walk_item :=
  match t with
  | DTree files dirs =>
      (root, fst <$> dirs, files) ::
      (fix descend (ds : list (string * option dtree)) : list walk_item :=
         match ds with
         | [] => []
         | (d, sub) :: ds' =>
             (if keep d then
                match sub with
                | Some t' => os_walk keep (Py.join root d) t'
                | None => []
                end
              else []) ++ descend ds'
         end) dirs
  end.

Definition walk (w : World) (keep : string → bool) (root : string)
  : list walk_item :=
  match os_listing w root with
  | Some t => os_walk keep root t
  | None => []
  end.

(** the filter of both search strategies: [not d.startswith('.')] *)
Definition not_hidden (d : string) : bool := negb (Py.startswith d ".").

(* ===================================================================== *)
(** ** class SearchIndex *)
(* ===================================================================== *)

Module SearchIndex.

Record t := mk {
  index : gmap string (gset string);      (* {word: set of file paths} *)
  file_timestamps : gmap string Z         (* {file path: timestamp} *)
}.

(** [SearchIndex()] *)
Definition init : t := mk ∅ ∅.

(** [is_indexed(file_path)] *)
Definition is_indexed (w : World) (file_path : string) (ix : t) : bool :=
  match file_timestamps ix !! file_path with
  | None => false
  | Some recorded =>
      match getmtime w file_path with
      | Some current_mtime => (current_mtime <=? recorded)%Z
      | None => false
      end
  end.

(** the body of [for word in words] in [add_file] *)
Definition add_word (file_path : string) (ix : gmap string (gset string))
    (word : string) : gmap string (gset string) :=
  let ix' := match ix !! word with
             | None => <[word := ∅]> ix
             | Some _ => ix
             end in
  match ix' !! word with
  | Some s => <[word := s ∪ {[file_path]}]> ix'
  | None => ix'
  end.

(** [add_file(file_path)].  [os.path.getmtime] is called after the posting
    sets were updated: when it raises, the exception is caught and logged,
    the postings stay and no timestamp is recorded. *)
Definition add_file (w : World) (file_path : string) (ix : t) : t :=
  let filename := Py.lower (Py.basename file_path) in
  let words := Py.findall_word filename in
  let index' := foldl (add_word file_path) (index ix) words in
  match getmtime w file_path with
  | Some mtime => mk index' (<[file_path := mtime]> (file_timestamps ix))
  | None => mk index' (file_timestamps ix)
  end.

(** the inner loop of [search]: the union of the posting sets of the indexed
    words that contain [word] *)
Definition matches (ix : t) (word : string) : gset string :=
  ⋃ (snd <$> filter (λ kv, Py.contains word (fst kv) = true)
                    (map_to_list (index ix))).

(** [set.intersection] applied to the unpacked list [result_sets] *)
Definition intersection_all (sets : list (gset string)) : gset string :=
  match sets with
  | [] => ∅
  | s :: rest => foldl (∩) s rest
  end.

(** [search(query)] *)
Definition search (ix : t) (query : string) : gset string :=
  let query_words := Py.findall_word (Py.lower query) in
  match query_words with
  | [] => ∅
  | _ =>
      let result_sets := matches ix <$> query_words in
      match result_sets with
      | [] => ∅
      | _ => intersection_all result_sets
      end
  end.

End SearchIndex.

(* ===================================================================== *)
(** ** class SearchEngine *)
(* ===================================================================== *)

Module SearchEngine.

(** dataclass [SearchResult] *)
Record SearchResult := mk_result {
  path : string;
  name : string;
  size : Z;
  modified : Z;
  directory : string;
  match_type : string;                    (* "filename" or "content" *)
  match_line : option string;
  match_line_number : option nat
}.

(** [SearchError(message)] *)
Inductive exn := SearchError (msg : string).

Inductive outcome (A : Type) :=
| Ret (a : A)
| Raise (e : exn).
Arguments Ret {A} a.
Arguments Raise {A} e.

(** What a private method gives once the exceptions it catches are
    caught: its value, or the text of the exception that escapes it. *)
Inductive attempt (A : Type) :=
| Done (a : A)
| Escapes (msg : string).
Arguments Done {A} a.
Arguments Escapes {A} msg.

(** [except Exception as e: raise SearchError(f"{what}{e}")], seen from
    the caller of the method that has this handler *)
Definition wrapped {A} (what : string) (r : attempt A) : attempt A :=
  match r with
  | Done a => Done a
  | Escapes msg => Escapes (what +:+ msg)
  end.

(** What [re.search(pattern, filename)] gives: whether there is a match,
    [re.error] for a pattern that does not compile, or an exception of
    another class with its text. *)
Inductive re_result :=
| Matched (b : bool)
| ReError
| ReRaises (msg : string).

(** the dictionary [search_files] hands to [_add_to_history] *)
Record history_entry := mk_entry {
  h_pattern : string;
  h_content_search : option string;
  h_timestamp : Z;
  h_root_path : string;
  h_file_type : option string
}.

(** the attributes of a [SearchEngine] object (the two locks are left out:
    one call runs at a time) *)
Record t := mk {
  search_history : list history_entry;
  max_history : nat;
  cancel_event : bool;
  index : SearchIndex.t;
  max_workers : nat;
  chunk_size : nat;
  max_file_size_for_content_search : Z;
  indexing_enabled : bool
}.

(** [SearchEngine(max_workers)] *)
Definition init (workers : nat) : t :=
  mk [] 50 false SearchIndex.init workers 8192 (10 * 1024 * 1024)%Z true.

(** The engine together with what surrounds one call: the thread that may
    call [cancel_search()] while the call runs, and the progress callback.
    [cancel_in = Some k] says that [cancel_search()] arrives after [k] more
    polls of the flag; the callback records its arguments in [progress]. *)
Record state := mk_state {
  self : t;
  cancel_in : option nat;
  progress : list (nat * nat)
}.

Definition with_history (h : list history_entry) (e : t) : t :=
  mk h (max_history e) (cancel_event e) (index e) (max_workers e)
     (chunk_size e) (max_file_size_for_content_search e) (indexing_enabled e).

Definition with_cancel (b : bool) (e : t) : t :=
  mk (search_history e) (max_history e) b (index e) (max_workers e)
     (chunk_size e) (max_file_size_for_content_search e) (indexing_enabled e).

Definition with_index (ix : SearchIndex.t) (e : t) : t :=
  mk (search_history e) (max_history e) (cancel_event e) ix (max_workers e)
     (chunk_size e) (max_file_size_for_content_search e) (indexing_enabled e).

Definition on_self (f : t → t) (s : state) : state :=
  mk_state (f (self s)) (cancel_in s) (progress s).

(** [progress_callback(i, n)] *)
Definition call_progress (i n : nat) (s : state) : state :=
  mk_state (self s) (cancel_in s) (progress s ++ [(i, n)]).

(** [cancel_search()] *)
Definition cancel_search (e : t) : t := with_cancel true e.

(** [self._cancel_event.clear()] *)
Definition clear_cancel (e : t) : t := with_cancel false e.

(** [self._cancel_event.is_set()], one poll of the flag *)
Definition is_set (s : state) : bool * state :=
  match cancel_in s with
  | Some O => (true, mk_state (cancel_search (self s)) None (progress s))
  | Some (S k) => (cancel_event (self s), mk_state (self s) (Some k) (progress s))
  | None => (cancel_event (self s), s)
  end.

(** the parameters of [search_files]; [progress_callback] tells whether a
    callback was passed *)
Record args := mk_args {
  root_path : string;
  pattern : string;
  content_search : option string;
  file_type : option string;
  size_min : option Z;
  size_max : option Z;
  date_from : option Z;
  date_to : option Z;
  case_sensitive : bool;
  regex : bool;
  max_results : Z;
  use_index : bool;
  progress_callback : bool
}.

(** the default values of the signature of [search_files] *)
Definition defaults (root pat : string) : args :=
  mk_args root pat None None None None None None false false 1000%Z true false.

(** [_add_to_history(search_info)] *)
Definition _add_to_history (search_info : history_entry) (e : t) : t :=
  let h := search_history e ++ [search_info] in
  if max_history e <? length h then with_history (drop 1 h) e
  else with_history h e.

(** [get_search_history()] *)
Definition get_search_history (e : t) : list history_entry := search_history e.

(** [clear_history()] *)
Definition clear_history (e : t) : t := with_history [] e.

(** [clear_index()] *)
Definition clear_index (e : t) : t := with_index SearchIndex.init e.

Definition text_extensions : list string :=
  [".txt"; ".py"; ".js"; ".html"; ".css"; ".json"; ".xml"; ".md"; ".csv";
   ".log"; ".ini"; ".cfg"; ".conf"; ".yaml"; ".yml"; ".sql"; ".sh"; ".bat";
   ".c"; ".cpp"; ".h"; ".java"; ".php"; ".rb"; ".go"; ".rs"; ".kt";
   ".swift"]%string.

Fixpoint count_chars (f : ascii → bool) (s : string) : nat :=
  match s with
  | EmptyString => 0
  | String c t => (if f c then 1 else 0) + count_chars f t
  end.

Definition printable (b : ascii) : bool :=
  let n := nat_of_ascii b in
  ((32 <=? n) && (n <=? 126)) || (n =? 9) || (n =? 10) || (n =? 13).

(** [_is_text_file(file_path)].  The quotient of the two counts, at most
    1024 each, exceeds the float [0.7] exactly when ten times the first
    exceeds seven times the second. *)
Definition _is_text_file (w : World) (file_path : string) : bool :=
  if existsb (String.eqb (Py.lower (Py.path_suffix file_path))) text_extensions
  then true
  else
    match read_bytes w file_path with
    | None => false
    | Some data =>
        let chunk := String.substring 0 1024 data in
        if negb (Py.truthy chunk) then true
        else if Py.has_char "000" chunk then false
        else
          let printable_count := count_chars printable chunk in
          7 * String.length chunk <? 10 * printable_count
    end.

(** the loop [for line in lines[:-1]]: the hit, or the line count reached *)
Fixpoint scan_lines (search_text : string) (case_sensitive : bool)
    (lines : list string) (line_num : nat) : option (string * nat) * nat :=
  match lines with
  | [] => (None, line_num)
  | line :: rest =>
      let line_num := line_num + 1 in
      let search_line := if case_sensitive then line else Py.lower line in
      if Py.contains search_text search_line
      then (Some (Py.prefix_of 200 (Py.strip line), line_num), line_num)
      else scan_lines search_text case_sensitive rest line_num
  end.

(** the loop [while True] over the chunks read, then the last line *)
Fixpoint scan_chunks (search_text : string) (case_sensitive : bool)
    (chunks : list string) (buffer : string) (line_num : nat)
  : option string * option nat :=
  match chunks with
  | [] =>
      if Py.truthy buffer then
        let line_num := line_num + 1 in
        let search_line := if case_sensitive then buffer else Py.lower buffer in
        if Py.contains search_text search_line
        then (Some (Py.prefix_of 200 (Py.strip buffer)), Some line_num)
        else (None, None)
      else (None, None)
  | chunk :: rest =>
      let buffer := buffer +:+ chunk in
      let lines := Py.split_nl buffer in
      let buffer := List.last lines EmptyString in
      match scan_lines search_text case_sensitive (removelast lines) line_num with
      | (Some (line, n), _) => (Some line, Some n)
      | (None, line_num) =>
          scan_chunks search_text case_sensitive rest buffer line_num
      end
  end.

(** [_search_in_file_optimized(file_path, search_text, case_sensitive)] *)
Definition _search_in_file_optimized (w : World) (e : t) (file_path : string)
    (search_text : string) (case_sensitive : bool)
  : option string * option nat :=
  if negb (_is_text_file w file_path) then (None, None)
  else
    let search_text :=
      if case_sensitive then search_text else Py.lower search_text in
    match read_text w file_path with
    | None => (None, None)
    | Some text =>
        scan_chunks search_text case_sensitive
          (Py.chunks (chunk_size e) text) EmptyString 0
    end.


Section Matching.

(** [fnmatch.fnmatch(filename, pattern)] of the Python library *)
Variable fnmatch : string → string → bool.
(** [re.search(pattern, filename)] of the Python library *)
Variable re_search : string → string → re_result.

(** [_match_pattern(filename, pattern, case_sensitive, regex)]: [re.error]
    is caught and gives [False], any other exception of [re.search]
    escapes *)
Definition _match_pattern (filename pattern : string)
    (case_sensitive regex : bool) : attempt bool :=
  let filename := if case_sensitive then filename else Py.lower filename in
  let pattern := if case_sensitive then pattern else Py.lower pattern in
  if regex then
    match re_search pattern filename with
    | Matched b => Done b
    | ReError => Done false
    | ReRaises msg => Escapes msg
    end
  else Done (fnmatch filename pattern).

(** The checks [_process_file] and [_matches_criteria] share after the
    pattern check: extension, then [os.stat], the sizes, then
    [datetime.fromtimestamp] and the dates.  [Ok None] is a failed check,
    [Ok (Some (st, file_date))] passes with the stat result and the date;
    [OsError] is the [OSError] of [os.stat] or of [fromtimestamp],
    [Failure] any other exception of [fromtimestamp]. *)
Definition check_type_size_date (w : World) (file_path filename : string)
    (q : args) : result (option (stat_result * Z)) :=
  if Py.truthy_opt (file_type q) &&
     negb (Py.endswith (Py.lower filename)
             (Py.lower (default EmptyString (file_type q))))
  then Ok None
  else
    match os_stat w file_path with
    | None => OsError
    | Some st =>
        if Py.truthy_int (size_min q) &&
           (st_size st <? default 0%Z (size_min q))%Z then Ok None
        else if Py.truthy_int (size_max q) &&
                (default 0%Z (size_max q) <? st_size st)%Z then Ok None
        else
          match fromtimestamp w (st_mtime st) with
          | Ok file_date =>
              if match date_from q with
                 | Some d => (file_date <? d)%Z
                 | None => false
                 end then Ok None
              else if match date_to q with
                      | Some d => (d <? file_date)%Z
                      | None => false
                      end then Ok None
              else Ok (Some (st, file_date))
          | OsError => OsError
          | Failure msg => Failure msg
          end
    end.

(** [_process_file(file_path, ..., results)]: the returned flag and the
    list [results] after the call, or the exception it raises: an
    [OSError], which the caller catches, or another one. *)
Definition _process_file (w : World) (e : t) (file_path : string) (q : args)
    (results : list SearchResult) : result (bool * list SearchResult) :=
  let filename := Py.basename file_path in
  match _match_pattern filename (pattern q) (case_sensitive q) (regex q) with
  | Escapes msg => Failure msg
  | Done false => Ok (false, results)
  | Done true =>
      match check_type_size_date w file_path filename q with
      | OsError => OsError
      | Failure msg => Failure msg
      | Ok None => Ok (false, results)
      | Ok (Some (st, file_date)) =>
          let accept (content_match : option string)
                     (content_line_num : option nat) (kind : string) :=
            Ok (true,
                results ++ [mk_result file_path filename (st_size st) file_date
                              (Py.dirname file_path) kind
                              content_match content_line_num]) in
          if Py.truthy_opt (content_search q) then
            let term := default EmptyString (content_search q) in
            if (max_file_size_for_content_search e <? st_size st)%Z
            then accept None None "filename"%string
            else
              let '(content_match, content_line_num) :=
                _search_in_file_optimized w e file_path term (case_sensitive q) in
              if Py.truthy_opt content_match
              then accept content_match content_line_num "content"%string
              else
                match _match_pattern filename term (case_sensitive q) (regex q) with
                | Escapes msg => Failure msg
                | Done false => Ok (false, results)
                | Done true =>
                    accept content_match content_line_num "filename"%string
                end
          else accept None None "filename"%string
      end
  end.

(** [_matches_criteria(file_path, ...)]: an [OSError] gives [False], any
    other exception escapes *)
Definition _matches_criteria (w : World) (file_path : string) (q : args)
  : attempt bool :=
  let filename := Py.basename file_path in
  match _match_pattern filename (pattern q) (case_sensitive q) (regex q) with
  | Escapes msg => Escapes msg
  | Done false => Done false
  | Done true =>
      match check_type_size_date w file_path filename q with
      | Ok (Some _) => Done true
      | Ok None => Done false
      | OsError => Done false
      | Failure msg => Escapes msg
      end
  end.

(** [_estimate_file_count(root_path)]: the loop over the walk *)
Fixpoint _estimate_loop (items : list walk_item) (count : nat) (s : state)
  : nat * state :=
  match items with
  | [] => (count, s)
  | (_, _, files) :: rest =>
      let '(cancelled, s) := is_set s in
      if cancelled then (count, s)
      else
        let count := count + length files in
        if 10000 <? count then (count, s)
        else _estimate_loop rest count s
  end.

Definition _estimate_file_count (w : World) (root : string) (s : state)
  : nat * state :=
  _estimate_loop (walk w (λ _, true) root) 0 s.

(** the first loop of [_update_index]: [None] when it returned on the
    cancellation flag, otherwise [files_to_index] *)
Fixpoint _update_index_scan (w : World) (items : list walk_item)
    (files_to_index : list string) (s : state)
  : option (list string) * state :=
  match items with
  | [] => (Some files_to_index, s)
  | (root, _, files) :: rest =>
      let '(cancelled, s) := is_set s in
      if cancelled then (None, s)
      else
        let files_to_index :=
          foldl (λ acc file,
                   let file_path := Py.join root file in
                   if SearchIndex.is_indexed w file_path (index (self s))
                   then acc else acc ++ [file_path])
                files_to_index files in
        _update_index_scan w rest files_to_index s
  end.

(** the second loop of [_update_index], [for i, file_path in enumerate(...)] *)
Fixpoint _update_index_add (w : World) (callback : bool) (total i : nat)
    (files : list string) (s : state) : state :=
  match files with
  | [] => s
  | file_path :: rest =>
      let '(cancelled, s) := is_set s in
      if cancelled then s
      else
        let s := on_self (λ e, with_index (SearchIndex.add_file w file_path (index e)) e) s in
        let s := if callback && (i mod 100 =? 0) then call_progress i total s
                 else s in
        _update_index_add w callback total (S i) rest s
  end.

(** [_update_index(root_path, progress_callback)] *)
Definition _update_index (w : World) (root : string) (callback : bool)
    (s : state) : state :=
  if negb (indexing_enabled (self s)) then s
  else
    match _update_index_scan w (walk w not_hidden root) [] s with
    | (None, s) => s
    | (Some files_to_index, s) =>
        _update_index_add w callback (length files_to_index) 0 files_to_index s
    end.

(** The candidate loop of [_search_with_index].  The [try] around the
    construction of the result catches [OSError] only, and skips the
    progress report then. *)
Fixpoint _index_loop (w : World) (q : args) (total i : nat)
    (candidates : list string) (results : list SearchResult) (s : state)
  : attempt (list SearchResult) * state :=
  match candidates with
  | [] => (Done results, s)
  | file_path :: rest =>
      let '(cancelled, s) := is_set s in
      if cancelled || (max_results q <=? Z.of_nat (length results))%Z
      then (Done results, s)
      else
        let report (s : state) :=
          if progress_callback q && (i mod 100 =? 0)
          then call_progress i total s else s in
        match _matches_criteria w file_path q with
        | Escapes msg => (Escapes msg, s)
        | Done true =>
            match os_stat w file_path with
            | Some st =>
                match fromtimestamp w (st_mtime st) with
                | Ok file_date =>
                    _index_loop w q total (S i) rest
                      (results ++ [mk_result file_path (Py.basename file_path)
                                     (st_size st) file_date
                                     (Py.dirname file_path) "filename" None None])
                      (report s)
                | OsError => _index_loop w q total (S i) rest results s
                | Failure msg => (Escapes msg, s)
                end
            | None => _index_loop w q total (S i) rest results s
            end
        | Done false => _index_loop w q total (S i) rest results (report s)
        end
  end.

(** [_search_with_index(root_path, pattern, ...)]; the candidates are taken
    in the order [elements] lists the set. *)
Definition _search_with_index (w : World) (q : args) (s : state)
  : attempt (list SearchResult) * state :=
  let s := _update_index w (root_path q) (progress_callback q) s in
  let '(cancelled, s) := is_set s in
  if cancelled then (Done [], s)
  else
    let candidate_files := elements (SearchIndex.search (index (self s)) (pattern q)) in
    _index_loop w q (length candidate_files) 0 candidate_files [] s.

(** The loop [for file in files] of [_search_filesystem]: an [OSError] of
    [_process_file] is caught and the file skipped, any other exception
    leaves the loop. *)
Fixpoint _files_loop (w : World) (q : args) (total_files : nat) (root : string)
    (files : list string) (results : list SearchResult) (search_count : nat)
    (s : state) : attempt (list SearchResult) * nat * state :=
  match files with
  | [] => (Done results, search_count, s)
  | file :: rest =>
      let '(cancelled, s) := is_set s in
      if cancelled || (max_results q <=? Z.of_nat (length results))%Z
      then (Done results, search_count, s)
      else
        let file_path := Py.join root file in
        let search_count := search_count + 1 in
        let s := if progress_callback q && (search_count mod 50 =? 0)
                 then call_progress search_count total_files s else s in
        match _process_file w (self s) file_path q results with
        | Ok (true, results) =>
            let s := if indexing_enabled (self s)
                     then on_self (λ e, with_index
                            (SearchIndex.add_file w file_path (index e)) e) s
                     else s in
            _files_loop w q total_files root rest results search_count s
        | Ok (false, results) =>
            _files_loop w q total_files root rest results search_count s
        | OsError =>
            _files_loop w q total_files root rest results search_count s
        | Failure msg => (Escapes msg, search_count, s)
        end
  end.

(** the loop [for root, dirs, files in os.walk(root_path)] *)
Fixpoint _dirs_loop (w : World) (q : args) (total_files : nat)
    (items : list walk_item) (results : list SearchResult)
    (search_count : nat) (s : state) : attempt (list SearchResult) * state :=
  match items with
  | [] => (Done results, s)
  | (root, _, files) :: rest =>
      let '(cancelled, s) := is_set s in
      if cancelled then (Done results, s)
      else
        match _files_loop w q total_files root files results search_count s with
        | (Done results, search_count, s) =>
            _dirs_loop w q total_files rest results search_count s
        | (Escapes msg, _, s) => (Escapes msg, s)
        end
  end.

(** [_search_filesystem(root_path, pattern, content_search, ...)]: what
    escapes the walk is raised again as a [SearchError] *)
Definition _search_filesystem (w : World) (q : args) (s : state)
  : attempt (list SearchResult) * state :=
  let '(total_files, s) :=
    if progress_callback q then _estimate_file_count w (root_path q) s
    else (0, s) in
  let '(results, s) :=
    _dirs_loop w q total_files (walk w not_hidden (root_path q)) [] 0 s in
  (wrapped "Filesystem search failed: " results, s).

(** the two branches of the [if] in [search_files] *)
Inductive strategy := Indexed | Filesystem.

(** [use_index and self.indexing_enabled and not content_search] *)
Definition choose_strategy (q : args) (e : t) : strategy :=
  if use_index q && indexing_enabled e && negb (Py.truthy_opt (content_search q))
  then Indexed else Filesystem.

Definition run_strategy (w : World) (st : strategy) (q : args) (s : state)
  : attempt (list SearchResult) * state :=
  match st with
  | Indexed => _search_with_index w q s
  | Filesystem => _search_filesystem w q s
  end.

(** the [try] of [search_files] around the strategy: what the strategy
    returns is returned, what escapes it is raised as a [SearchError] *)
Definition reraised {A} (r : attempt A) : outcome A :=
  match wrapped "Search operation failed: " r with
  | Done a => Ret a
  | Escapes msg => Raise (SearchError msg)
  end.

(** [search_files(root_path, pattern, ...)]; [now] is [datetime.now()] *)
Definition search_files (w : World) (now : Z) (q : args) (s : state)
  : outcome (list SearchResult) * state :=
  if negb (path_exists w (root_path q))
  then (Raise (SearchError ("Root path does not exist: " +:+ root_path q)), s)
  else if negb (path_isdir w (root_path q))
  then (Raise (SearchError ("Root path is not a directory: " +:+ root_path q)), s)
  else
    let s := on_self clear_cancel s in
    let s := on_self (_add_to_history
                        (mk_entry (pattern q) (content_search q) now
                                  (root_path q) (file_type q))) s in
    let '(results, s) := run_strategy w (choose_strategy q (self s)) q s in
    (reraised results, s).

(** the inner loop [for item in dirs + files] of [quick_search], left when
    the cap is reached *)
Fixpoint _quick_items (root query_lower : string) (max_results : Z)
    (items : list string) (results : list string) : list string :=
  match items with
  | [] => results
  | item :: rest =>
      if Py.contains query_lower (Py.lower item) then
        let results := results ++ [Py.join root item] in
        if (max_results <=? Z.of_nat (length results))%Z then results
        else _quick_items root query_lower max_results rest results
      else _quick_items root query_lower max_results rest results
  end.

Fixpoint _quick_walk (query_lower : string) (max_results : Z)
    (items : list walk_item) (results : list string) (s : state)
  : list string * state :=
  match items with
  | [] => (results, s)
  | (root, dirs, files) :: rest =>
      let '(cancelled, s) := is_set s in
      if cancelled || (max_results <=? Z.of_nat (length results))%Z
      then (results, s)
      else
        _quick_walk query_lower max_results rest
          (_quick_items root query_lower max_results (dirs ++ files) results) s
  end.

(** [quick_search(root_path, query, max_results)] *)
Definition quick_search (w : World) (root query : string) (max_results : Z)
    (s : state) : outcome (list string) * state :=
  if negb (path_exists w root)
  then (Raise (SearchError ("Root path does not exist: " +:+ root)), s)
  else
    let query_lower := Py.lower query in
    if indexing_enabled (self s) then
      let indexed_results := SearchIndex.search (index (self s)) query in
      (Ret (Py.slice_to max_results (elements indexed_results)), s)
    else
      let '(results, s) :=
        _quick_walk query_lower max_results (walk w (λ _, true) root) [] s in
      (Ret results, s).

End Matching.

End SearchEngine.

(* ===================================================================== *)
(** ** Specification-level notions *)
(* ===================================================================== *)

(** every character of [s] satisfies [f] *)
Fixpoint all_chars (f : ascii → bool) (s : string) : bool :=
  match s with
  | EmptyString => true
  | String c t => f c && all_chars f t
  end.

Definition non_word (c : ascii) : bool := negb (Py.is_word_char c).

(** [word_runs s ws]: [ws] lists, left to right, the maximal non-empty runs
    of word characters of [s], what the pattern [\w+] finds in [s]. *)
Inductive word_runs : string → list string → Prop :=
| runs_none s :
    all_chars non_word s = true → word_runs s []
| runs_next gap word rest ws :
    all_chars non_word gap = true →
    word ≠ EmptyString →
    all_chars Py.is_word_char word = true →
    all_chars non_word (String.substring 0 1 rest) = true →
    word_runs rest ws →
    word_runs (gap +:+ word +:+ rest) (word :: ws).


(** The files of a tree that a top-down walk reaches when it does not enter
    directories whose name starts with a dot, as full paths below [root]:
    the files of the directory itself first, then those of its visible
    sub-directories in listing order. *)
Fixpoint visible_files (root : string) (t : dtree) : list string :=
  match t with
  | DTree files dirs =>
      (Py.join root <$> files) ++
      (fix below (ds : list (string * option dtree)) : list string :=
         match ds with
         | [] => []
         | (d, sub) :: ds' =>
             (if Py.startswith d "." then []
              else match sub with
                   | Some t' => visible_files (Py.join root d) t'
                   | None => []
                   end) ++ below ds'
         end) dirs
  end.

(** the files [os.walk(root)] hands to the loop body, in order *)
Definition walked_files (items : list walk_item) : list string :=
  flat_map (λ item : walk_item,
              let '(root, _, files) := item in Py.join root <$> files) items.

(** the files below [root] in the world [w] outside hidden directories *)
Definition files_under (w : World) (root : string) : list string :=
  match os_listing w root with
  | Some t => visible_files root t
  | None => []
  end.

(** two engines that differ at most in their index and cancellation flag *)
Definition same_settings (e e' : SearchEngine.t) : Prop :=
  SearchEngine.search_history e = SearchEngine.search_history e' ∧
  SearchEngine.max_history e = SearchEngine.max_history e' ∧
  SearchEngine.max_workers e = SearchEngine.max_workers e' ∧
  SearchEngine.chunk_size e = SearchEngine.chunk_size e' ∧
  SearchEngine.max_file_size_for_content_search e
    = SearchEngine.max_file_size_for_content_search e' ∧
  SearchEngine.indexing_enabled e = SearchEngine.indexing_enabled e'.

(** nobody cancels: the flag is clear and no [cancel_search()] is on its way *)
Definition quiet (s : SearchEngine.state) : Prop :=
  SearchEngine.cancel_in s = None ∧
  SearchEngine.cancel_event (SearchEngine.self s) = false.

(** the next poll of the flag reports a cancellation *)
Definition imminent (s : SearchEngine.state) : Prop :=
  SearchEngine.cancel_event (SearchEngine.self s) = true ∨
  SearchEngine.cancel_in s = Some 0.

(** the query descriptor [search_files] records *)
Definition descriptor (now : Z) (q : SearchEngine.args)
  : SearchEngine.history_entry :=
  SearchEngine.mk_entry (SearchEngine.pattern q) (SearchEngine.content_search q)
    now (SearchEngine.root_path q) (SearchEngine.file_type q).

(** the state in which [search_files] starts its strategy: flag cleared,
    query recorded *)
Definition prepared (now : Z) (q : SearchEngine.args) (s : SearchEngine.state)
  : SearchEngine.state :=
  SearchEngine.on_self (SearchEngine._add_to_history (descriptor now q))
    (SearchEngine.on_self SearchEngine.clear_cancel s).

(** a result describes its file as [os.stat] shows it, and is a content
    match only within the size limit [limit] *)
Definition faithful_result (w : World) (limit : Z)
    (r : SearchEngine.SearchResult) : Prop :=
  ∃ st, os_stat w (SearchEngine.path r) = Some st ∧
        SearchEngine.size r = st_size st ∧
        (SearchEngine.match_type r = "filename"%string ∨
         (SearchEngine.match_type r = "content"%string ∧
          (st_size st ≤ limit)%Z)).

(** the text compared with the content term: as it is, or lowercased *)
Definition case_adjusted (case_sensitive : bool) (s : string) : string :=
  if case_sensitive then s else Py.lower s.

#[global] Instance result_eq_dec {A} `{EqDecision A} : EqDecision (result A).
Proof. solve_decision. Defined.

#[global] Instance attempt_eq_dec {A} `{EqDecision A} :
  EqDecision (SearchEngine.attempt A).
Proof. solve_decision. Defined.

(** a file [os.stat] succeeds on and whose time [fromtimestamp] converts *)
Definition readable (w : World) (p : string) : Prop :=
  ∃ st file_date,
    os_stat w p = Some st ∧ fromtimestamp w (st_mtime st) = Ok file_date.

#[global] Instance readable_dec (w : World) (p : string) :
  Decision (readable w p).
Proof.
  unfold readable. destruct (os_stat w p) as [st|].
  - destruct (fromtimestamp w (st_mtime st)) as [file_date| |msg] eqn:Hconv.
    + left. exists st, file_date. split; [reflexivity | exact Hconv].
    + right. intros (st' & d & [= <-] & H). congruence.
    + right. intros (st' & d & [= <-] & H). congruence.
  - right. intros (st' & d & [=] & _).
Defined.

(** no exception other than [OSError] comes from [fromtimestamp] on the
    time of the file [p] *)
Definition time_converts (w : World) (p : string) : Prop :=
  ∀ st msg, os_stat w p = Some st → fromtimestamp w (st_mtime st) ≠ Failure msg.

(** the outcome of [search_files] when the walk of the file-system
    strategy ends as [r] *)
Definition walk_outcome {A} (r : SearchEngine.attempt A)
  : SearchEngine.outcome A :=
  SearchEngine.reraised (SearchEngine.wrapped "Filesystem search failed: " r).

Section Reference.

Variable fnmatch : string → string → bool.
Variable re_search : string → string → SearchEngine.re_result.

(** [accepts w e q p]: [_process_file] takes the file [p] *)
Definition accepts (w : World) (e : SearchEngine.t) (q : SearchEngine.args)
    (p : string) : bool :=
  match SearchEngine._process_file fnmatch re_search w e p q [] with
  | Ok (true, _) => true
  | _ => false
  end.

(** The file-system strategy when no cancellation interrupts it: the files
    are processed in order until the cap is reached or one of them raises
    an exception that is not caught. *)
Fixpoint collect (w : World) (e : SearchEngine.t) (q : SearchEngine.args)
    (paths : list string) (results : list SearchEngine.SearchResult)
  : SearchEngine.attempt (list SearchEngine.SearchResult) :=
  match paths with
  | [] => SearchEngine.Done results
  | p :: rest =>
      if (SearchEngine.max_results q <=? Z.of_nat (length results))%Z
      then SearchEngine.Done results
      else
        match SearchEngine._process_file fnmatch re_search w e p q results with
        | Ok (_, results') => collect w e q rest results'
        | OsError => collect w e q rest results
        | Failure msg => SearchEngine.Escapes msg
        end
  end.

End Reference.

(* ===================================================================== *)
(** ** A small world for the examples *)
(* ===================================================================== *)

(** A glob matcher for the examples: [*] and [?] are wildcards, every other
    character stands for itself; on such patterns it is [fnmatch.fnmatch]. *)
Fixpoint glob_chars (pat : list ascii) (s : list ascii) : bool :=
  match pat with
  | [] => match s with [] => true | _ => false end
  | c :: pat' =>
      if Ascii.eqb c "*" then
        (fix star (s : list ascii) : bool :=
           glob_chars pat' s ||
           match s with
           | [] => false
           | _ :: s' => star s'
           end) s
      else
        match s with
        | [] => false
        | d :: s' => (Ascii.eqb c "?" || Ascii.eqb c d) && glob_chars pat' s'
        end
  end.

Definition glob (filename pat : string) : bool :=
  glob_chars (list_ascii_of_string pat) (list_ascii_of_string filename).

(** A regex stand-in for the examples, none of which sets [regex]: a
    pattern of word characters is searched as a literal, any other pattern
    is refused. *)
Definition plain_search (pat s : string) : SearchEngine.re_result :=
  if all_chars Py.is_word_char pat
  then SearchEngine.Matched (Py.contains pat s)
  else SearchEngine.ReError.

(** the times of the examples are far from the bounds of [datetime] *)
Definition convertible (t : Z) : result Z := Ok t.

Definition a_directory : stat_result := mk_stat true 4096 1000.

(** [/root/a.txt] (contains "hello"), [/root/b/sub.py], [/root/.hidden/x.txt]
    and, apart from them, [/other/notes.txt] *)
Definition demo_world : World :=
  mk_world
    (λ p, if bool_decide (p ∈ ["/root"; "/root/b"; "/root/.hidden"; "/other"]%string)
          then Some a_directory
          else if bool_decide (p = "/root/a.txt"%string) then Some (mk_stat false 5 2000)
          else if bool_decide (p = "/root/b/sub.py"%string) then Some (mk_stat false 11 2001)
          else if bool_decide (p = "/root/.hidden/x.txt"%string) then Some (mk_stat false 3 2002)
          else if bool_decide (p = "/other/notes.txt"%string) then Some (mk_stat false 7 2003)
          else None)
    (λ p, if bool_decide (p = "/root"%string)
          then Some (DTree ["a.txt"%string]
                       [("b"%string, Some (DTree ["sub.py"%string] []));
                        (".hidden"%string, Some (DTree ["x.txt"%string] []))])
          else if bool_decide (p = "/root/b"%string) then Some (DTree ["sub.py"%string] [])
          else if bool_decide (p = "/other"%string) then Some (DTree ["notes.txt"%string] [])
          else None)
    (λ p, if bool_decide (p = "/root/a.txt"%string) then Some "hello"%string
          else if bool_decide (p = "/root/b/sub.py"%string) then Some "print(1)
"%string
          else if bool_decide (p = "/root/.hidden/x.txt"%string) then Some "abc"%string
          else if bool_decide (p = "/other/notes.txt"%string) then Some "to do
"%string
          else None)
    (λ p, if bool_decide (p = "/root/a.txt"%string) then Some "hello"%string
          else if bool_decide (p = "/root/b/sub.py"%string) then Some "print(1)
"%string
          else if bool_decide (p = "/root/.hidden/x.txt"%string) then Some "abc"%string
          else if bool_decide (p = "/other/notes.txt"%string) then Some "to do
"%string
          else None)
    convertible.

(** the file name [f0000], [f0001], ... of number [n] *)
Definition numbered (n : nat) : string :=
  let digit (k : nat) := ascii_of_nat (48 + k mod 10) in
  String "f" (String (digit (n / 1000)) (String (digit (n / 100))
    (String (digit (n / 10)) (String (digit n) EmptyString)))).

(** a directory [/big] that holds the 1001 files [f0000] ... [f1000] *)
Definition crowded_world : World :=
  mk_world
    (λ p, if bool_decide (p = "/big"%string) then Some a_directory
          else Some (mk_stat false 1 3000))
    (λ p, if bool_decide (p = "/big"%string)
          then Some (DTree (numbered <$> seq 0 1001) [])
          else None)
    (λ _, Some EmptyString)
    (λ _, Some EmptyString)
    convertible.

(** [search_files(root, pattern, use_index=False)], the other parameters at
    their defaults *)
Definition walk_query (root pat : string) : SearchEngine.args :=
  SearchEngine.mk_args root pat None None None None None None
    false false 1000 false false.

(** [demo_world] after [/root/a.txt] was modified again *)
Definition touched_world : World :=
  mk_world
    (λ p, if bool_decide (p = "/root/a.txt"%string) then Some (mk_stat false 5 2500)
          else os_stat demo_world p)
    (os_listing demo_world) (read_text demo_world) (read_bytes demo_world)
    convertible.

(** a directory [/office] with [Report.TXT] (10 bytes), [report.txt]
    (1000 bytes), [plan.doc] (2000 bytes) and [gone.txt], which is listed
    but deleted before [os.stat] reaches it *)
Definition office_world : World :=
  mk_world
    (λ p, if bool_decide (p = "/office"%string) then Some a_directory
          else if bool_decide (p = "/office/Report.TXT"%string) then Some (mk_stat false 10 500)
          else if bool_decide (p = "/office/report.txt"%string) then Some (mk_stat false 1000 501)
          else if bool_decide (p = "/office/plan.doc"%string) then Some (mk_stat false 2000 502)
          else None)
    (λ p, if bool_decide (p = "/office"%string)
          then Some (DTree ["Report.TXT"; "report.txt"; "plan.doc"; "gone.txt"]%string [])
          else None)
    (λ _, None)
    (λ _, None)
    convertible.

(** the paths a call returned *)
Definition returned_paths
    (run : SearchEngine.outcome (list SearchEngine.SearchResult) * SearchEngine.state)
  : list string :=
  match run.1 with
  | SearchEngine.Ret rs => SearchEngine.path <$> rs
  | SearchEngine.Raise _ => []
  end.

(** a world without any file *)
Definition empty_world : World :=
  mk_world (λ _, None) (λ _, None) (λ _, None) (λ _, None) convertible.

(** a directory [/future] with the file [old.txt], whose modification time
    is beyond what [datetime.fromtimestamp] converts: it raises
    [ValueError] *)
Definition future_world : World :=
  mk_world
    (λ p, if bool_decide (p = "/future"%string) then Some a_directory
          else if bool_decide (p = "/future/old.txt"%string)
               then Some (mk_stat false 4 1000000000000)
          else None)
    (λ p, if bool_decide (p = "/future"%string)
          then Some (DTree ["old.txt"%string] [])
          else None)
    (λ _, None)
    (λ _, None)
    (λ t, if (t <? 253402300800)%Z then Ok t
          else Failure "year 33658 is out of range").

(** a new engine, nobody cancelling, no progress reported yet *)
Definition fresh : SearchEngine.state :=
  SearchEngine.mk_state (SearchEngine.init 4) None [].

(** a new engine and a thread that cancels after [k] polls of the flag *)
Definition fresh_cancelled (k : nat) : SearchEngine.state :=
  SearchEngine.mk_state (SearchEngine.init 4) (Some k) [].

(** a new engine whose content-search limit is 3 bytes *)
Definition tight_limit : SearchEngine.state :=
  SearchEngine.mk_state
    (SearchEngine.mk [] 50 false SearchIndex.init 4 8192 3 true) None [].

(** [search_files("/root", "*", content_search=term)] *)
Definition content_query (term : string) : SearchEngine.args :=
  SearchEngine.mk_args "/root" "*" (Some term) None None None None None
    false false 1000 true false.

(** the engine after [search_files("/other")] on [demo_world] *)
Definition after_other_search : SearchEngine.state :=
  (SearchEngine.search_files glob plain_search demo_world 0
     (SearchEngine.defaults "/other" "*") fresh).2.

(* ===================================================================== *)
(** ** Notions for the further properties *)
(* ===================================================================== *)

(** the index after [add_file] was called on the paths of a list, in order *)
Definition add_files (w : World) (paths : list string) (ix : SearchIndex.t)
  : SearchIndex.t :=
  foldl (λ acc file_path, SearchIndex.add_file w file_path acc) ix paths.

(** the words [add_file] files a path under *)
Definition name_words (file_path : string) : list string :=
  Py.findall_word (Py.lower (Py.basename file_path)).

Section Criteria.

Variable fnmatch : string → string → bool.
Variable re_search : string → string → SearchEngine.re_result.

(** The name of the file [p] passes the pattern and extension of [q], and
    its size, as [os.stat] reports it in [st], the size bounds: the bounds
    are inclusive, a bound of 0 and an empty extension ask for nothing. *)
Definition meets_name_and_size (q : SearchEngine.args) (p : string)
    (st : stat_result) : Prop :=
  SearchEngine._match_pattern fnmatch re_search (Py.basename p)
    (SearchEngine.pattern q) (SearchEngine.case_sensitive q)
    (SearchEngine.regex q) = SearchEngine.Done true ∧
  (∀ ext, SearchEngine.file_type q = Some ext → ext ≠ EmptyString →
     Py.endswith (Py.lower (Py.basename p)) (Py.lower ext) = true) ∧
  (∀ n, SearchEngine.size_min q = Some n → n ≠ 0%Z → (n ≤ st_size st)%Z) ∧
  (∀ n, SearchEngine.size_max q = Some n → n ≠ 0%Z → (st_size st ≤ n)%Z).

(** The file [p], of which [os.stat] reports [st] and whose time converts
    to [file_date], meets the name, extension, size and date criteria of
    the query [q]; the date bounds are inclusive. *)
Definition meets_criteria (q : SearchEngine.args) (p : string)
    (st : stat_result) (file_date : Z) : Prop :=
  meets_name_and_size q p st ∧
  (∀ d, SearchEngine.date_from q = Some d → (d ≤ file_date)%Z) ∧
  (∀ d, SearchEngine.date_to q = Some d → (file_date ≤ d)%Z).

(** A result that describes a file meeting the criteria of [q]: its
    fields are those of the path, of [os.stat] and of the converted time,
    and a content match carries a non-empty line of at most 200 characters
    and its number. *)
Definition sound_result (w : World) (q : SearchEngine.args)
    (r : SearchEngine.SearchResult) : Prop :=
  ∃ st file_date,
    os_stat w (SearchEngine.path r) = Some st ∧
    fromtimestamp w (st_mtime st) = Ok file_date ∧
    meets_criteria q (SearchEngine.path r) st file_date ∧
    SearchEngine.name r = Py.basename (SearchEngine.path r) ∧
    SearchEngine.directory r = Py.dirname (SearchEngine.path r) ∧
    SearchEngine.size r = st_size st ∧
    SearchEngine.modified r = file_date ∧
    (SearchEngine.match_type r = "filename"%string ∨
     (SearchEngine.match_type r = "content"%string ∧
      Py.truthy_opt (SearchEngine.content_search q) = true ∧
      ∃ line n,
        SearchEngine.match_line r = Some line ∧
        line ≠ EmptyString ∧ String.length line ≤ 200 ∧
        SearchEngine.match_line_number r = Some n ∧ 1 ≤ n)).

End Criteria.

(** the index [ix] holds the file of the result [r]: its time is recorded
    and not older than the file's, and the path is in the posting set of
    every word of its name *)
Definition held_by (w : World) (ix : SearchIndex.t)
    (r : SearchEngine.SearchResult) : Prop :=
  SearchIndex.is_indexed w (SearchEngine.path r) ix = true ∧
  ∀ word, word ∈ name_words (SearchEngine.path r) →
          SearchEngine.path r ∈ SearchIndex.matches ix word.

(** the paths the walk of [quick_search] reports for a lowercased query:
    the directories and files, in that order directory by directory, whose
    lowercased name contains it *)
Definition quick_matches (query_lower : string) (items : list walk_item)
  : list string :=
  flat_map (λ item : walk_item,
              let '(root, dirs, files) := item in
              Py.join root <$>
                filter (λ entry, Py.contains query_lower (Py.lower entry) = true)
                       (dirs ++ files)) items.

(** the number of files in the directories of a walk *)
Definition total_files (items : list walk_item) : nat :=
  foldr (λ (item : walk_item) acc, length item.2 + acc) 0 items.

(** a new engine with indexing switched off *)
Definition unindexed : SearchEngine.state :=
  SearchEngine.mk_state
    (SearchEngine.mk [] 50 false SearchIndex.init 4 8192 (10 * 1024 * 1024) false)
    None [].

(* ===================================================================== *)
(** ** Facts on the string primitives *)
(* ===================================================================== *)

Section StringFacts.

Lemma str_app_nil_l (s : string) : EmptyString +:+ s = s.
Proof. reflexivity. Qed.

Lemma str_app_cons (c : ascii) (s t : string) :
  String c s +:+ t = String c (s +:+ t).
Proof. reflexivity. Qed.

Lemma str_app_nil_r (s : string) : s +:+ EmptyString = s.
Proof.
  induction s as [|c s IH]; [reflexivity |].
  now rewrite str_app_cons, IH.
Qed.

Lemma str_app_assoc (a b c : string) : (a +:+ b) +:+ c = a +:+ (b +:+ c).
Proof.
  induction a as [|x a IH]; [reflexivity |].
  now rewrite !str_app_cons, IH.
Qed.

Lemma all_chars_app (f : ascii → bool) (a b : string) :
  all_chars f (a +:+ b) = all_chars f a && all_chars f b.
Proof.
  induction a as [|x a IH]; [reflexivity |].
  rewrite str_app_cons. simpl. rewrite IH. now rewrite andb_assoc.
Qed.

Lemma truthy_false (s : string) : Py.truthy s = false → s = EmptyString.
Proof. destruct s; simpl; [reflexivity | discriminate]. Qed.

Lemma truthy_true (s : string) : Py.truthy s = true → s ≠ EmptyString.
Proof. destruct s; simpl; [discriminate | intros _; discriminate]. Qed.

(** A leading separator does not change the runs. *)
Lemma word_runs_skip (c : ascii) (s : string) (ws : list string) :
  Py.is_word_char c = false → word_runs s ws → word_runs (String c s) ws.
Proof.
  intros Hc Hr.
  inversion Hr as [s' Hs | gap word rest ws' Hg Hne Hw Hrest Hrec]; subst.
  - apply runs_none. simpl. unfold non_word at 1. now rewrite Hc.
  - rewrite <- str_app_cons.
    apply runs_next; try assumption.
    simpl. unfold non_word at 1. now rewrite Hc.
Qed.

Lemma findall_word_go_runs (s cur : string) :
  all_chars Py.is_word_char cur = true →
  word_runs (cur +:+ s) (Py.findall_word_go cur s).
Proof.
  revert cur. induction s as [|c s IH]; intros cur Hcur; simpl.
  - destruct (Py.truthy cur) eqn:Ht.
    + rewrite <- (str_app_nil_l (cur +:+ EmptyString)).
      apply runs_next; try reflexivity; try assumption.
      * now apply truthy_true.
      * now apply runs_none.
    + apply truthy_false in Ht. subst. now apply runs_none.
  - destruct (Py.is_word_char c) eqn:Hc.
    + specialize (IH (cur +:+ String c EmptyString)).
      rewrite str_app_assoc, str_app_cons, str_app_nil_l in IH. apply IH.
      rewrite all_chars_app. simpl. now rewrite Hcur, Hc.
    + specialize (IH EmptyString eq_refl). rewrite str_app_nil_l in IH.
      destruct (Py.truthy cur) eqn:Ht.
      * rewrite <- (str_app_nil_l (cur +:+ String c s)).
        apply runs_next; try reflexivity; try assumption.
        -- now apply truthy_true.
        -- simpl. unfold non_word. rewrite Hc. now destruct s.
        -- now apply word_runs_skip.
      * apply truthy_false in Ht. subst. rewrite str_app_nil_l.
        now apply word_runs_skip.
Qed.

(** [findall_word] computes the runs of word characters. *)
Lemma findall_word_runs (s : string) : word_runs s (Py.findall_word s).
Proof. apply (findall_word_go_runs s EmptyString). reflexivity. Qed.

(* --------------------------------------------------------------------- *)
(** *** Substrings *)

Lemma prefix_intro (n b : string) : String.prefix n (n +:+ b) = true.
Proof.
  induction n as [|c n IH]; [now destruct b |].
  rewrite str_app_cons. simpl. now destruct (ascii_dec c c).
Qed.

Lemma prefix_inv (n h : string) :
  String.prefix n h = true → ∃ b, h = n +:+ b.
Proof.
  revert h. induction n as [|c n IH]; intros h H.
  - exists h. reflexivity.
  - destruct h as [|d h]; simpl in H; [discriminate |].
    destruct (ascii_dec c d) as [->|]; [| discriminate].
    destruct (IH h H) as [b ->]. exists b. reflexivity.
Qed.

Lemma contains_prefix (n h : string) :
  String.prefix n h = true → Py.contains n h = true.
Proof. intros H. destruct h; cbn [Py.contains]; now rewrite H. Qed.

Lemma contains_intro (n a b : string) :
  Py.contains n (a +:+ n +:+ b) = true.
Proof.
  induction a as [|c a IH].
  - rewrite str_app_nil_l. apply contains_prefix, prefix_intro.
  - rewrite str_app_cons. simpl. rewrite IH. apply orb_true_r.
Qed.

Lemma contains_inv (n h : string) :
  Py.contains n h = true → ∃ a b, h = a +:+ n +:+ b.
Proof.
  induction h as [|c h IH]; cbn [Py.contains]; intros H.
  - rewrite orb_false_r in H. apply prefix_inv in H as [b Hb].
    exists EmptyString, b. exact Hb.
  - apply orb_true_iff in H as [H | H].
    + apply prefix_inv in H as [b Hb]. exists EmptyString, b. exact Hb.
    + destruct (IH H) as (a & b & ->). exists (String c a), b. reflexivity.
Qed.

(** [needle in hay] says that [hay] is [a + needle + b] for some [a], [b]. *)
Lemma contains_spec (n h : string) :
  Py.contains n h = true ↔ ∃ a b, h = a +:+ n +:+ b.
Proof.
  split; [apply contains_inv |]. intros (a & b & ->). apply contains_intro.
Qed.

(** What a part of a text contains, the text contains. *)
Lemma contains_part (n a h b : string) :
  Py.contains n (a +:+ h +:+ b) = false → Py.contains n h = false.
Proof.
  intros Hno. destruct (Py.contains n h) eqn:Hyes; [| reflexivity].
  apply contains_inv in Hyes as (a' & b' & ->).
  rewrite <- Hno. symmetry.
  replace (a +:+ (a' +:+ n +:+ b') +:+ b)
    with ((a +:+ a') +:+ n +:+ (b' +:+ b))
    by now rewrite !str_app_assoc.
  apply contains_intro.
Qed.

Lemma lower_app (a b : string) :
  Py.lower (a +:+ b) = Py.lower a +:+ Py.lower b.
Proof.
  induction a as [|c a IH]; [reflexivity |].
  rewrite str_app_cons. simpl. now rewrite IH, str_app_cons.
Qed.

Lemma case_adjusted_app (cs : bool) (a b : string) :
  case_adjusted cs (a +:+ b) = case_adjusted cs a +:+ case_adjusted cs b.
Proof. destruct cs; [reflexivity | apply lower_app]. Qed.

(** A term missing from a text is missing from every part of it, also after
    the case adjustment. *)
Lemma missing_in_part (cs : bool) (n a h b : string) :
  Py.contains n (case_adjusted cs (a +:+ h +:+ b)) = false →
  Py.contains n (case_adjusted cs h) = false.
Proof.
  rewrite !case_adjusted_app. apply contains_part.
Qed.

(* --------------------------------------------------------------------- *)
(** *** Lines and chunks *)

Lemma split_nl_cons (c : ascii) (t : string) :
  ∃ l ls, Py.split_nl t = l :: ls ∧
          Py.split_nl (String c t)
          = if Ascii.eqb c "010" then EmptyString :: l :: ls
            else String c l :: ls.
Proof.
  assert (Hne : ∃ l ls, Py.split_nl t = l :: ls).
  { destruct t as [|d t]; simpl; [eauto |].
    destruct (Py.split_nl t); [eauto |]. destruct (Ascii.eqb d "010"); eauto. }
  destruct Hne as (l & ls & H). exists l, ls. split; [exact H |].
  simpl. now rewrite H.
Qed.

(** the first line is the beginning of the text *)
Lemma split_nl_head (s l : string) (ls : list string) :
  Py.split_nl s = l :: ls → ∃ b, s = l +:+ b.
Proof.
  revert l ls. induction s as [|c t IH]; intros l ls H.
  - simpl in H. injection H as <- <-. exists EmptyString. reflexivity.
  - destruct (split_nl_cons c t) as (l0 & ls0 & Ht & Hs).
    rewrite Hs in H. destruct (Ascii.eqb c "010").
    + injection H as <- _. exists (String c t). reflexivity.
    + injection H as <- _. destruct (IH l0 ls0 Ht) as [b ->].
      exists b. reflexivity.
Qed.

(** a text without a line break is its own single line *)
Lemma split_nl_single (s l : string) : Py.split_nl s = [l] → s = l.
Proof.
  revert l. induction s as [|c t IH]; intros l H.
  - simpl in H. now injection H.
  - destruct (split_nl_cons c t) as (l0 & ls0 & Ht & Hs).
    rewrite Hs in H. destruct (Ascii.eqb c "010"); [discriminate |].
    injection H as <- ->. now rewrite (IH l0 Ht).
Qed.

(** every line is a part of the text *)
Lemma split_nl_part (s l : string) :
  l ∈ Py.split_nl s → ∃ a b, s = a +:+ l +:+ b.
Proof.
  revert l. induction s as [|c t IH]; intros l H.
  - simpl in H. apply list_elem_of_singleton in H as ->.
    exists EmptyString, EmptyString. reflexivity.
  - destruct (split_nl_cons c t) as (l0 & ls0 & Ht & Hs).
    rewrite Hs in H. destruct (Ascii.eqb c "010").
    + apply elem_of_cons in H as [-> | H].
      * exists EmptyString, (String c t). reflexivity.
      * rewrite <- Ht in H. destruct (IH l H) as (a & b & ->).
        exists (String c a), b. reflexivity.
    + apply elem_of_cons in H as [-> | H].
      * destruct (split_nl_head t l0 ls0 Ht) as [b ->].
        exists EmptyString, b. reflexivity.
      * assert (Hin : l ∈ Py.split_nl t)
          by (rewrite Ht; apply elem_of_cons; auto).
        destruct (IH l Hin) as (a & b & ->).
        exists (String c a), b. reflexivity.
Qed.

(** the last line is the end of the text *)
Lemma split_nl_last (s : string) :
  ∃ a, s = a +:+ List.last (Py.split_nl s) EmptyString.
Proof.
  induction s as [|c t IH].
  - exists EmptyString. reflexivity.
  - destruct (split_nl_cons c t) as (l0 & ls0 & Ht & Hs).
    rewrite Hs. rewrite Ht in IH. destruct IH as [a Ha].
    destruct (Ascii.eqb c "010").
    + exists (String c a). rewrite str_app_cons. f_equal. exact Ha.
    + destruct ls0 as [|l1 ls1].
      * exists EmptyString. simpl. f_equal. now apply split_nl_single.
      * exists (String c a). rewrite str_app_cons. f_equal. exact Ha.
Qed.

Lemma elem_of_removelast {A} (x : A) (l : list A) :
  x ∈ removelast l → x ∈ l.
Proof.
  induction l as [|y l IH]; simpl; [done |].
  destruct l as [|z l]; [intros []%elem_of_nil |].
  intros [-> | H]%elem_of_cons; apply elem_of_cons; auto.
Qed.

Lemma substring_all (s : string) : String.substring 0 (String.length s) s = s.
Proof. induction s as [|c s IH]; simpl; [reflexivity | now rewrite IH]. Qed.

(** [s[:n] + s[n:]] is [s] *)
Lemma substring_split (n : nat) (s : string) :
  s = String.substring 0 n s +:+ String.substring n (String.length s - n) s.
Proof.
  revert n. induction s as [|c s IH]; intros n.
  - now destruct n.
  - destruct n as [|n].
    + cbn [String.substring String.length Nat.sub].
      rewrite str_app_nil_l. cbn [String.substring]. now rewrite substring_all.
    + cbn [String.substring String.length Nat.sub].
      rewrite str_app_cons. f_equal. apply IH.
Qed.

Lemma str_length_app (a b : string) :
  String.length (a +:+ b) = String.length a + String.length b.
Proof.
  induction a as [|c a IH]; [reflexivity |].
  rewrite str_app_cons. simpl. now rewrite IH.
Qed.

Lemma substring_empty_inv (n : nat) (s : string) :
  0 < n → String.substring 0 n s = EmptyString → s = EmptyString.
Proof. destruct n, s; simpl; intros; first [lia | congruence]. Qed.

(** The chunks read with a positive chunk size make up the whole text: the
    bound on their number is never the reason the reading stops. *)
Lemma chunks_go_complete (n : nat) :
  0 < n →
  ∀ (fuel : nat) (s : string),
    String.length s ≤ fuel →
    foldr String.append EmptyString (Py.chunks_go fuel n s) = s.
Proof.
  intros Hn. induction fuel as [|fuel IH]; intros s Hlen.
  - destruct s; [reflexivity | simpl in Hlen; lia].
  - cbn [Py.chunks_go].
    pose proof (substring_split n s) as Hsplit.
    destruct (String.substring 0 n s) as [|c chunk] eqn:Hchunk.
    + now rewrite (substring_empty_inv n s Hn Hchunk).
    + cbn [foldr]. rewrite IH; [now rewrite <- Hsplit |].
      apply (f_equal String.length) in Hsplit.
      rewrite str_length_app in Hsplit. simpl in Hsplit. lia.
Qed.

Lemma chunks_complete (n : nat) (s : string) :
  0 < n → foldr String.append EmptyString (Py.chunks n s) = s.
Proof. intros Hn. now apply chunks_go_complete. Qed.

(* --------------------------------------------------------------------- *)
(** *** Paths *)

Lemma split_no_slash (f : string) :
  Py.has_char "/" f = false → Py.split_last_slash f = (EmptyString, f).
Proof.
  induction f as [|c f IH]; cbn [Py.has_char Py.split_last_slash];
    [reflexivity |].
  intros H. apply orb_false_iff in H as [Hc Hf].
  rewrite (IH Hf). cbn [Py.truthy].
  now rewrite Ascii.eqb_sym, Hc.
Qed.

Lemma split_after_slash (a f : string) :
  Py.has_char "/" f = false →
  Py.split_last_slash (a +:+ String "/" f) = (a +:+ "/", f).
Proof.
  intros Hf. induction a as [|c a IH].
  - rewrite !str_app_nil_l.
    cbn [Py.split_last_slash]. now rewrite (split_no_slash f Hf).
  - rewrite !str_app_cons. cbn [Py.split_last_slash]. rewrite IH.
    now destruct a.
Qed.

Lemma last_char_slash (s : string) :
  String.substring (String.length s - 1) 1 s = "/"%string →
  ∃ r, s = r +:+ "/".
Proof.
  induction s as [|c t IH]; [discriminate |].
  cbn [String.length]. rewrite Nat.sub_succ, Nat.sub_0_r.
  destruct t as [|d t'].
  - simpl. intros H. exists EmptyString. now injection H as ->.
  - cbn [String.length String.substring].
    cbn [String.length] in IH. rewrite Nat.sub_succ, Nat.sub_0_r in IH.
    intros H. destruct (IH H) as [r ->]. exists (String c r). reflexivity.
Qed.

(** The base name of a file found by the walk is its name in the listing. *)
Lemma basename_join (root f : string) :
  Py.has_char "/" f = false → Py.basename (Py.join root f) = f.
Proof.
  intros Hf. unfold Py.basename, Py.join.
  assert (Hstart : Py.startswith f "/" = false).
  { destruct f as [|c f]; [reflexivity |]. cbn [Py.has_char] in Hf.
    apply orb_false_iff in Hf as [Hc _]. unfold Py.startswith.
    cbn [String.prefix].
    destruct (ascii_dec "/" c) as [<-|]; [| reflexivity].
    now rewrite Ascii.eqb_refl in Hc. }
  rewrite Hstart.
  destruct (Py.truthy root) eqn:Hroot; cbn [negb orb].
  - destruct (Py.endswith root "/") eqn:Hend.
    + unfold Py.endswith in Hend. apply andb_true_iff in Hend as [_ Hend].
      apply String.eqb_eq in Hend. simpl in Hend.
      destruct (last_char_slash root Hend) as [r ->].
      rewrite str_app_assoc. change ("/" +:+ f) with (String "/" f).
      now rewrite split_after_slash.
    + change ("/" +:+ f) with (String "/" f).
      now rewrite split_after_slash.
  - apply truthy_false in Hroot as ->. rewrite str_app_nil_l.
    now rewrite split_no_slash.
Qed.

End StringFacts.

(* ===================================================================== *)
(** ** SearchIndex: postings, queries and freshness *)
(* ===================================================================== *)

Section IndexFacts.

Implicit Types (ix : gmap string (gset string)) (f word : string).

Lemma add_word_lookup ix f word (k : string) :
  SearchIndex.add_word f ix word !! k =
    if decide (k = word) then Some (default ∅ (ix !! word) ∪ {[f]})
    else ix !! k.
Proof.
  unfold SearchIndex.add_word.
  destruct (ix !! word) as [s|] eqn:Hw.
  - rewrite Hw. case_decide as Hk.
    + subst. now rewrite lookup_insert_eq.
    + now rewrite lookup_insert_ne by congruence.
  - rewrite lookup_insert_eq. case_decide as Hk.
    + subst. now rewrite lookup_insert_eq.
    + now rewrite !lookup_insert_ne by congruence.
Qed.

Lemma add_words_lookup (words : list string) ix f (k : string) :
  foldl (SearchIndex.add_word f) ix words !! k =
    if decide (k ∈ words) then Some (default ∅ (ix !! k) ∪ {[f]})
    else ix !! k.
Proof.
  revert ix. induction words as [|word words IH]; intros ix; cbn [foldl].
  - case_decide as Hin; [inversion Hin | done].
  - rewrite IH, add_word_lookup.
    destruct (decide (k = word)) as [->|Hne].
    + rewrite (decide_True (P := word ∈ word :: words)) by (apply elem_of_cons; auto).
      simpl. case_decide; f_equal; set_solver.
    + destruct (decide (k ∈ words)) as [Hin|Hin].
      * rewrite decide_True; [done | apply elem_of_cons; auto].
      * rewrite decide_False; [done |].
        intros [?|?]%elem_of_cons; contradiction.
Qed.

(** Inserting a path under the same words a second time changes nothing. *)
Lemma add_words_twice (words : list string) ix f :
  foldl (SearchIndex.add_word f) (foldl (SearchIndex.add_word f) ix words) words
  = foldl (SearchIndex.add_word f) ix words.
Proof.
  apply map_eq. intros k. rewrite !add_words_lookup.
  case_decide; [| done]. simpl. f_equal. set_solver.
Qed.

Lemma add_file_index (w : World) f (i : SearchIndex.t) :
  SearchIndex.index (SearchIndex.add_file w f i) =
    foldl (SearchIndex.add_word f) (SearchIndex.index i)
          (Py.findall_word (Py.lower (Py.basename f))).
Proof. unfold SearchIndex.add_file. now destruct (getmtime w f). Qed.

Lemma add_file_timestamps (w : World) f (i : SearchIndex.t) :
  SearchIndex.file_timestamps (SearchIndex.add_file w f i) =
    match getmtime w f with
    | Some mtime => <[f := mtime]> (SearchIndex.file_timestamps i)
    | None => SearchIndex.file_timestamps i
    end.
Proof. unfold SearchIndex.add_file. now destruct (getmtime w f). Qed.

(** [search] reads the postings only. *)
Lemma search_index_only (i j : SearchIndex.t) (query : string) :
  SearchIndex.index i = SearchIndex.index j →
  SearchIndex.search i query = SearchIndex.search j query.
Proof.
  intros Heq. unfold SearchIndex.search, SearchIndex.matches.
  now rewrite Heq.
Qed.

(** On an unchanged file the second [add_file] leaves the whole index as
    the first one made it. *)
Lemma add_file_twice_state (w : World) f (i : SearchIndex.t) :
  SearchIndex.add_file w f (SearchIndex.add_file w f i)
  = SearchIndex.add_file w f i.
Proof.
  unfold SearchIndex.add_file at 1.
  rewrite add_file_index, add_words_twice, add_file_timestamps.
  unfold SearchIndex.add_file.
  destruct (getmtime w f); [| done].
  now rewrite insert_insert_eq.
Qed.

Lemma elem_of_matches (i : SearchIndex.t) word (p : string) :
  p ∈ SearchIndex.matches i word ↔
    ∃ indexed_word posting,
      SearchIndex.index i !! indexed_word = Some posting ∧
      Py.contains word indexed_word = true ∧ p ∈ posting.
Proof.
  unfold SearchIndex.matches. rewrite elem_of_union_list. split.
  - intros (X & HX & Hp).
    apply list_elem_of_fmap in HX as ([k v] & -> & Hkv).
    apply list_elem_of_filter in Hkv as [Hc Hkv].
    apply elem_of_map_to_list in Hkv. simpl in *. eauto.
  - intros (k & v & Hl & Hc & Hp). exists v. split; [| done].
    apply list_elem_of_fmap. exists (k, v). split; [done |].
    apply list_elem_of_filter. split; [done |].
    now apply elem_of_map_to_list.
Qed.

Lemma elem_of_foldl_intersection (sets : list (gset string))
    (s : gset string) (p : string) :
  p ∈ foldl (∩) s sets ↔ p ∈ s ∧ ∀ X, X ∈ sets → p ∈ X.
Proof.
  revert s. induction sets as [|Y sets IH]; intros s; simpl.
  - split; [intros ?; split; [done | intros ? []%elem_of_nil] | tauto].
  - rewrite IH, elem_of_intersection. split.
    + intros [[Hs HY] Hall]. split; [done |].
      intros X [->|HX]%elem_of_cons; auto.
    + intros [Hs Hall]. repeat split; [done | |].
      * apply Hall, elem_of_cons; auto.
      * intros X HX. apply Hall, elem_of_cons; auto.
Qed.

Lemma elem_of_intersection_all (sets : list (gset string)) (p : string) :
  p ∈ SearchIndex.intersection_all sets ↔
    sets ≠ [] ∧ ∀ X, X ∈ sets → p ∈ X.
Proof.
  destruct sets as [|s sets]; simpl.
  - split; [intros []%elem_of_empty | intros [? _]; congruence].
  - rewrite elem_of_foldl_intersection. split.
    + intros [Hs Hall]. split; [done |].
      intros X [->|HX]%elem_of_cons; auto.
    + intros [_ Hall]. split.
      * apply Hall, elem_of_cons; auto.
      * intros X HX. apply Hall, elem_of_cons; auto.
Qed.

End IndexFacts.

(** C4.  [SearchIndex.search(query)] cuts the lowercased query into its
    runs of word characters and returns the paths that lie, for every such
    query word, in the posting set of some indexed word containing it: the
    intersection over the query words of the unions of those posting sets.
    A query without a word gives the empty set. *)
Theorem C4_search_intersection_of_unions (i : SearchIndex.t) (query : string) :
  word_runs (Py.lower query) (Py.findall_word (Py.lower query)) ∧
  (Py.findall_word (Py.lower query) = [] → SearchIndex.search i query = ∅) ∧
  (∀ p : string,
     p ∈ SearchIndex.search i query ↔
       Py.findall_word (Py.lower query) ≠ [] ∧
       ∀ word, word ∈ Py.findall_word (Py.lower query) →
         ∃ indexed_word posting,
           SearchIndex.index i !! indexed_word = Some posting ∧
           Py.contains word indexed_word = true ∧ p ∈ posting).
Proof.
  split; [apply findall_word_runs |].
  unfold SearchIndex.search.
  set (query_words := Py.findall_word (Py.lower query)). split.
  - now intros ->.
  - intros p. destruct query_words as [|word0 rest] eqn:Hq.
    + split; [intros []%elem_of_empty | intros [? _]; congruence].
    + change (match SearchIndex.matches i <$> word0 :: rest with
              | [] => ∅
              | _ :: _ => SearchIndex.intersection_all
                            (SearchIndex.matches i <$> word0 :: rest)
              end)
        with (SearchIndex.intersection_all
                (SearchIndex.matches i <$> word0 :: rest)).
      rewrite elem_of_intersection_all. split.
      * intros [_ Hall]. split; [done |]. intros word Hword.
        apply elem_of_matches, Hall, list_elem_of_fmap. eauto.
      * intros [_ Hall]. split; [done |]. intros X HX.
        apply list_elem_of_fmap in HX as (word & -> & Hword).
        apply elem_of_matches. auto.
Qed.

(** C5.  After [add_file(f)] recorded the modification time of [f],
    [is_indexed(f)] is true while that time is unchanged and false once the
    file's time is later than the recorded one; a path without a recorded
    time, or whose time cannot be read, is reported as not indexed. *)
Theorem C5_is_indexed_tracks_mtime (w w' : World) (f : string)
    (i : SearchIndex.t) (mtime : Z) :
  getmtime w f = Some mtime →
  SearchIndex.is_indexed w f (SearchIndex.add_file w f i) = true ∧
  (getmtime w' f = Some mtime →
     SearchIndex.is_indexed w' f (SearchIndex.add_file w f i) = true) ∧
  (∀ later, getmtime w' f = Some later → (mtime < later)%Z →
     SearchIndex.is_indexed w' f (SearchIndex.add_file w f i) = false) ∧
  (∀ (j : SearchIndex.t) (p : string),
     SearchIndex.file_timestamps j !! p = None →
     SearchIndex.is_indexed w' p j = false) ∧
  (∀ (j : SearchIndex.t) (p : string),
     getmtime w' p = None → SearchIndex.is_indexed w' p j = false).
Proof.
  intros Hm.
  assert (Hts : SearchIndex.file_timestamps (SearchIndex.add_file w f i) !! f
                = Some mtime).
  { rewrite add_file_timestamps, Hm. apply lookup_insert_eq. }
  unfold SearchIndex.is_indexed. rewrite Hts, Hm.
  repeat split.
  - apply Z.leb_refl.
  - intros ->. apply Z.leb_refl.
  - intros later -> Hlt. apply Z.leb_gt. exact Hlt.
  - intros j p ->. reflexivity.
  - intros j p ->. now destruct (SearchIndex.file_timestamps j !! p).
Qed.

(** C9.  A second [add_file(f)] on a file with the same name does not change
    the answer of [search] to any query (whatever the modification times
    read by the two calls). *)
Theorem C9_add_file_twice_same_search (w1 w2 : World) (f : string)
    (i : SearchIndex.t) (query : string) :
  SearchIndex.search (SearchIndex.add_file w2 f (SearchIndex.add_file w1 f i)) query
  = SearchIndex.search (SearchIndex.add_file w1 f i) query.
Proof.
  apply search_index_only.
  rewrite (add_file_index w2), !(add_file_index w1).
  apply add_words_twice.
Qed.

(* ===================================================================== *)
(** ** SearchEngine: the state a search leaves alone *)
(* ===================================================================== *)

Section EngineFacts.

Import SearchEngine.

Variable fnmatch : string → string → bool.
Variable re_search : string → string → re_result.

Lemma same_settings_refl (e : t) : same_settings e e.
Proof. unfold same_settings. tauto. Qed.

Lemma same_settings_trans (e1 e2 e3 : t) :
  same_settings e1 e2 → same_settings e2 e3 → same_settings e1 e3.
Proof. unfold same_settings. intuition congruence. Qed.

Lemma same_settings_with_index (e : t) (ix : SearchIndex.t) :
  same_settings e (with_index ix e).
Proof. unfold same_settings. simpl. tauto. Qed.

Lemma same_settings_with_cancel (e : t) (b : bool) :
  same_settings e (with_cancel b e).
Proof. unfold same_settings. simpl. tauto. Qed.

Lemma is_set_settings (s : state) :
  same_settings (self s) (self (is_set s).2).
Proof.
  unfold is_set, cancel_search. destruct (cancel_in s) as [[|k]|]; simpl;
    auto using same_settings_refl, same_settings_with_cancel.
Qed.

Lemma is_set_index (s : state) : index (self (is_set s).2) = index (self s).
Proof. unfold is_set. now destruct (cancel_in s) as [[|k]|]. Qed.

Lemma is_set_quiet (s : state) : quiet s → is_set s = (false, s).
Proof. intros [Hin Hev]. unfold is_set. now rewrite Hin, Hev. Qed.

(** Once the flag is set, every later poll sees it. *)
Lemma is_set_stopped (s : state) :
  cancel_event (self s) = true →
  (is_set s).1 = true ∧ cancel_event (self (is_set s).2) = true.
Proof.
  intros Hev. unfold is_set.
  destruct (cancel_in s) as [[|k]|]; simpl; auto.
Qed.

(** A poll that reports the flag leaves it set. *)
Lemma is_set_true (s : state) :
  (is_set s).1 = true → cancel_event (self (is_set s).2) = true.
Proof.
  unfold is_set. destruct (cancel_in s) as [[|k]|]; simpl; auto.
Qed.

Lemma wrapped_done {A} (what : string) (r : attempt A) (a : A) :
  wrapped what r = Done a ↔ r = Done a.
Proof. destruct r; simpl; split; congruence. Qed.

Lemma reraised_ret {A} (r : attempt A) (a : A) :
  reraised r = Ret a ↔ r = Done a.
Proof. destruct r; unfold reraised; simpl; split; congruence. Qed.

Lemma reraised_raise {A} (r : attempt A) (e : exn) :
  reraised r = Raise e → ∃ msg, r = Escapes msg.
Proof. destruct r; unfold reraised; simpl; [discriminate | eauto]. Qed.

Lemma walk_outcome_ret {A} (r : attempt A) (a : A) :
  walk_outcome r = Ret a ↔ r = Done a.
Proof. unfold walk_outcome. now rewrite reraised_ret, wrapped_done. Qed.

Lemma search_in_file_settings (w : World) (e e' : t) (p term : string)
    (cs : bool) :
  same_settings e e' →
  _search_in_file_optimized w e p term cs = _search_in_file_optimized w e' p term cs.
Proof.
  intros (_ & _ & _ & Hc & _). unfold _search_in_file_optimized.
  now rewrite Hc.
Qed.

(** [_process_file] reads the size limit and the chunk size of the engine,
    nothing else. *)
Lemma process_file_settings (w : World) (e e' : t) (p : string) (q : args)
    (rs : list SearchResult) :
  same_settings e e' →
  _process_file fnmatch re_search w e p q rs
  = _process_file fnmatch re_search w e' p q rs.
Proof.
  intros Hs. unfold _process_file.
  rewrite (search_in_file_settings w e e' _ _ _ Hs).
  destruct Hs as (_ & _ & _ & _ & Hm & _). now rewrite Hm.
Qed.

Lemma check_type_size_date_stat (w : World) (p filename : string) (q : args)
    (st : stat_result) (file_date : Z) :
  check_type_size_date w p filename q = Ok (Some (st, file_date)) →
  os_stat w p = Some st ∧ fromtimestamp w (st_mtime st) = Ok file_date.
Proof.
  unfold check_type_size_date. intros H.
  repeat case_match; simplify_eq; auto.
Qed.

(** An exception of [check_type_size_date] that is not an [OSError] is
    one of [fromtimestamp]. *)
Lemma check_type_size_date_failure (w : World) (p filename : string)
    (q : args) (msg : string) :
  check_type_size_date w p filename q = Failure msg →
  ∃ st, os_stat w p = Some st ∧ fromtimestamp w (st_mtime st) = Failure msg.
Proof.
  unfold check_type_size_date. intros H.
  repeat case_match; simplify_eq; eauto.
Qed.

(** The four ways [_process_file] ends: it appends one result for the
    file, it turns the file down, it raises an [OSError], or it raises
    another exception. *)
Lemma process_file_cases (w : World) (e : t) (p : string) (q : args) :
  (∃ r, path r = p ∧
        faithful_result w (max_file_size_for_content_search e) r ∧
        ∀ rs, _process_file fnmatch re_search w e p q rs = Ok (true, rs ++ [r]))
  ∨ (∀ rs, _process_file fnmatch re_search w e p q rs = Ok (false, rs))
  ∨ (∀ rs, _process_file fnmatch re_search w e p q rs = OsError)
  ∨ (∃ msg, ∀ rs, _process_file fnmatch re_search w e p q rs = Failure msg).
Proof.
  unfold _process_file.
  destruct (_match_pattern fnmatch re_search (Py.basename p) (pattern q)
              (case_sensitive q) (regex q)) as [[|]|msg];
    [| right; left; done | right; right; right; eauto].
  destruct (check_type_size_date w p (Py.basename p) q)
    as [[[st file_date]|]| |msg] eqn:Hchk;
    [| right; left; done | right; right; left; done
     | right; right; right; eauto].
  apply check_type_size_date_stat in Hchk as [Hst _].
  destruct (Py.truthy_opt (content_search q)).
  - destruct (max_file_size_for_content_search e <? st_size st)%Z eqn:Hbig.
    + left. eexists. split; [| split; [| intros rs; reflexivity]]; [done |].
      exists st. simpl. auto.
    + destruct (_search_in_file_optimized w e p
                  (default EmptyString (content_search q)) (case_sensitive q))
        as [content_match content_line_num].
      destruct (Py.truthy_opt content_match).
      * left. eexists. split; [| split; [| intros rs; reflexivity]]; [done |].
        exists st. simpl. repeat split; [done..|]. right. split; [done |].
        apply Z.ltb_ge in Hbig. exact Hbig.
      * destruct (_match_pattern fnmatch re_search (Py.basename p)
                    (default EmptyString (content_search q))
                    (case_sensitive q) (regex q)) as [[|]|msg];
          [| right; left; done | right; right; right; eauto].
        left. eexists. split; [| split; [| intros rs; reflexivity]]; [done |].
        exists st. simpl. auto.
  - left. eexists. split; [| split; [| intros rs; reflexivity]]; [done |].
    exists st. simpl. auto.
Qed.

(** An exception of [_process_file] that its caller does not catch comes
    from [re.search] on the name, with the pattern or with the content
    term, or from [fromtimestamp] on the time of the file. *)
Lemma process_file_failure (w : World) (e : t) (p : string) (q : args)
    (rs : list SearchResult) (msg : string) :
  _process_file fnmatch re_search w e p q rs = Failure msg →
  _match_pattern fnmatch re_search (Py.basename p) (pattern q)
    (case_sensitive q) (regex q) = Escapes msg
  ∨ (∃ st, os_stat w p = Some st ∧ fromtimestamp w (st_mtime st) = Failure msg)
  ∨ (Py.truthy_opt (content_search q) = true ∧
     _match_pattern fnmatch re_search (Py.basename p)
       (default EmptyString (content_search q))
       (case_sensitive q) (regex q) = Escapes msg).
Proof.
  unfold _process_file.
  destruct (_match_pattern fnmatch re_search (Py.basename p) (pattern q)
              (case_sensitive q) (regex q)) as [[|]|msg0];
    [| discriminate | intros [= ->]; now left].
  destruct (check_type_size_date w p (Py.basename p) q)
    as [[[st file_date]|]| |msg0] eqn:Hchk; [| discriminate.. |].
  - destruct (Py.truthy_opt (content_search q)); [| discriminate].
    destruct (max_file_size_for_content_search e <? st_size st)%Z;
      [discriminate |].
    destruct (_search_in_file_optimized w e p
                (default EmptyString (content_search q)) (case_sensitive q))
      as [content_match content_line_num].
    destruct (Py.truthy_opt content_match); [discriminate |].
    destruct (_match_pattern fnmatch re_search (Py.basename p)
                (default EmptyString (content_search q))
                (case_sensitive q) (regex q)) as [[|]|msg0];
      [discriminate.. |].
    intros [= ->]. right. right. auto.
  - intros [= ->]. right. left.
    now apply check_type_size_date_failure in Hchk.
Qed.

(* --------------------------------------------------------------------- *)
(** *** The walk and the reference result list *)

(** The files handed to the loop body by the pruned walk are the visible
    files of the tree. *)
Lemma walk_visible (t : dtree) (root : string) :
  walked_files (os_walk not_hidden root t) = visible_files root t.
Proof.
  revert t root. fix IH 1. intros [files dirs] root.
  cbn [os_walk visible_files walked_files flat_map]. f_equal.
  induction dirs as [|[d sub] ds IHds]; [reflexivity |].
  fold (walked_files) in *. unfold walked_files in *.
  rewrite flat_map_app. unfold not_hidden.
  destruct (Py.startswith d "."); simpl.
  - exact IHds.
  - destruct sub as [t'|]; simpl; [| exact IHds].
    f_equal; [apply IH | exact IHds].
Qed.

Lemma walk_files_under (w : World) (root : string) :
  walked_files (walk w not_hidden root) = files_under w root.
Proof.
  unfold walk, files_under. destruct (os_listing w root); [| reflexivity].
  apply walk_visible.
Qed.

Lemma collect_capped (w : World) (e : t) (q : args) (ps : list string)
    (rs : list SearchResult) :
  (max_results q <=? Z.of_nat (length rs))%Z = true →
  collect fnmatch re_search w e q ps rs = Done rs.
Proof. intros Hcap. destruct ps; simpl; [done | now rewrite Hcap]. Qed.

(** The walk of two lists of files one after the other: the second is
    reached when the first raised nothing. *)
Lemma collect_app (w : World) (e : t) (q : args) (a b : list string)
    (rs : list SearchResult) :
  collect fnmatch re_search w e q (a ++ b) rs
  = match collect fnmatch re_search w e q a rs with
    | Done rs' => collect fnmatch re_search w e q b rs'
    | Escapes msg => Escapes msg
    end.
Proof.
  revert rs. induction a as [|p a IH]; intros rs; simpl; [done |].
  destruct (max_results q <=? Z.of_nat (length rs))%Z eqn:Hcap.
  - now rewrite collect_capped.
  - destruct (_process_file fnmatch re_search w e p q rs) as [[? rs']| |];
      [apply IH.. | reflexivity].
Qed.



Lemma collect_faithful (w : World) (e : t) (q : args) (ps : list string) :
  ∀ rs rs',
    Forall (faithful_result w (max_file_size_for_content_search e)) rs →
    collect fnmatch re_search w e q ps rs = Done rs' →
    Forall (faithful_result w (max_file_size_for_content_search e)) rs'.
Proof.
  induction ps as [|p ps IH]; intros rs rs' Hrs; simpl; [now intros [= <-] |].
  destruct (max_results q <=? Z.of_nat (length rs))%Z; [now intros [= <-] |].
  destruct (process_file_cases w e p q)
    as [(r & _ & Hr & H) | [H | [H | [msg H]]]];
    rewrite H; [| now apply IH.. | discriminate].
  apply IH. apply Forall_app. split; [done |]. now apply Forall_singleton.
Qed.

(** The walk returns when no file raises an exception that is not caught,
    and an exception that escapes it is that of one of the files. *)
Lemma collect_done (w : World) (e : t) (q : args) (ps : list string) :
  ∀ rs,
    (∀ p msg, p ∈ ps →
       _process_file fnmatch re_search w e p q [] ≠ Failure msg) →
    ∃ rs', collect fnmatch re_search w e q ps rs = Done rs'.
Proof.
  induction ps as [|p ps IH]; intros rs Hok; simpl; [eauto |].
  destruct (max_results q <=? Z.of_nat (length rs))%Z; [eauto |].
  assert (Hok' : ∀ p' msg, p' ∈ ps →
            _process_file fnmatch re_search w e p' q [] ≠ Failure msg).
  { intros p' msg Hin. apply Hok, elem_of_cons. now right. }
  destruct (process_file_cases w e p q)
    as [(r & _ & _ & H) | [H | [H | [msg H]]]];
    rewrite H; [now apply IH.. |].
  exfalso. apply (Hok p msg); [apply elem_of_cons; now left | apply H].
Qed.

Lemma collect_escapes (w : World) (e : t) (q : args) (ps : list string) :
  ∀ rs msg,
    collect fnmatch re_search w e q ps rs = Escapes msg →
    ∃ p, p ∈ ps ∧ ∀ rs, _process_file fnmatch re_search w e p q rs = Failure msg.
Proof.
  induction ps as [|p ps IH]; intros rs msg; simpl; [discriminate |].
  destruct (max_results q <=? Z.of_nat (length rs))%Z; [discriminate |].
  assert (Hrest : ∀ rs, collect fnmatch re_search w e q ps rs = Escapes msg →
            ∃ p', p' ∈ p :: ps ∧
                  ∀ rs, _process_file fnmatch re_search w e p' q rs = Failure msg).
  { intros rs0 Hrun. destruct (IH rs0 msg Hrun) as (p' & Hin & Hp').
    exists p'. split; [apply elem_of_cons; now right | exact Hp']. }
  destruct (process_file_cases w e p q)
    as [(r & _ & _ & H) | [H | [H | [msg' H]]]];
    rewrite H; [apply Hrest.. |].
  intros [= ->]. exists p. split; [apply elem_of_cons; now left | exact H].
Qed.

Lemma accepts_cases (w : World) (e : t) (q : args) (p : string) :
  (accepts fnmatch re_search w e q p = true ∧
   ∃ r, path r = p ∧
        ∀ rs, _process_file fnmatch re_search w e p q rs = Ok (true, rs ++ [r]))
  ∨ (accepts fnmatch re_search w e q p = false ∧
     ∀ rs, collect fnmatch re_search w e q [p] rs = Done rs)
  ∨ (accepts fnmatch re_search w e q p = false ∧
     ∃ msg, ∀ rs, _process_file fnmatch re_search w e p q rs = Failure msg).
Proof.
  unfold accepts.
  destruct (process_file_cases w e p q)
    as [(r & Hp & _ & H) | [H | [H | [msg H]]]].
  - left. rewrite H. eauto.
  - right. left. rewrite H. split; [done |]. intros rs. simpl.
    rewrite H. now destruct (_ <=? _)%Z.
  - right. left. rewrite H. split; [done |]. intros rs. simpl.
    rewrite H. now destruct (_ <=? _)%Z.
  - right. right. rewrite H. split; [done |]. eauto.
Qed.

(** The paths of the list the walk returns: the accepted files, in order,
    up to the cap. *)
Lemma collect_paths (w : World) (e : t) (q : args) (ps : list string) :
  ∀ (pre : list string) (rs rs' : list SearchResult),
    path <$> rs
      = take (Z.to_nat (max_results q))
          (filter (λ p, accepts fnmatch re_search w e q p = true) pre) →
    collect fnmatch re_search w e q ps rs = Done rs' →
    path <$> rs'
      = take (Z.to_nat (max_results q))
          (filter (λ p, accepts fnmatch re_search w e q p = true) (pre ++ ps)).
Proof.
  induction ps as [|p ps IH]; intros pre rs rs' Hrs.
  - intros [= <-]. now rewrite app_nil_r.
  - assert (Hlen : length rs
              = length (take (Z.to_nat (max_results q))
                  (filter (λ p, accepts fnmatch re_search w e q p = true) pre))).
    { now rewrite <- Hrs, length_fmap. }
    rewrite length_take in Hlen.
    cbn [collect].
    destruct (max_results q <=? Z.of_nat (length rs))%Z eqn:Hcap.
    + apply Z.leb_le in Hcap. intros [= <-].
      rewrite filter_app, take_app_le by lia. exact Hrs.
    + apply Z.leb_gt in Hcap.
      rewrite take_ge in Hrs by lia.
      replace (pre ++ p :: ps) with ((pre ++ [p]) ++ ps)
        by now rewrite <- app_assoc.
      destruct (accepts_cases w e q p)
        as [(Hacc & r & Hp & H) | [(Hacc & H) | (Hacc & msg & H)]].
      * rewrite H. apply IH.
        rewrite filter_app, filter_cons_True, filter_nil by done.
        rewrite take_ge by (rewrite length_app; simpl; lia).
        now rewrite fmap_app, Hrs; simpl; rewrite Hp.
      * specialize (H rs). cbn [collect] in H.
        assert (Hcap' : (max_results q <=? Z.of_nat (length rs))%Z = false)
          by now apply Z.leb_gt.
        rewrite Hcap' in H.
        destruct (_process_file fnmatch re_search w e p q rs) as [[b rs0]| |];
          [| | discriminate]; simpl in H; simplify_eq; apply IH;
          rewrite filter_app, filter_cons_False, filter_nil, app_nil_r
            by (rewrite Hacc; done);
          now rewrite take_ge by lia.
      * rewrite H. discriminate.
Qed.

(* --------------------------------------------------------------------- *)
(** *** The loops of the file-system strategy *)

Lemma progress_step_self (b : bool) (i n : nat) (s : state) :
  self (if b then call_progress i n s else s) = self s.
Proof. now destruct b. Qed.

Lemma progress_step_quiet (b : bool) (i n : nat) (s : state) :
  quiet s → quiet (if b then call_progress i n s else s).
Proof. now destruct b. Qed.

Lemma index_step_settings (w : World) (p : string) (b : bool) (s : state) :
  same_settings (self s)
    (self (if b
           then on_self (λ e, with_index (SearchIndex.add_file w p (index e)) e) s
           else s)).
Proof.
  destruct b; simpl;
    auto using same_settings_refl, same_settings_with_index.
Qed.

Lemma index_step_quiet (w : World) (p : string) (b : bool) (s : state) :
  quiet s →
  quiet (if b
         then on_self (λ e, with_index (SearchIndex.add_file w p (index e)) e) s
         else s).
Proof. now destruct b. Qed.

Local Ltac split5 := refine (conj _ (conj _ (conj _ (conj _ _)))).

(** The loop over the files of one directory does what the walk of the
    files it got through does: of all of them, unless the flag stopped
    it.  (When a file raises, the walk of all files raises as the loop.) *)
Lemma files_loop_spec (w : World) (q : args) (total : nat) (root : string)
    (e0 : t) (files : list string) :
  ∀ (results : list SearchResult) (count : nat) (s : state),
    same_settings e0 (self s) →
    ∃ done count' s',
      _files_loop fnmatch re_search w q total root files results count s
        = (collect fnmatch re_search w e0 q done results, count', s') ∧
      done `prefix_of` (Py.join root <$> files) ∧
      same_settings e0 (self s') ∧
      (done = (Py.join root <$> files) ∨ cancel_event (self s') = true) ∧
      (quiet s → quiet s' ∧ done = (Py.join root <$> files)).
Proof.
  induction files as [|file files IH]; intros results count s Hset.
  - exists [], count, s. split5; auto.
  - cbn [_files_loop].
    pose proof (is_set_settings s) as Hs1.
    pose proof (is_set_true s) as Ht1.
    pose proof (is_set_quiet s) as Hq1.
    destruct (is_set s) as [cancelled s1]. simpl in Hs1, Ht1.
    assert (Hset1 : same_settings e0 (self s1))
      by (eapply same_settings_trans; eauto).
    destruct cancelled; cbn [orb].
    { exists [], count, s1. split5; auto using prefix_nil.
      intros Hq; specialize (Hq1 Hq); congruence. }
    destruct (max_results q <=? Z.of_nat (length results))%Z eqn:Hcap.
    { exists (Py.join root <$> file :: files), count, s1.
      rewrite collect_capped by done.
      split5; auto.
      intros Hq; specialize (Hq1 Hq). split; [congruence | done]. }
    set (s2 := if progress_callback q && ((count + 1) mod 50 =? 0)
               then call_progress (count + 1) total s1 else s1).
    assert (Hself2 : self s2 = self s1) by apply progress_step_self.
    assert (Hquiet2 : quiet s → quiet s2).
    { intros Hq. apply progress_step_quiet. specialize (Hq1 Hq). congruence. }
    rewrite Hself2.
    rewrite <- (process_file_settings w e0 (self s1)) by done.
    assert (Hstep : ∀ results' s3,
              same_settings e0 (self s3) → (quiet s → quiet s3) →
              collect fnmatch re_search w e0 q [Py.join root file] results
                = Done results' →
              ∃ done count' s',
                _files_loop fnmatch re_search w q total root files results'
                    (count + 1) s3
                  = (collect fnmatch re_search w e0 q done results, count', s') ∧
                done `prefix_of` (Py.join root <$> file :: files) ∧
                same_settings e0 (self s') ∧
                (done = (Py.join root <$> file :: files)
                 ∨ cancel_event (self s') = true) ∧
                (quiet s → quiet s' ∧ done = (Py.join root <$> file :: files))).
    { intros results' s3 Hset3 Hquiet3 Hone.
      destruct (IH results' (count + 1) s3 Hset3)
        as (done & count' & s' & Hrun & Hpre & Hset' & Hend & Hquiet).
      exists (Py.join root file :: done), count', s'.
      rewrite Hrun, fmap_cons.
      change (Py.join root file :: done) with ([Py.join root file] ++ done) at 1.
      rewrite collect_app, Hone.
      split5; auto.
      - now apply prefix_cons.
      - destruct Hend as [-> | ?]; auto.
      - intros Hq. destruct (Hquiet (Hquiet3 Hq)) as [? ->]. auto. }
    destruct (process_file_cases w e0 (Py.join root file) q)
      as [(r & _ & _ & H) | [H | [H | [msg H]]]]; rewrite H.
    + apply Hstep.
      * eapply same_settings_trans; [exact Hset1 |]. rewrite <- Hself2.
        apply index_step_settings.
      * intros Hq. now apply index_step_quiet, Hquiet2.
      * cbn [collect]. now rewrite Hcap, H.
    + apply Hstep; [now rewrite Hself2 | done |].
      cbn [collect]. now rewrite Hcap, H.
    + apply Hstep; [now rewrite Hself2 | done |].
      cbn [collect]. now rewrite Hcap, H.
    + exists (Py.join root <$> file :: files), (count + 1), s2.
      rewrite fmap_cons. cbn [collect]. rewrite Hcap, H.
      split5; auto.
      now rewrite Hself2.
Qed.

Lemma classic_imminent (s : state) : imminent s ∨ ¬ imminent s.
Proof.
  unfold imminent.
  destruct (cancel_event (self s)); [left; now left |].
  destruct (cancel_in s) as [[|k]|]; [left; now right | right..];
    intros [? | ?]; congruence.
Qed.

Lemma is_set_imminent (s : state) :
  imminent s →
  (is_set s).1 = true ∧ cancel_event (self (is_set s).2) = true.
Proof.
  intros [Hev | Hin]; [now apply is_set_stopped |].
  unfold is_set. now rewrite Hin.
Qed.

(** When the flag is about to be seen, the walk loop adds nothing and
    processes no file. *)
Lemma dirs_loop_imminent (w : World) (q : args) (total : nat)
    (items : list walk_item) (results : list SearchResult) (count : nat)
    (s : state) :
  imminent s →
  ∃ s', _dirs_loop fnmatch re_search w q total items results count s
          = (Done results, s') ∧
        same_settings (self s) (self s').
Proof.
  intros Him. destruct items as [|[[root dirs] files] rest]; cbn [_dirs_loop].
  - exists s. auto using same_settings_refl.
  - pose proof (is_set_imminent s Him) as [Ht _].
    pose proof (is_set_settings s) as Hs1.
    destruct (is_set s) as [cancelled s1]. simpl in Ht, Hs1. subst cancelled.
    exists s1. auto.
Qed.

Lemma dirs_loop_spec (w : World) (q : args) (total : nat) (e0 : t)
    (items : list walk_item) :
  ∀ (results : list SearchResult) (count : nat) (s : state),
    same_settings e0 (self s) →
    ∃ done s',
      _dirs_loop fnmatch re_search w q total items results count s
        = (collect fnmatch re_search w e0 q done results, s') ∧
      done `prefix_of` walked_files items ∧
      same_settings e0 (self s') ∧
      (quiet s → quiet s' ∧ done = walked_files items).
Proof.
  induction items as [|[[root dirs] files] rest IH]; intros results count s Hset.
  - exists [], s. refine (conj _ (conj _ (conj _ _))); auto.
  - cbn [_dirs_loop].
    pose proof (is_set_settings s) as Hs1.
    pose proof (is_set_quiet s) as Hq1.
    destruct (is_set s) as [cancelled s1]. simpl in Hs1.
    assert (Hset1 : same_settings e0 (self s1))
      by (eapply same_settings_trans; eauto).
    destruct cancelled.
    { exists [], s1. refine (conj _ (conj _ (conj _ _))); auto using prefix_nil.
      intros Hq; specialize (Hq1 Hq); congruence. }
    destruct (files_loop_spec w q total root e0 files results count s1 Hset1)
      as (done1 & count1 & s2 & Hrun1 & Hpre1 & Hset2 & Hend1 & Hquiet1).
    rewrite Hrun1.
    change (walked_files ((root, dirs, files) :: rest))
      with ((Py.join root <$> files) ++ walked_files rest).
    assert (Hq2 : quiet s → quiet s2 ∧ done1 = (Py.join root <$> files)).
    { intros Hq. specialize (Hq1 Hq). apply Hquiet1. congruence. }
    destruct (collect fnmatch re_search w e0 q done1 results)
      as [results1|msg] eqn:Hdone1.
    + destruct Hend1 as [-> | Hflag].
      * destruct (IH results1 count1 s2 Hset2)
          as (done2 & s3 & Hrun2 & Hpre2 & Hset3 & Hquiet2).
        exists ((Py.join root <$> files) ++ done2), s3.
        rewrite Hrun2, collect_app, Hdone1.
        refine (conj _ (conj _ (conj _ _))); auto.
        -- now apply prefix_app.
        -- intros Hq. destruct (Hq2 Hq) as [Hq' _].
           destruct (Hquiet2 Hq') as [? ->]. auto.
      * destruct (dirs_loop_imminent w q total rest results1 count1 s2)
          as (s3 & Hrun2 & Hset3); [now left |].
        exists done1, s3. rewrite Hrun2, Hdone1.
        refine (conj _ (conj _ (conj _ _))); auto.
        -- now apply prefix_app_r.
        -- eapply same_settings_trans; eauto.
        -- intros Hq. destruct (Hq2 Hq) as [[_ Hq'] _]. congruence.
    + exists ((Py.join root <$> files) ++ walked_files rest), s2.
      assert (Hall : collect fnmatch re_search w e0 q
                       ((Py.join root <$> files) ++ walked_files rest) results
                     = Escapes msg).
      { destruct Hpre1 as [k ->].
        now rewrite <- app_assoc, collect_app, Hdone1. }
      rewrite Hall.
      refine (conj _ (conj _ (conj _ _))); auto.
      intros Hq. destruct (Hq2 Hq) as [Hq' _]. auto.
Qed.

Lemma estimate_loop_spec (items : list walk_item) :
  ∀ (count : nat) (s : state),
    ∃ n s', _estimate_loop items count s = (n, s') ∧
            same_settings (self s) (self s') ∧
            (quiet s → quiet s') ∧
            (imminent s → imminent s').
Proof.
  induction items as [|[[root dirs] files] rest IH]; intros count s;
    cbn [_estimate_loop].
  - exists count, s. auto using same_settings_refl.
  - pose proof (is_set_settings s) as Hs1.
    pose proof (is_set_quiet s) as Hq1.
    pose proof (is_set_imminent s) as Hi1.
    pose proof (is_set_true s) as Ht1.
    destruct (is_set s) as [cancelled s1]. simpl in Hs1, Hi1, Ht1.
    destruct cancelled.
    { exists count, s1. refine (conj _ (conj _ (conj _ _))); auto.
      - intros Hq; specialize (Hq1 Hq); congruence.
      - intros _. left. auto. }
    assert (Hq' : quiet s → quiet s1)
      by (intros Hq; specialize (Hq1 Hq); congruence).
    destruct (10000 <? count + length files).
    { exists (count + length files), s1.
      refine (conj _ (conj _ (conj _ _))); auto.
      intros Him. destruct (Hi1 Him). congruence. }
    destruct (IH (count + length files) s1) as (n & s' & Hrun & Hset & Hq & Hi).
    exists n, s'. rewrite Hrun.
    refine (conj _ (conj _ (conj _ _))); auto.
    + eapply same_settings_trans; eauto.
    + intros Him. destruct (Hi1 Him). congruence.
Qed.

(** The file-system strategy does what the walk of the files it got
    through does, a prefix of the visible files below the root: all of
    them when nobody cancels, none when the cancellation is already due at
    the first poll. *)
Lemma search_filesystem_spec (w : World) (q : args) (s : state) :
  ∃ done s',
    _search_filesystem fnmatch re_search w q s
      = (wrapped "Filesystem search failed: "
           (collect fnmatch re_search w (self s) q done []), s') ∧
    done `prefix_of` files_under w (root_path q) ∧
    same_settings (self s) (self s') ∧
    (quiet s → quiet s' ∧ done = files_under w (root_path q)) ∧
    (imminent s → done = []).
Proof.
  unfold _search_filesystem. rewrite <- walk_files_under.
  assert (Hpre : ∃ n s1,
            (if progress_callback q
             then _estimate_file_count w (root_path q) s else (0, s)) = (n, s1) ∧
            same_settings (self s) (self s1) ∧
            (quiet s → quiet s1) ∧ (imminent s → imminent s1)).
  { destruct (progress_callback q).
    - apply estimate_loop_spec.
    - exists 0, s. auto using same_settings_refl. }
  destruct Hpre as (n & s1 & -> & Hset1 & Hq1 & Hi1).
  destruct (dirs_loop_spec w q n (self s) (walk w not_hidden (root_path q))
              [] 0 s1 Hset1) as (done & s' & Hrun & Hpre & Hset' & Hquiet).
  destruct (classic_imminent s) as [Him | Hnot].
  - destruct (dirs_loop_imminent w q n (walk w not_hidden (root_path q))
                [] 0 s1 (Hi1 Him)) as (s'' & Hrun' & Hset'').
    exists [], s''. rewrite Hrun'.
    refine (conj _ (conj _ (conj _ (conj _ _)))); auto using prefix_nil.
    + exact (same_settings_trans _ _ _ Hset1 Hset'').
    + intros [Hin Hev]. destruct Him; congruence.
  - exists done, s'. rewrite Hrun.
    refine (conj _ (conj _ (conj _ (conj _ _)))); auto.
    intros Him. contradiction.
Qed.

(* --------------------------------------------------------------------- *)
(** *** The loops of the indexed strategy *)

Lemma update_index_scan_spec (w : World) (items : list walk_item) :
  ∀ (files_to_index : list string) (s : state),
    same_settings (self s) (self (_update_index_scan w items files_to_index s).2) ∧
    (imminent s →
       items = [] ∨
       cancel_event (self (_update_index_scan w items files_to_index s).2) = true) ∧
    (items = [] →
       _update_index_scan w items files_to_index s = (Some files_to_index, s)).
Proof.
  induction items as [|[[root dirs] files] rest IH]; intros fti s;
    cbn [_update_index_scan].
  - simpl. auto using same_settings_refl.
  - pose proof (is_set_settings s) as Hs1.
    pose proof (is_set_imminent s) as Hi1.
    destruct (is_set s) as [cancelled s1]. simpl in Hs1, Hi1.
    destruct cancelled.
    + simpl. repeat split; [apply Hs1.. | | done].
      intros Him. right. now apply Hi1.
    + match goal with
      | |- context [_update_index_scan w rest ?f s1] =>
          destruct (IH f s1) as (Hset & _ & _)
      end.
      split; [eapply same_settings_trans; eauto |].
      split; [| done].
      intros Him. destruct (Hi1 Him). congruence.
Qed.

Lemma update_index_add_spec (w : World) (callback : bool) (total : nat)
    (files : list string) :
  ∀ (i : nat) (s : state),
    same_settings (self s) (self (_update_index_add w callback total i files s)) ∧
    (imminent s → imminent (_update_index_add w callback total i files s)).
Proof.
  induction files as [|p files IH]; intros i s; cbn [_update_index_add].
  - auto using same_settings_refl.
  - pose proof (is_set_settings s) as Hs1.
    pose proof (is_set_imminent s) as Hi1.
    destruct (is_set s) as [cancelled s1]. simpl in Hs1, Hi1.
    destruct cancelled.
    + split; [done |]. intros Him. left. now apply Hi1.
    + match goal with
      | |- context [_update_index_add w callback total (S i) files ?s2] =>
          destruct (IH (S i) s2) as (Hset & _);
          assert (Hself : same_settings (self s1) (self s2))
      end.
      { rewrite progress_step_self. simpl. apply same_settings_with_index. }
      split.
      * eapply same_settings_trans; [exact Hs1 |].
        eapply same_settings_trans; [exact Hself | exact Hset].
      * intros Him. destruct (Hi1 Him). congruence.
Qed.

Lemma update_index_spec (w : World) (root : string) (callback : bool)
    (s : state) :
  same_settings (self s) (self (_update_index w root callback s)) ∧
  (imminent s → imminent (_update_index w root callback s)).
Proof.
  unfold _update_index.
  destruct (negb (indexing_enabled (self s))); [auto using same_settings_refl |].
  destruct (update_index_scan_spec w (walk w not_hidden root) [] s)
    as (Hset & Him & Hnil).
  destruct (_update_index_scan w (walk w not_hidden root) [] s)
    as [[files_to_index|] s1] eqn:Hscan; simpl in Hset, Him.
  - destruct (update_index_add_spec w callback (length files_to_index)
                files_to_index 0 s1) as [Hset' Him'].
    split; [eapply same_settings_trans; eauto |].
    intros Hi. apply Him'. destruct (Him Hi) as [Hitems | Hev]; [| now left].
    specialize (Hnil Hitems). congruence.
  - split; [done |]. intros Hi. left.
    destruct (Him Hi) as [Hitems | Hev]; [| done].
    specialize (Hnil Hitems). congruence.
Qed.


(** a result of the indexed strategy: a file name match that carries the
    size [os.stat] reports *)
Lemma index_loop_spec (w : World) (q : args) (limit : Z) (total : nat)
    (candidates : list string) :
  ∀ (i : nat) (results : list SearchResult) (s : state),
    Forall (faithful_result w limit) results →
    same_settings (self s)
      (self (_index_loop fnmatch re_search w q total i candidates results s).2) ∧
    ∀ rs,
      (_index_loop fnmatch re_search w q total i candidates results s).1
        = Done rs →
      Forall (faithful_result w limit) rs.
Proof.
  induction candidates as [|p candidates IH]; intros i results s Hres;
    cbn [_index_loop].
  - simpl. split; [apply same_settings_refl | now intros rs [= <-]].
  - pose proof (is_set_settings s) as Hs1.
    destruct (is_set s) as [cancelled s1]. simpl in Hs1.
    destruct (cancelled || (max_results q <=? Z.of_nat (length results))%Z);
      [simpl; split; [done | now intros rs [= <-]] |].
    assert (Hskip : same_settings (self s)
              (self (_index_loop fnmatch re_search w q total (S i) candidates
                       results s1).2) ∧
            ∀ rs,
              (_index_loop fnmatch re_search w q total (S i) candidates
                 results s1).1 = Done rs →
              Forall (faithful_result w limit) rs).
    { destruct (IH (S i) results s1 Hres) as [Hset Hall].
      split; [eapply same_settings_trans; eauto | done]. }
    destruct (_matches_criteria fnmatch re_search w p q) as [[|]|msg].
    + destruct (os_stat w p) as [st|] eqn:Hst; [| exact Hskip].
      destruct (fromtimestamp w (st_mtime st)) as [file_date| |msg];
        [| exact Hskip | simpl; split; [done | discriminate]].
      match goal with
      | |- context [_index_loop _ _ w q total (S i) candidates ?r ?s2] =>
          destruct (IH (S i) r s2) as [Hset Hall]
      end.
      { apply Forall_app. split; [done |]. apply Forall_singleton.
        exists st. simpl. auto. }
      split; [| done].
      eapply same_settings_trans; [exact Hs1 |].
      now rewrite progress_step_self in Hset.
    + match goal with
      | |- context [_index_loop _ _ w q total (S i) candidates results ?s2] =>
          destruct (IH (S i) results s2 Hres) as [Hset Hall]
      end.
      split; [| done].
      eapply same_settings_trans; [exact Hs1 |].
      now rewrite progress_step_self in Hset.
    + simpl. split; [done | discriminate].
Qed.

Lemma search_with_index_spec (w : World) (q : args) (s : state) :
  same_settings (self s) (self (_search_with_index fnmatch re_search w q s).2) ∧
  (∀ limit rs,
     (_search_with_index fnmatch re_search w q s).1 = Done rs →
     Forall (faithful_result w limit) rs) ∧
  (imminent (_update_index w (root_path q) (progress_callback q) s) →
     (_search_with_index fnmatch re_search w q s).1 = Done []).
Proof.
  unfold _search_with_index.
  destruct (update_index_spec w (root_path q) (progress_callback q) s)
    as [Hset0 _].
  set (s0 := _update_index w (root_path q) (progress_callback q) s) in *.
  pose proof (is_set_settings s0) as Hs1.
  pose proof (is_set_imminent s0) as Hi1.
  destruct (is_set s0) as [cancelled s1]. simpl in Hs1, Hi1.
  assert (Hset1 : same_settings (self s) (self s1))
    by (eapply same_settings_trans; eauto).
  destruct cancelled.
  { simpl. split; [done |]. split; [| done]. now intros limit rs [= <-]. }
  split; [| split].
  - eapply same_settings_trans; [exact Hset1 |].
    now apply index_loop_spec with (limit := 0%Z).
  - intros limit. now apply index_loop_spec.
  - intros Him. destruct (Hi1 Him). congruence.
Qed.

(* --------------------------------------------------------------------- *)
(** *** [search_files] as a whole *)

Lemma add_to_history_settings (d : history_entry) (e : t) :
  indexing_enabled (_add_to_history d e) = indexing_enabled e ∧
  max_file_size_for_content_search (_add_to_history d e)
    = max_file_size_for_content_search e ∧
  cancel_event (_add_to_history d e) = cancel_event e ∧
  index (_add_to_history d e) = index e.
Proof. unfold _add_to_history. now destruct (_ <? _). Qed.

Lemma prepared_self (now : Z) (q : args) (s : state) :
  self (prepared now q s)
  = _add_to_history (descriptor now q) (clear_cancel (self s)).
Proof. reflexivity. Qed.

Lemma prepared_strategy (now : Z) (q : args) (s : state) :
  choose_strategy q (self (prepared now q s)) = choose_strategy q (self s).
Proof.
  unfold choose_strategy. rewrite prepared_self.
  destruct (add_to_history_settings (descriptor now q) (clear_cancel (self s)))
    as (-> & _). reflexivity.
Qed.

Lemma prepared_limit (now : Z) (q : args) (s : state) :
  max_file_size_for_content_search (self (prepared now q s))
  = max_file_size_for_content_search (self s).
Proof.
  rewrite prepared_self.
  destruct (add_to_history_settings (descriptor now q) (clear_cancel (self s)))
    as (_ & -> & _). reflexivity.
Qed.

Lemma prepared_quiet (now : Z) (q : args) (s : state) :
  cancel_in s = None → quiet (prepared now q s).
Proof.
  intros Hin. split; [exact Hin |]. rewrite prepared_self.
  destruct (add_to_history_settings (descriptor now q) (clear_cancel (self s)))
    as (_ & _ & -> & _). reflexivity.
Qed.


(** On a root that exists and is a directory, [search_files] clears the
    flag, records the query and returns what the chosen strategy returns. *)
Lemma search_files_valid (w : World) (now : Z) (q : args) (s : state) :
  path_exists w (root_path q) = true →
  path_isdir w (root_path q) = true →
  search_files fnmatch re_search w now q s
  = (reraised (run_strategy fnmatch re_search w (choose_strategy q (self s)) q
                 (prepared now q s)).1,
     (run_strategy fnmatch re_search w (choose_strategy q (self s)) q
        (prepared now q s)).2).
Proof.
  intros He Hd. unfold search_files. rewrite He, Hd. cbn [negb].
  fold (descriptor now q). fold (prepared now q s).
  rewrite prepared_strategy.
  now destruct (run_strategy _ _ _ _ _ _).
Qed.

Lemma run_strategy_settings (w : World) (st : strategy) (q : args) (s : state) :
  same_settings (self s) (self (run_strategy fnmatch re_search w st q s).2).
Proof.
  destruct st; simpl.
  - apply search_with_index_spec.
  - destruct (search_filesystem_spec w q s) as (done & s' & -> & _ & Hset & _).
    exact Hset.
Qed.

Lemma run_strategy_faithful (w : World) (st : strategy) (q : args) (s : state)
    (rs : list SearchResult) :
  (run_strategy fnmatch re_search w st q s).1 = Done rs →
  Forall (faithful_result w (max_file_size_for_content_search (self s))) rs.
Proof.
  destruct st; simpl.
  - apply search_with_index_spec.
  - destruct (search_filesystem_spec w q s) as (done & s' & -> & _).
    simpl. rewrite wrapped_done. now apply collect_faithful.
Qed.

(** A call that returns ran its strategy on a valid root, and the strategy
    returned. *)
Lemma search_files_ret (w : World) (now : Z) (q : args) (s s' : state)
    (rs : list SearchResult) :
  search_files fnmatch re_search w now q s = (Ret rs, s') →
  path_exists w (root_path q) = true ∧
  path_isdir w (root_path q) = true ∧
  run_strategy fnmatch re_search w (choose_strategy q (self s)) q
    (prepared now q s) = (Done rs, s').
Proof.
  intros Hrun.
  destruct (path_exists w (root_path q)) eqn:He;
    [| unfold search_files in Hrun; rewrite He in Hrun; discriminate].
  destruct (path_isdir w (root_path q)) eqn:Hd;
    [| unfold search_files in Hrun; rewrite He, Hd in Hrun; discriminate].
  rewrite (search_files_valid w now q s He Hd) in Hrun.
  destruct (run_strategy _ _ _ _ _ _) as [r s1].
  injection Hrun as Hr <-. apply reraised_ret in Hr. now subst.
Qed.

Lemma truthy_opt_false (o : option string) :
  Py.truthy_opt o = false ↔ o = None ∨ o = Some EmptyString.
Proof.
  destruct o as [[|c t]|]; simpl; split; auto;
    try discriminate; intros [? | ?]; congruence.
Qed.

(** With the default criteria a file is taken exactly when its name matches
    the pattern, both lowercased, [os.stat] succeeds on it and its time
    converts. *)
Lemma accepts_defaults (w : World) (e : t) (root pat : string) (rx : bool)
    (p : string) :
  accepts fnmatch re_search w e
    (mk_args root pat None None None None None None false rx 1000 false false) p
    = true
  ↔ _match_pattern fnmatch re_search (Py.basename p) pat false rx = Done true
    ∧ readable w p.
Proof.
  unfold accepts, _process_file, check_type_size_date, readable. simpl.
  destruct (_match_pattern fnmatch re_search (Py.basename p) pat false rx)
    as [[|]|msg]; simpl.
  - destruct (os_stat w p) as [st|]; simpl.
    + destruct (fromtimestamp w (st_mtime st)) as [file_date| |msg] eqn:Hconv;
        simpl.
      * split; [| done]. intros _. split; [reflexivity |].
        exists st, file_date. split; [reflexivity | exact Hconv].
      * split; [done | intros [_ (st' & d & [= <-] & ?)]; congruence].
      * split; [done | intros [_ (st' & d & [= <-] & ?)]; congruence].
    + split; [done | intros [_ (st' & d & ? & _)]; done].
  - split; [done | intros [? _]; done].
  - split; [done | intros [? _]; done].
Qed.

(* ===================================================================== *)
(** ** The properties of [search_files] *)
(* ===================================================================== *)

(** C1 (corrected form).  [search_files(T, P)] with [use_index=False] and the
    other criteria at their defaults, on an existing directory and with
    no cancellation requested during the call.  When the call returns, it
    returns in walk order the files of T outside hidden sub-directories
    whose base name matches P (glob, or regex when the flag is set; name
    and pattern lowercased, the default being case-insensitive), that
    [os.stat] can read and whose time [fromtimestamp] converts, up to the
    first 1000 of them, the default [max_results]: no other file, and
    exactly those files when there are at most 1000.  The call returns
    when [re.search] raises nothing but [re.error] on the names of these
    files and [fromtimestamp] nothing but [OSError] on their times; when
    it raises instead, one of the files is the cause. *)
Theorem C1_walk_results_up_to_cap (w : World) (now : Z) (root pat : string)
    (rx : bool) (s : state) :
  path_exists w root = true →
  path_isdir w root = true →
  cancel_in s = None →
  let q :=
    mk_args root pat None None None None None None false rx 1000 false false in
  let matching :=
    filter (λ p, _match_pattern fnmatch re_search (Py.basename p) pat false rx
                   = Done true ∧ readable w p)
           (files_under w root) in
  (∀ rs s',
     search_files fnmatch re_search w now q s = (Ret rs, s') →
     path <$> rs = take 1000 matching ∧
     (∀ p, p ∈ path <$> rs →
        p ∈ files_under w root ∧
        _match_pattern fnmatch re_search (Py.basename p) pat false rx
          = Done true ∧
        readable w p) ∧
     (length matching ≤ 1000 → path <$> rs = matching)) ∧
  ((∀ p, p ∈ files_under w root →
      (∀ msg, _match_pattern fnmatch re_search (Py.basename p) pat false rx
              ≠ Escapes msg) ∧
      time_converts w p) →
   ∃ rs s', search_files fnmatch re_search w now q s = (Ret rs, s')) ∧
  (∀ e s',
     search_files fnmatch re_search w now q s = (Raise e, s') →
     ∃ p msg,
       p ∈ files_under w root ∧
       (_match_pattern fnmatch re_search (Py.basename p) pat false rx
          = Escapes msg ∨
        ∃ st, os_stat w p = Some st ∧
              fromtimestamp w (st_mtime st) = Failure msg)).
Proof.
  intros He Hd Hin q matching.
  assert (Hrun : ∃ s1,
            search_files fnmatch re_search w now q s
            = (walk_outcome
                 (collect fnmatch re_search w (self (prepared now q s)) q
                    (files_under w root) []), s1)).
  { rewrite (search_files_valid w now q s He Hd).
    change (choose_strategy q (self s)) with Filesystem. cbn [run_strategy].
    destruct (search_filesystem_spec w q (prepared now q s))
      as (done & s1 & -> & _ & _ & Hquiet & _).
    destruct (Hquiet (prepared_quiet now q s Hin)) as [_ ->].
    exists s1. reflexivity. }
  destruct Hrun as [s1 Hrun]. rewrite Hrun.
  assert (Hcause : ∀ p msg rs,
            _process_file fnmatch re_search w (self (prepared now q s)) p q rs
              = Failure msg →
            _match_pattern fnmatch re_search (Py.basename p) pat false rx
              = Escapes msg ∨
            ∃ st, os_stat w p = Some st ∧
                  fromtimestamp w (st_mtime st) = Failure msg).
  { intros p msg rs Hfail.
    destruct (process_file_failure w _ p q rs msg Hfail)
      as [Hname | [Htime | [Hterm _]]]; [now left | now right | discriminate]. }
  split; [| split].
  - intros rs s' [= Hout _]. apply walk_outcome_ret in Hout.
    assert (Hpaths : path <$> rs = take 1000 matching).
    { rewrite (collect_paths w _ q (files_under w root) [] [] rs eq_refl Hout).
      rewrite app_nil_l. change (Z.to_nat (max_results q)) with 1000.
      f_equal. apply list_filter_iff. intros p. apply accepts_defaults. }
    split; [exact Hpaths |]. split.
    + intros p Hp. rewrite Hpaths in Hp. apply subseteq_take in Hp.
      apply list_elem_of_filter in Hp as [[Hm Hst] Hp]. auto.
    + intros Hlen. rewrite Hpaths. now apply take_ge.
  - intros Hok.
    destruct (collect_done w (self (prepared now q s)) q (files_under w root) [])
      as [rs Hrs].
    { intros p msg Hp Hfail. destruct (Hok p Hp) as [Hname Htime].
      destruct (Hcause p msg [] Hfail) as [Hbad | (st & Hst & Hbad)].
      - exact (Hname msg Hbad).
      - exact (Htime st msg Hst Hbad). }
    exists rs, s1. rewrite Hrs. reflexivity.
  - intros e s' Hout.
    destruct (collect fnmatch re_search w (self (prepared now q s)) q
                (files_under w root) []) as [rs|msg] eqn:Hwalk;
      [cbv [walk_outcome reraised wrapped] in Hout; discriminate |].
    destruct (collect_escapes w _ q _ [] msg Hwalk) as (p & Hp & Hfail).
    exists p, msg. split; [exact Hp |]. exact (Hcause p msg [] (Hfail [])).
Qed.

(** C2 (corrected form).  An invocation of [search_files] whose root exists and
    is a directory appends the descriptor of the query to the bounded
    history (the oldest entry is dropped beyond [max_history]) before the
    strategy runs, and the strategy leaves the history alone, whether it
    returns or raises; an invocation whose root is missing or is not a
    directory raises with the history, and the whole state, untouched. *)
Theorem C2_history_only_after_validation (w : World) (now : Z) (q : args)
    (s : state) :
  (path_exists w (root_path q) = true →
   path_isdir w (root_path q) = true →
   let recorded :=
     let h := search_history (self s) ++ [descriptor now q] in
     if max_history (self s) <? length h then drop 1 h else h in
   search_history (self (prepared now q s)) = recorded ∧
   (length (search_history (self s)) ≤ max_history (self s) →
    length recorded ≤ max_history (self s)) ∧
   ∃ out s',
     search_files fnmatch re_search w now q s = (out, s') ∧
     out = reraised (run_strategy fnmatch re_search w
                       (choose_strategy q (self s)) q (prepared now q s)).1 ∧
     s' = (run_strategy fnmatch re_search w (choose_strategy q (self s)) q
             (prepared now q s)).2 ∧
     search_history (self s') = recorded) ∧
  (path_exists w (root_path q) = false ∨ path_isdir w (root_path q) = false →
   ∃ e, search_files fnmatch re_search w now q s = (Raise e, s)).
Proof.
  split.
  - intros He Hd recorded.
    assert (Hrec : search_history (self (prepared now q s)) = recorded).
    { rewrite prepared_self. unfold _add_to_history, recorded. simpl.
      now destruct (_ <? _). }
    split; [exact Hrec |]. split.
    + intros Hlen. unfold recorded.
      destruct (max_history (self s) <? _) eqn:Hcmp.
      * rewrite length_drop, length_app. simpl. lia.
      * apply Nat.ltb_ge in Hcmp. exact Hcmp.
    + rewrite (search_files_valid w now q s He Hd).
      do 2 eexists. split; [reflexivity |].
      split; [reflexivity |]. split; [reflexivity |].
      rewrite <- Hrec. symmetry.
      apply (run_strategy_settings w (choose_strategy q (self s)) q
               (prepared now q s)).
  - intros Hbad. unfold search_files.
    destruct (path_exists w (root_path q)); simpl; [| eauto].
    destruct Hbad as [? | ->]; [discriminate | simpl; eauto].
Qed.


(** C7.  Every result [search_files] returns describes its file as
    [os.stat] shows it, and when the size of that file exceeds
    [max_file_size_for_content_search] its match kind is "filename": no
    strategy reports a content match for such a file. *)
Theorem C7_large_file_never_content_match (w : World) (now : Z) (q : args)
    (s s' : state) (rs : list SearchResult) (r : SearchResult) :
  search_files fnmatch re_search w now q s = (Ret rs, s') →
  r ∈ rs →
  ∃ st, os_stat w (path r) = Some st ∧
        size r = st_size st ∧
        ((max_file_size_for_content_search (self s) < st_size st)%Z →
         match_type r = "filename"%string ∧ match_type r ≠ "content"%string).
Proof.
  intros Hrun Hr.
  apply search_files_ret in Hrun as (_ & _ & Hrun).
  pose proof (run_strategy_faithful w (choose_strategy q (self s)) q
                (prepared now q s) rs) as Hall.
  rewrite Hrun, prepared_limit in Hall. specialize (Hall eq_refl).
  rewrite Forall_forall in Hall.
  destruct (Hall r Hr) as (st & Hst & Hsize & Hkind).
  exists st. repeat split; [done.. | |].
  - destruct Hkind as [? | [_ ?]]; [done | lia].
  - destruct Hkind as [-> | [_ ?]]; [discriminate | lia].
Qed.

(** C8.  [search_files] takes the indexed strategy exactly when [use_index]
    is true, [indexing_enabled] is true and no content term was given
    ([None] or the empty string); in every other case, so whenever a
    content term is present, it takes the file-system walk.  What the
    strategy taken returns is returned, what escapes it is raised. *)
Theorem C8_strategy_selection (w : World) (now : Z) (q : args) (s : state) :
  (choose_strategy q (self s) = Indexed ↔
     use_index q = true ∧ indexing_enabled (self s) = true ∧
     (content_search q = None ∨ content_search q = Some EmptyString)) ∧
  (choose_strategy q (self s) = Filesystem ↔
     ¬ (use_index q = true ∧ indexing_enabled (self s) = true ∧
        (content_search q = None ∨ content_search q = Some EmptyString))) ∧
  (∀ term, content_search q = Some term → term ≠ EmptyString →
     choose_strategy q (self s) = Filesystem) ∧
  (path_exists w (root_path q) = true →
   path_isdir w (root_path q) = true →
   search_files fnmatch re_search w now q s
   = match choose_strategy q (self s) with
     | Indexed =>
         (reraised
            (_search_with_index fnmatch re_search w q (prepared now q s)).1,
          (_search_with_index fnmatch re_search w q (prepared now q s)).2)
     | Filesystem =>
         (reraised
            (_search_filesystem fnmatch re_search w q (prepared now q s)).1,
          (_search_filesystem fnmatch re_search w q (prepared now q s)).2)
     end).
Proof.
  assert (Hiff : choose_strategy q (self s) = Indexed ↔
            use_index q = true ∧ indexing_enabled (self s) = true ∧
            (content_search q = None ∨ content_search q = Some EmptyString)).
  { rewrite <- truthy_opt_false. unfold choose_strategy.
    destruct (use_index q), (indexing_enabled (self s)),
      (Py.truthy_opt (content_search q)); simpl;
      split; try discriminate; try tauto; intros (? & ? & ?); discriminate. }
  split; [exact Hiff |]. split; [| split].
  - rewrite <- Hiff. destruct (choose_strategy q (self s)); split.
    + discriminate.
    + intros H. now destruct H.
    + intros _. discriminate.
    + reflexivity.
  - intros term Hterm Hne.
    destruct (choose_strategy q (self s)); [| reflexivity].
    destruct Hiff as [Hiff _].
    destruct (Hiff eq_refl) as (_ & _ & [? | ?]); congruence.
  - intros He Hd. rewrite (search_files_valid w now q s He Hd).
    now destruct (choose_strategy q (self s)).
Qed.

(* --------------------------------------------------------------------- *)
(** *** The content scan on a text without the term *)

Lemma scan_lines_none (term : string) (cs : bool) (lines : list string) :
  ∀ line_num,
    (∀ l, l ∈ lines → Py.contains term (case_adjusted cs l) = false) →
    scan_lines term cs lines line_num = (None, line_num + length lines).
Proof.
  induction lines as [|l lines IH]; intros line_num Hno; cbn [scan_lines].
  - simpl. now rewrite Nat.add_0_r.
  - fold (case_adjusted cs l).
    rewrite (Hno l) by (apply elem_of_cons; auto).
    rewrite IH by (intros l' Hl'; apply Hno, elem_of_cons; auto).
    simpl. f_equal. lia.
Qed.

Lemma scan_chunks_none (term : string) (cs : bool) (n fuel : nat) :
  ∀ (text buffer : string) (line_num : nat),
    Py.contains term (case_adjusted cs (buffer +:+ text)) = false →
    scan_chunks term cs (Py.chunks_go fuel n text) buffer line_num
    = (None, None).
Proof.
  assert (Hend : ∀ buffer text line_num,
            Py.contains term (case_adjusted cs (buffer +:+ text)) = false →
            scan_chunks term cs [] buffer line_num = (None, None)).
  { intros buffer text line_num Hno. cbn [scan_chunks].
    destruct (Py.truthy buffer); [| reflexivity].
    fold (case_adjusted cs buffer).
    rewrite <- (str_app_nil_l (buffer +:+ text)) in Hno.
    now rewrite (missing_in_part cs term _ _ _ Hno). }
  induction fuel as [|fuel IH]; intros text buffer line_num Hno;
    cbn [Py.chunks_go]; [eapply Hend; eauto |].
  destruct (String.substring 0 n text) as [|c chunk] eqn:Hchunk;
    [eapply Hend; eauto |].
  cbn [scan_chunks].
  pose proof (substring_split n text) as Hsplit. rewrite Hchunk in Hsplit.
  set (rest := String.substring n (String.length text - n) text) in *.
  set (buffer' := buffer +:+ String c chunk).
  assert (Hno' : Py.contains term (case_adjusted cs (buffer' +:+ rest)) = false).
  { unfold buffer'. now rewrite str_app_assoc, <- Hsplit. }
  rewrite scan_lines_none.
  - destruct (split_nl_last buffer') as [a Ha].
    apply IH. rewrite Ha, str_app_assoc in Hno'.
    rewrite <- (str_app_nil_r (_ +:+ rest)) in Hno'.
    exact (missing_in_part cs term _ _ _ Hno').
  - intros l Hl. apply elem_of_removelast, split_nl_part in Hl as (a & b & Hl).
    rewrite Hl, !str_app_assoc in Hno'.
    exact (missing_in_part cs term _ _ _ Hno').
Qed.

(** A file whose text does not contain the case-adjusted term gives no
    content match. *)
Lemma search_in_file_none (w : World) (e : t) (p term : string) (cs : bool) :
  (∀ text, read_text w p = Some text →
     Py.contains (case_adjusted cs term) (case_adjusted cs text) = false) →
  _search_in_file_optimized w e p term cs = (None, None).
Proof.
  intros Hno. unfold _search_in_file_optimized.
  destruct (negb (_is_text_file w p)); [reflexivity |].
  destruct (read_text w p) as [text|]; [| reflexivity].
  fold (case_adjusted cs term). unfold Py.chunks.
  apply scan_chunks_none. rewrite str_app_nil_l. now apply Hno.
Qed.

(** C6 (corrected form).  In [_process_file] with a content term, take a
    file that passed the name pattern, the extension, size and date
    checks, whose size is within the content-search limit and whose text
    does not contain the case-adjusted term.  The file is turned down
    exactly when its name does not match the content term taken as a
    pattern ([_match_pattern] with the flags of the query); when the name
    matches, the file is accepted with match kind "filename" and no
    matching line; and when [re.search] raises on the term, so does
    [_process_file]. *)
Theorem C6_content_miss_falls_back_to_name (w : World) (e : t) (p : string)
    (q : args) (term : string) (st : stat_result) (file_date : Z)
    (results : list SearchResult) :
  content_search q = Some term →
  term ≠ EmptyString →
  _match_pattern fnmatch re_search (Py.basename p) (pattern q)
    (case_sensitive q) (regex q) = Done true →
  check_type_size_date w p (Py.basename p) q = Ok (Some (st, file_date)) →
  (st_size st ≤ max_file_size_for_content_search e)%Z →
  (∀ text, read_text w p = Some text →
     Py.contains (case_adjusted (case_sensitive q) term)
       (case_adjusted (case_sensitive q) text) = false) →
  (_process_file fnmatch re_search w e p q results = Ok (false, results) ↔
     _match_pattern fnmatch re_search (Py.basename p) term
       (case_sensitive q) (regex q) = Done false) ∧
  (_match_pattern fnmatch re_search (Py.basename p) term
     (case_sensitive q) (regex q) = Done true →
   _process_file fnmatch re_search w e p q results
   = Ok (true,
         results ++ [mk_result p (Py.basename p) (st_size st) file_date
                       (Py.dirname p) "filename" None None])) ∧
  (∀ msg,
     _match_pattern fnmatch re_search (Py.basename p) term
       (case_sensitive q) (regex q) = Escapes msg →
     _process_file fnmatch re_search w e p q results = Failure msg).
Proof.
  intros Hterm Hne Hname Hchk Hsize Hno.
  unfold _process_file. rewrite Hname, Hchk, Hterm.
  change (default EmptyString (Some term)) with term.
  assert (Htruthy : Py.truthy_opt (Some term) = true)
    by (destruct term; [congruence | reflexivity]).
  rewrite Htruthy.
  assert (Hlim : (max_file_size_for_content_search e <? st_size st)%Z = false)
    by now apply Z.ltb_ge.
  rewrite Hlim, (search_in_file_none w e p term (case_sensitive q) Hno).
  cbn [Py.truthy_opt].
  destruct (_match_pattern fnmatch re_search (Py.basename p) term
              (case_sensitive q) (regex q)) as [[|]|msg].
  - split; [| split; [reflexivity | discriminate]].
    split; discriminate.
  - split; [| split; discriminate]. split; reflexivity.
  - split; [| split; [discriminate | now intros msg' [= ->]]].
    split; discriminate.
Qed.

End EngineFacts.

(* ===================================================================== *)
(** ** [quick_search] *)
(* ===================================================================== *)

Lemma slice_to_subseteq {A} (n : Z) (xs : list A) (x : A) :
  x ∈ Py.slice_to n xs → x ∈ xs.
Proof.
  unfold Py.slice_to. destruct (0 <=? n)%Z; apply subseteq_take.
Qed.

Lemma slice_to_length {A} (n : Z) (xs : list A) :
  (0 ≤ n)%Z → (Z.of_nat (length (Py.slice_to n xs)) ≤ n)%Z.
Proof.
  intros Hn. unfold Py.slice_to.
  destruct (0 <=? n)%Z eqn:E; [| apply Z.leb_gt in E; lia].
  rewrite length_take. lia.
Qed.

(** C10.  With indexing enabled and an existing [root_path], [quick_search]
    returns the first [max_results] paths (for [max_results >= 0]) of
    [SearchIndex.search(query)] as they are: the answer depends on the
    index and the query only, not on which existing root was given nor on
    the cancellation flag, which is not polled (the state is returned
    unchanged); the paths can lie outside the subtree of [root_path], as
    after an earlier search of another directory. *)
Theorem C10_quick_search_reads_index_only (w : World) (root query : string)
    (max_results : Z) (s : SearchEngine.state) :
  SearchEngine.indexing_enabled (SearchEngine.self s) = true →
  path_exists w root = true →
  let hits :=
    SearchIndex.search (SearchEngine.index (SearchEngine.self s)) query in
  let answer := Py.slice_to max_results (elements hits) in
  SearchEngine.quick_search w root query max_results s
    = (SearchEngine.Ret answer, s) ∧
  (∀ p, p ∈ answer → p ∈ hits) ∧
  ((0 ≤ max_results)%Z → (Z.of_nat (length answer) ≤ max_results)%Z) ∧
  (∀ root' flag pending log,
     path_exists w root' = true →
     (SearchEngine.quick_search w root' query max_results
        (SearchEngine.mk_state
           (SearchEngine.with_cancel flag (SearchEngine.self s)) pending log)).1
     = SearchEngine.Ret answer) ∧
  (∃ outside,
     (SearchEngine.quick_search demo_world "/root" "notes" 100
        after_other_search).1 = SearchEngine.Ret [outside] ∧
     Py.startswith outside "/root" = false ∧
     outside ∉ files_under demo_world "/root").
Proof.
  intros Hix He hits answer.
  split; [| split; [| split; [| split]]].
  - unfold SearchEngine.quick_search. now rewrite He, Hix.
  - intros p Hp. apply slice_to_subseteq in Hp. now apply elem_of_elements in Hp.
  - apply slice_to_length.
  - intros root' flag pending log He'.
    unfold SearchEngine.quick_search. rewrite He'. simpl. now rewrite Hix.
  - exists "/other/notes.txt"%string. split; [| split].
    + vm_compute. reflexivity.
    + vm_compute. reflexivity.
    + apply (bool_decide_unpack _). vm_compute. exact I.
Qed.

(* ===================================================================== *)
(** ** The statements that do not hold as written *)
(* ===================================================================== *)

(** C1 does not hold as stated: of the 1001 files of [/big], all matching
    [*], [search_files] with [use_index=False] returns 1000; the file
    [f1000] is left out. *)
Lemma C1_counterexample_cap :
  let left_out := "/big/f1000"%string in
  let run := SearchEngine.search_files glob plain_search crowded_world 0
               (walk_query "/big" "*") fresh in
  let rs := match run.1 with
            | SearchEngine.Ret rs => rs
            | SearchEngine.Raise _ => []
            end in
  left_out ∈ files_under crowded_world "/big" ∧
  SearchEngine._match_pattern glob plain_search (Py.basename left_out) "*"
    false false = SearchEngine.Done true ∧
  run.1 = SearchEngine.Ret rs ∧
  length rs = 1000 ∧
  left_out ∉ SearchEngine.path <$> rs.
Proof.
  intros left_out run rs. split; [| split; [| split; [| split]]].
  - apply (bool_decide_unpack _). vm_compute. exact I.
  - vm_compute. reflexivity.
  - vm_compute. reflexivity.
  - vm_compute. reflexivity.
  - apply (bool_decide_unpack _). vm_compute. exact I.
Qed.

(** C2 does not hold as stated: a call on a missing root raises and the
    history is as empty as before. *)
Lemma C2_counterexample_missing_root :
  let run := SearchEngine.search_files glob plain_search empty_world 0
               (SearchEngine.defaults "/missing" "*") fresh in
  run.1 = SearchEngine.Raise
            (SearchEngine.SearchError "Root path does not exist: /missing") ∧
  SearchEngine.search_history (SearchEngine.self run.2) = [] ∧
  SearchEngine.search_history (SearchEngine.self fresh) = [].
Proof. vm_compute. auto. Qed.


(** C6 does not hold as stated: with the pattern [*.txt] and the content
    term [sub*], the file [/root/b/sub.py] is within the size limit, its
    text does not contain the term and its name matches the term taken as
    a pattern, yet it is excluded: the name pattern is checked first. *)
Lemma C6_counterexample_name_pattern_first :
  let q := SearchEngine.mk_args "/root" "*.txt" (Some "sub*"%string) None None
             None None None false false 1000 true false in
  let p := "/root/b/sub.py"%string in
  SearchEngine.choose_strategy q (SearchEngine.self fresh)
    = SearchEngine.Filesystem ∧
  p ∈ files_under demo_world "/root" ∧
  os_stat demo_world p = Some (mk_stat false 11 2001) ∧
  (11 ≤ SearchEngine.max_file_size_for_content_search
          (SearchEngine.self fresh))%Z ∧
  read_text demo_world p = Some "print(1)
"%string ∧
  Py.contains (case_adjusted false "sub*") (case_adjusted false "print(1)
") = false ∧
  SearchEngine._match_pattern glob plain_search (Py.basename p) "sub*"
    false false = SearchEngine.Done true ∧
  SearchEngine._process_file glob plain_search demo_world
    (SearchEngine.self fresh) p q [] = Ok (false, []) ∧
  (SearchEngine.search_files glob plain_search demo_world 0 q fresh).1
    = SearchEngine.Ret [].
Proof.
  intros q p. split; [reflexivity |].
  split; [apply (bool_decide_unpack _); vm_compute; exact I |].
  split; [reflexivity |]. split; [vm_compute; discriminate |].
  split; [reflexivity |]. split; [vm_compute; reflexivity |].
  split; [vm_compute; reflexivity |]. split; vm_compute; reflexivity.
Qed.

(* ===================================================================== *)
(** ** The theorems at concrete inputs *)
(* ===================================================================== *)

(** the walk of [/root] for [*.txt] *)
Lemma C1_witness :
  path_exists demo_world "/root" = true ∧
  path_isdir demo_world "/root" = true ∧
  SearchEngine.cancel_in fresh = None ∧
  ∃ rs s',
    SearchEngine.search_files glob plain_search demo_world 0
      (SearchEngine.mk_args "/root" "*.txt" None None None None None None
         false false 1000 false false) fresh
      = (SearchEngine.Ret rs, s') ∧
    SearchEngine.path <$> rs = ["/root/a.txt"%string].
Proof.
  split; [reflexivity |]. split; [reflexivity |]. split; [reflexivity |].
  destruct (C1_walk_results_up_to_cap glob plain_search demo_world 0
              "/root" "*.txt" false fresh eq_refl eq_refl eq_refl)
    as (Hreturned & Hreturns & _).
  destruct Hreturns as (rs & s' & Hrun).
  { intros p _. split.
    - intros msg. discriminate.
    - intros st msg _. discriminate. }
  exists rs, s'. split; [exact Hrun |].
  destruct (Hreturned rs s' Hrun) as (Hpaths & _).
  rewrite Hpaths. vm_compute. reflexivity.
Defined.

(** a search of [/root] on a new engine leaves its descriptor as the only
    entry of the history *)
Lemma C2_witness :
  path_exists demo_world "/root" = true ∧
  path_isdir demo_world "/root" = true ∧
  ∃ out s',
    SearchEngine.search_files glob plain_search demo_world 7
      (SearchEngine.defaults "/root" "*") fresh = (out, s') ∧
    SearchEngine.search_history (SearchEngine.self s')
    = [SearchEngine.mk_entry "*" None 7 "/root" None].
Proof.
  split; [reflexivity |]. split; [reflexivity |].
  destruct (C2_history_only_after_validation glob plain_search demo_world 7
              (SearchEngine.defaults "/root" "*") fresh) as [Hvalid _].
  destruct (Hvalid eq_refl eq_refl)
    as (_ & _ & out & s' & Hrun & _ & _ & Hhist).
  exists out, s'. split; [exact Hrun |]. rewrite Hhist. reflexivity.
Defined.


(** [/root/a.txt] indexed, then modified *)
Lemma C5_witness :
  getmtime demo_world "/root/a.txt" = Some 2000%Z ∧
  SearchIndex.is_indexed demo_world "/root/a.txt"
    (SearchIndex.add_file demo_world "/root/a.txt" SearchIndex.init) = true ∧
  SearchIndex.is_indexed touched_world "/root/a.txt"
    (SearchIndex.add_file demo_world "/root/a.txt" SearchIndex.init) = false.
Proof.
  split; [reflexivity |].
  destruct (C5_is_indexed_tracks_mtime demo_world touched_world "/root/a.txt"
              SearchIndex.init 2000 eq_refl) as (Hfresh & _ & Hstale & _).
  split; [exact Hfresh |].
  apply (Hstale 2500%Z); [reflexivity | lia].
Defined.

(** [sub.py] does not contain [sub*], its name matches it *)
Lemma C6_witness :
  let q := content_query "sub*" in
  let e := SearchEngine.init 4 in
  let p := "/root/b/sub.py"%string in
  SearchEngine.content_search q = Some "sub*"%string ∧
  SearchEngine._match_pattern glob plain_search (Py.basename p)
    (SearchEngine.pattern q) false false = SearchEngine.Done true ∧
  SearchEngine._match_pattern glob plain_search (Py.basename p) "sub*"
    false false = SearchEngine.Done true ∧
  SearchEngine._process_file glob plain_search demo_world e p q []
  = Ok (true,
        [SearchEngine.mk_result p "sub.py" 11 2001 "/root/b" "filename"
           None None]).
Proof.
  intros q e p. split; [reflexivity |]. split; [vm_compute; reflexivity |].
  assert (Hname : SearchEngine._match_pattern glob plain_search (Py.basename p)
                    "sub*" false false = SearchEngine.Done true)
    by (vm_compute; reflexivity).
  split; [exact Hname |].
  refine (proj1 (proj2 (C6_content_miss_falls_back_to_name glob plain_search
            demo_world e p q "sub*" (mk_stat false 11 2001) 2001 []
            _ _ _ _ _ _)) Hname).
  - reflexivity.
  - discriminate.
  - vm_compute. reflexivity.
  - vm_compute. reflexivity.
  - vm_compute. discriminate.
  - intros text Htext. vm_compute in Htext. injection Htext as <-.
    vm_compute. reflexivity.
Defined.

(** with a limit of 3 bytes [a.txt], which contains the term, is a file
    name match *)
Lemma C7_witness :
  let run := SearchEngine.search_files glob plain_search demo_world 0
               (content_query "hello") tight_limit in
  let big := SearchEngine.mk_result "/root/a.txt" "a.txt" 5 2000 "/root"
               "filename" None None in
  run = (SearchEngine.Ret
           [big;
            SearchEngine.mk_result "/root/b/sub.py" "sub.py" 11 2001 "/root/b"
              "filename" None None], run.2) ∧
  ∃ st, os_stat demo_world (SearchEngine.path big) = Some st ∧
        SearchEngine.size big = st_size st ∧
        ((SearchEngine.max_file_size_for_content_search
            (SearchEngine.self tight_limit) < st_size st)%Z →
         SearchEngine.match_type big = "filename"%string ∧
         SearchEngine.match_type big ≠ "content"%string).
Proof.
  intros run big.
  assert (Hrun : run = (SearchEngine.Ret
           [big;
            SearchEngine.mk_result "/root/b/sub.py" "sub.py" 11 2001 "/root/b"
              "filename" None None], run.2))
    by (vm_compute; reflexivity).
  split; [exact Hrun |].
  apply (C7_large_file_never_content_match glob plain_search demo_world 0
           (content_query "hello") tight_limit run.2 _ big Hrun).
  apply elem_of_cons. left. reflexivity.
Defined.

(** a content term sends the search of [/root] to the file-system walk *)
Lemma C8_witness :
  SearchEngine.choose_strategy (content_query "hello") (SearchEngine.self fresh)
  = SearchEngine.Filesystem ∧
  SearchEngine.search_files glob plain_search demo_world 0
    (content_query "hello") fresh
  = (SearchEngine.reraised
       (SearchEngine._search_filesystem glob plain_search demo_world
          (content_query "hello") (prepared 0 (content_query "hello") fresh)).1,
     (SearchEngine._search_filesystem glob plain_search demo_world
        (content_query "hello") (prepared 0 (content_query "hello") fresh)).2).
Proof.
  destruct (C8_strategy_selection glob plain_search demo_world 0
              (content_query "hello") fresh) as (_ & _ & Hterm & Hrun).
  assert (Hfs : SearchEngine.choose_strategy (content_query "hello")
                  (SearchEngine.self fresh) = SearchEngine.Filesystem)
    by (apply (Hterm "hello"%string); [reflexivity | discriminate]).
  split; [exact Hfs |].
  rewrite (Hrun eq_refl eq_refl), Hfs. reflexivity.
Defined.

(** a quick search below [/root] after a search of [/other] *)
Lemma C10_witness :
  SearchEngine.indexing_enabled (SearchEngine.self after_other_search) = true ∧
  path_exists demo_world "/root" = true ∧
  SearchEngine.quick_search demo_world "/root" "notes" 100 after_other_search
  = (SearchEngine.Ret
       (Py.slice_to 100
          (elements (SearchIndex.search
                       (SearchEngine.index (SearchEngine.self after_other_search))
                       "notes"))),
     after_other_search).
Proof.
  assert (Hix : SearchEngine.indexing_enabled
                  (SearchEngine.self after_other_search) = true)
    by (vm_compute; reflexivity).
  split; [exact Hix |]. split; [reflexivity |].
  apply (C10_quick_search_reads_index_only demo_world "/root" "notes" 100
           after_other_search Hix eq_refl).
Defined.

(* ===================================================================== *)
(** ** The Python primitives on examples *)
(* ===================================================================== *)

Example lower_ex : Py.lower "Report.TXT" = "report.txt"%string.
Proof. reflexivity. Qed.

Example findall_ex :
  Py.findall_word "my_file-v2.tar.gz" = ["my_file"; "v2"; "tar"; "gz"]%string.
Proof. reflexivity. Qed.

Example basename_ex : Py.basename "/root/b/sub.py" = "sub.py"%string.
Proof. reflexivity. Qed.

Example dirname_ex : Py.dirname "/root/b/sub.py" = "/root/b"%string.
Proof. reflexivity. Qed.

Example dirname_root_ex : Py.dirname "/a.txt" = "/"%string.
Proof. reflexivity. Qed.

Example join_ex : Py.join "/root" "a.txt" = "/root/a.txt"%string.
Proof. reflexivity. Qed.

Example split_nl_ex : Py.split_nl "ab
cd
"%string = ["ab"; "cd"; ""]%string.
Proof. reflexivity. Qed.

Example suffix_ex : Py.path_suffix "/x/archive.tar.GZ" = ".GZ"%string.
Proof. reflexivity. Qed.

Example suffix_hidden_ex : Py.path_suffix "/x/.bashrc" = ""%string.
Proof. reflexivity. Qed.

Example chunks_ex : Py.chunks 3 "abcdefgh" = ["abc"; "def"; "gh"]%string.
Proof. reflexivity. Qed.

Example slice_neg_ex : Py.slice_to (-1) [1; 2; 3] = [1; 2].
Proof. reflexivity. Qed.

Example demo_glob_search :
  fst (SearchEngine.search_files glob plain_search demo_world 0
         (SearchEngine.mk_args "/root" "*.txt" None None None None None None
            false false 1000 false false) fresh)
  = SearchEngine.Ret
      [SearchEngine.mk_result "/root/a.txt" "a.txt" 5 2000 "/root" "filename"
         None None].
Proof. vm_compute. reflexivity. Qed.

Example demo_content_search :
  fst (SearchEngine.search_files glob plain_search demo_world 0
         (SearchEngine.mk_args "/root" "*" (Some "hello"%string) None None None
            None None false false 1000 true false) fresh)
  = SearchEngine.Ret
      [SearchEngine.mk_result "/root/a.txt" "a.txt" 5 2000 "/root" "content"
         (Some "hello"%string) (Some 1)].
Proof. vm_compute. reflexivity. Qed.

Example crowded_check :
  match SearchEngine.search_files glob plain_search crowded_world 0
          (walk_query "/big" "*") fresh with
  | (SearchEngine.Ret rs, _) => length rs
  | _ => 0
  end = 1000.
Proof. vm_compute. reflexivity. Qed.

(* ===================================================================== *)
(** ** The engine on examples *)
(* ===================================================================== *)

(** the default size limit of the content search is 10 MiB *)
Example default_limit :
  SearchEngine.max_file_size_for_content_search (SearchEngine.init 4)
  = (10 * 1024 * 1024)%Z.
Proof. reflexivity. Qed.

(** without [case_sensitive] the pattern [report.txt] finds both spellings *)
Example office_case_insensitive :
  returned_paths
    (SearchEngine.search_files glob plain_search office_world 0
       (walk_query "/office" "report.txt") fresh)
  = ["/office/Report.TXT"; "/office/report.txt"]%string.
Proof. vm_compute. reflexivity. Qed.

Example office_case_sensitive :
  returned_paths
    (SearchEngine.search_files glob plain_search office_world 0
       (SearchEngine.mk_args "/office" "report.txt" None None None None None
          None true false 1000 false false) fresh)
  = ["/office/report.txt"]%string.
Proof. vm_compute. reflexivity. Qed.

(** [size_min=1000] keeps the file of exactly 1000 bytes *)
Example office_size_min :
  returned_paths
    (SearchEngine.search_files glob plain_search office_world 0
       (SearchEngine.mk_args "/office" "*" None None (Some 1000%Z) None None
          None false false 1000 false false) fresh)
  = ["/office/report.txt"; "/office/plan.doc"]%string.
Proof. vm_compute. reflexivity. Qed.

(** [max_results=1] returns one result *)
Example office_one_result :
  returned_paths
    (SearchEngine.search_files glob plain_search office_world 0
       (SearchEngine.mk_args "/office" "*" None None None None None
          None false false 1 false false) fresh)
  = ["/office/Report.TXT"]%string.
Proof. vm_compute. reflexivity. Qed.

(** a listed file that [os.stat] cannot read is skipped *)
Example office_skips_deleted_file :
  returned_paths
    (SearchEngine.search_files glob plain_search office_world 0
       (walk_query "/office" "*.txt") fresh)
  = ["/office/Report.TXT"; "/office/report.txt"]%string.
Proof. vm_compute. reflexivity. Qed.

(** the indexed strategy, uninterrupted and cancelled during the refresh *)
Example demo_indexed_search :
  returned_paths
    (SearchEngine.search_files glob plain_search demo_world 0
       (SearchEngine.defaults "/root" "a.txt") fresh)
  = ["/root/a.txt"]%string.
Proof. vm_compute. reflexivity. Qed.

(** a file whose time [fromtimestamp] does not convert makes the search
    raise in both strategies, unless a check before the conversion turns
    the file down *)
Example future_walk_raises :
  (SearchEngine.search_files glob plain_search future_world 0
     (walk_query "/future" "*") fresh).1
  = SearchEngine.Raise
      (SearchEngine.SearchError
         "Search operation failed: Filesystem search failed: year 33658 is out of range").
Proof. vm_compute. reflexivity. Qed.

Example future_indexed_raises :
  (SearchEngine.search_files glob plain_search future_world 0
     (SearchEngine.defaults "/future" "old*") fresh).1
  = SearchEngine.Raise
      (SearchEngine.SearchError
         "Search operation failed: year 33658 is out of range").
Proof. vm_compute. reflexivity. Qed.

Example future_other_name_returns :
  (SearchEngine.search_files glob plain_search future_world 0
     (walk_query "/future" "*.py") fresh).1
  = SearchEngine.Ret [].
Proof. vm_compute. reflexivity. Qed.

Example future_size_check_first :
  (SearchEngine.search_files glob plain_search future_world 0
     (SearchEngine.mk_args "/future" "*" None None (Some 5%Z) None None None
        false false 1000 false false) fresh).1
  = SearchEngine.Ret [].
Proof. vm_compute. reflexivity. Qed.

Example demo_indexed_cancelled :
  SearchEngine.search_files glob plain_search demo_world 0
    (SearchEngine.defaults "/root" "a.txt") (fresh_cancelled 1)
  = (SearchEngine.Ret [],
     (SearchEngine.search_files glob plain_search demo_world 0
        (SearchEngine.defaults "/root" "a.txt") (fresh_cancelled 1)).2) ∧
  SearchEngine.cancel_event
    (SearchEngine.self
       (SearchEngine.search_files glob plain_search demo_world 0
          (SearchEngine.defaults "/root" "a.txt") (fresh_cancelled 1)).2) = true.
Proof. vm_compute. auto. Qed.

(* ===================================================================== *)
(** ** Further properties of SearchIndex *)
(* ===================================================================== *)

Section IndexMore.

Lemma contains_refl (s : string) : Py.contains s s = true.
Proof.
  apply contains_prefix. rewrite <- (str_app_nil_r s) at 2. apply prefix_intro.
Qed.

Lemma elem_of_search (i : SearchIndex.t) (query p : string) :
  p ∈ SearchIndex.search i query ↔
    Py.findall_word (Py.lower query) ≠ [] ∧
    ∀ word, word ∈ Py.findall_word (Py.lower query) →
            p ∈ SearchIndex.matches i word.
Proof.
  unfold SearchIndex.search.
  destruct (Py.findall_word (Py.lower query)) as [|word0 rest].
  - split; [intros []%elem_of_empty | intros [? _]; congruence].
  - change (match SearchIndex.matches i <$> word0 :: rest with
            | [] => ∅
            | _ :: _ => SearchIndex.intersection_all
                          (SearchIndex.matches i <$> word0 :: rest)
            end)
      with (SearchIndex.intersection_all
              (SearchIndex.matches i <$> word0 :: rest)).
    rewrite elem_of_intersection_all. split.
    + intros [_ Hall]. split; [done |]. intros word Hword.
      apply Hall, list_elem_of_fmap. eauto.
    + intros [_ Hall]. split; [done |]. intros X HX.
      apply list_elem_of_fmap in HX as (word & -> & Hword). auto.
Qed.

(** The postings after [add_file(f)]: [f] joins the posting set of each of
    its words, nothing else changes. *)
Lemma elem_of_matches_add_file (w : World) (f word p : string)
    (i : SearchIndex.t) :
  p ∈ SearchIndex.matches (SearchIndex.add_file w f i) word ↔
    p ∈ SearchIndex.matches i word ∨
    (p = f ∧ ∃ indexed_word, indexed_word ∈ name_words f ∧
                             Py.contains word indexed_word = true).
Proof.
  rewrite !elem_of_matches. rewrite add_file_index. fold (name_words f). split.
  - intros (k & posting & Hk & Hc & Hp).
    rewrite add_words_lookup in Hk. case_decide as Hin.
    + injection Hk as <-. apply elem_of_union in Hp as [Hp | Hp].
      * left. destruct (SearchIndex.index i !! k) as [old|] eqn:Hold;
          simpl in Hp; [eauto | by apply elem_of_empty in Hp].
      * apply elem_of_singleton in Hp as ->. right. eauto.
    + left. eauto.
  - intros [(k & posting & Hk & Hc & Hp) | (-> & k & Hin & Hc)].
    + destruct (decide (k ∈ name_words f)) as [Hin | Hin].
      * exists k, (posting ∪ {[f]}). rewrite add_words_lookup, decide_True by done.
        rewrite Hk. simpl. repeat split; [done |]. set_solver.
      * exists k, posting. rewrite add_words_lookup, decide_False by done.
        auto.
    + exists k, (default ∅ (SearchIndex.index i !! k) ∪ {[f]}).
      rewrite add_words_lookup, decide_True by done.
      repeat split; [done |]. set_solver.
Qed.

Lemma add_file_commute (w : World) (f g : string) (i : SearchIndex.t) :
  SearchIndex.add_file w f (SearchIndex.add_file w g i)
  = SearchIndex.add_file w g (SearchIndex.add_file w f i).
Proof.
  assert (Hix : SearchIndex.index
                  (SearchIndex.add_file w f (SearchIndex.add_file w g i))
                = SearchIndex.index
                    (SearchIndex.add_file w g (SearchIndex.add_file w f i))).
  { rewrite !add_file_index. apply map_eq. intros k.
    rewrite !add_words_lookup.
    destruct (decide (k ∈ name_words f)), (decide (k ∈ name_words g));
      unfold name_words in *;
      repeat (try rewrite decide_True by done;
              try rewrite decide_False by done); simpl; try done.
    f_equal. set_solver. }
  assert (Hts : SearchIndex.file_timestamps
                  (SearchIndex.add_file w f (SearchIndex.add_file w g i))
                = SearchIndex.file_timestamps
                    (SearchIndex.add_file w g (SearchIndex.add_file w f i))).
  { rewrite !add_file_timestamps.
    destruct (getmtime w f) as [tf|] eqn:Hf, (getmtime w g) as [tg|] eqn:Hg;
      try done.
    destruct (decide (f = g)) as [-> | Hne]; [congruence |].
    now apply insert_insert_ne. }
  destruct (SearchIndex.add_file w f (SearchIndex.add_file w g i)),
           (SearchIndex.add_file w g (SearchIndex.add_file w f i)).
  simpl in *. congruence.
Qed.

Lemma is_indexed_add_file_other (w : World) (f p : string) (i : SearchIndex.t) :
  SearchIndex.is_indexed w p i = true →
  SearchIndex.is_indexed w p (SearchIndex.add_file w f i) = true.
Proof.
  unfold SearchIndex.is_indexed. rewrite add_file_timestamps.
  destruct (getmtime w f) as [tf|] eqn:Hf; [| done].
  destruct (decide (f = p)) as [-> | Hne].
  - rewrite lookup_insert_eq, Hf. intros _. apply Z.leb_refl.
  - now rewrite lookup_insert_ne.
Qed.

Lemma is_indexed_add_file_same (w : World) (f : string) (i : SearchIndex.t) :
  is_Some (os_stat w f) →
  SearchIndex.is_indexed w f (SearchIndex.add_file w f i) = true.
Proof.
  intros [st Hst]. unfold SearchIndex.is_indexed.
  rewrite add_file_timestamps. unfold getmtime. rewrite Hst. simpl.
  rewrite lookup_insert_eq. apply Z.leb_refl.
Qed.

End IndexMore.

(** X1.  After [add_file(f)], [search] finds [f] for every query that has
    a word and whose words each occur inside some word of the lowercased
    base name of [f]; so for the base name itself when it has a word
    character. *)
Theorem X1_add_file_then_search_finds (w : World) (f query : string)
    (i : SearchIndex.t) :
  Py.findall_word (Py.lower query) ≠ [] →
  (∀ word, word ∈ Py.findall_word (Py.lower query) →
     ∃ indexed_word, indexed_word ∈ name_words f ∧
                     Py.contains word indexed_word = true) →
  f ∈ SearchIndex.search (SearchIndex.add_file w f i) query ∧
  (name_words f ≠ [] →
   f ∈ SearchIndex.search (SearchIndex.add_file w f i) (Py.basename f)).
Proof.
  intros Hne Hwords. split.
  - apply elem_of_search. split; [done |]. intros word Hword.
    apply elem_of_matches_add_file. right. split; [done |]. auto.
  - intros Hname. apply elem_of_search. fold (name_words f).
    split; [done |]. intros word Hword.
    apply elem_of_matches_add_file. right. split; [done |].
    exists word. split; [done | apply contains_refl].
Qed.

(** X2.  [add_file(f)] changes the answers of [search] for the path [f]
    only: every other path is in the answer to a query after the call
    exactly when it was before, and no path is ever lost. *)
Theorem X2_add_file_touches_own_path_only (w : World) (f query p : string)
    (i : SearchIndex.t) :
  (p ∈ SearchIndex.search i query →
   p ∈ SearchIndex.search (SearchIndex.add_file w f i) query) ∧
  (p ≠ f →
   p ∈ SearchIndex.search (SearchIndex.add_file w f i) query →
   p ∈ SearchIndex.search i query).
Proof.
  split.
  - rewrite !elem_of_search. intros [Hne Hall]. split; [done |].
    intros word Hword. apply elem_of_matches_add_file. left. auto.
  - intros Hpf. rewrite !elem_of_search. intros [Hne Hall]. split; [done |].
    intros word Hword.
    apply Hall, elem_of_matches_add_file in Hword as [? | [? _]];
      [done | congruence].
Qed.

(** X3.  The index does not depend on the order in which files were added:
    adding the files of a list and adding those of any rearrangement of it
    give the same index, hence the same answer to every query. *)
Theorem X3_index_independent_of_insertion_order (w : World)
    (paths paths' : list string) (i : SearchIndex.t) :
  paths ≡ₚ paths' →
  add_files w paths i = add_files w paths' i ∧
  ∀ query, SearchIndex.search (add_files w paths i) query
           = SearchIndex.search (add_files w paths' i) query.
Proof.
  intros Hperm.
  assert (Heq : add_files w paths i = add_files w paths' i).
  { unfold add_files. revert i.
    induction Hperm as [| x l l' _ IH | x y l | l l' l'' _ IH1 _ IH2];
      intros i; cbn [foldl].
    - reflexivity.
    - apply IH.
    - now rewrite add_file_commute.
    - now rewrite IH1. }
  split; [exact Heq |]. intros query. now rewrite Heq.
Qed.

(* ===================================================================== *)
(** ** The bounded history *)
(* ===================================================================== *)

(** X4.  [_add_to_history] keeps a history within [max_history] within it:
    the new descriptor becomes the last entry, the entries before it are
    the old ones in their order, and when the history was full the oldest
    entry, and only it, is dropped. *)
Theorem X4_history_is_a_bounded_queue (d : SearchEngine.history_entry)
    (e : SearchEngine.t) :
  length (SearchEngine.search_history e) ≤ SearchEngine.max_history e →
  0 < SearchEngine.max_history e →
  let after :=
    SearchEngine.get_search_history (SearchEngine._add_to_history d e) in
  length after ≤ SearchEngine.max_history e ∧
  SearchEngine.max_history (SearchEngine._add_to_history d e)
    = SearchEngine.max_history e ∧
  (length (SearchEngine.search_history e) < SearchEngine.max_history e →
   after = SearchEngine.search_history e ++ [d]) ∧
  (length (SearchEngine.search_history e) = SearchEngine.max_history e →
   after = drop 1 (SearchEngine.search_history e) ++ [d]).
Proof.
  intros Hlen Hpos after. unfold after, SearchEngine.get_search_history,
    SearchEngine._add_to_history.
  rewrite length_app. cbn [length].
  destruct (SearchEngine.max_history e
            <? length (SearchEngine.search_history e) + 1) eqn:Hcmp; simpl.
  - apply Nat.ltb_lt in Hcmp.
    split; [rewrite length_drop, length_app; simpl; lia |].
    split; [reflexivity |]. split; [lia |]. intros _.
    destruct (SearchEngine.search_history e); [simpl in *; lia | reflexivity].
  - apply Nat.ltb_ge in Hcmp.
    split; [rewrite length_app; simpl; lia |].
    split; [reflexivity |]. split; [reflexivity | lia].
Qed.

(** a full history of two entries takes a third *)
Lemma X4_witness :
  let e := SearchEngine.mk
             [SearchEngine.mk_entry "a" None 1 "/root" None;
              SearchEngine.mk_entry "b" None 2 "/root" None]
             2 false SearchIndex.init 4 8192 100 true in
  SearchEngine.get_search_history
    (SearchEngine._add_to_history
       (SearchEngine.mk_entry "c" None 3 "/root" None) e)
  = [SearchEngine.mk_entry "b" None 2 "/root" None;
     SearchEngine.mk_entry "c" None 3 "/root" None].
Proof.
  intros e.
  destruct (X4_history_is_a_bounded_queue
              (SearchEngine.mk_entry "c" None 3 "/root" None) e)
    as (_ & _ & _ & Hfull); [simpl; lia | simpl; lia |].
  apply Hfull. reflexivity.
Defined.

(** [/root/b/sub.py] is found by the query [SUB] *)
Lemma X1_witness :
  "/root/b/sub.py"%string
    ∈ SearchIndex.search
        (SearchIndex.add_file demo_world "/root/b/sub.py" SearchIndex.init)
        "SUB".
Proof.
  refine (proj1 (X1_add_file_then_search_finds demo_world "/root/b/sub.py"
                   "SUB" SearchIndex.init _ _)).
  - vm_compute. discriminate.
  - intros word Hword. vm_compute in Hword.
    apply list_elem_of_singleton in Hword as ->.
    exists "sub"%string. split; [| reflexivity].
    vm_compute. apply elem_of_cons. left. reflexivity.
Defined.

(** two files added in either order *)
Lemma X3_witness :
  add_files demo_world ["/root/a.txt"; "/root/b/sub.py"]%string SearchIndex.init
  = add_files demo_world ["/root/b/sub.py"; "/root/a.txt"]%string SearchIndex.init.
Proof.
  apply (X3_index_independent_of_insertion_order demo_world
           ["/root/a.txt"; "/root/b/sub.py"]%string
           ["/root/b/sub.py"; "/root/a.txt"]%string SearchIndex.init).
  apply perm_swap.
Defined.

(* ===================================================================== *)
(** ** The content scan *)
(* ===================================================================== *)

Section ContentMore.

Import SearchEngine.

Lemma split_nl_step (c : ascii) (t l : string) (ls : list string) :
  Py.split_nl t = l :: ls →
  Py.split_nl (String c t)
  = if Ascii.eqb c "010" then EmptyString :: l :: ls else String c l :: ls.
Proof. intros H. cbn [Py.split_nl]. now rewrite H. Qed.

(** Splitting a text that continues: the lines before the last one are
    settled, the last one goes on into the continuation. *)
Lemma split_nl_app (a b : string) :
  Py.split_nl (a +:+ b)
  = removelast (Py.split_nl a)
    ++ Py.split_nl (List.last (Py.split_nl a) EmptyString +:+ b).
Proof.
  induction a as [|c t IH]; [reflexivity |].
  rewrite str_app_cons.
  destruct (split_nl_cons c t) as (l0 & ls0 & Ht & Hs).
  destruct (split_nl_cons c (t +:+ b)) as (m0 & ms0 & Htb & Hsb).
  rewrite Hs, Hsb. rewrite Ht, Htb in IH.
  destruct ls0 as [|l1 ls1].
  - cbn [removelast List.last app] in IH.
    destruct (Ascii.eqb c "010") eqn:Hc.
    + cbn [removelast List.last app]. now rewrite IH.
    + cbn [removelast List.last app]. rewrite str_app_cons.
      rewrite (split_nl_step c _ m0 ms0) by (symmetry; exact IH).
      now rewrite Hc.
  - change (removelast (l0 :: l1 :: ls1)) with (l0 :: removelast (l1 :: ls1)) in IH.
    change (List.last (l0 :: l1 :: ls1) EmptyString)
      with (List.last (l1 :: ls1) EmptyString) in IH.
    cbn [app] in IH. injection IH as -> ->.
    destruct (Ascii.eqb c "010"); reflexivity.
Qed.

Lemma split_nl_nonempty (s : string) : Py.split_nl s ≠ [].
Proof.
  destruct s as [|c t]; [discriminate |].
  destruct (split_nl_cons c t) as (l & ls & _ & ->).
  now destruct (Ascii.eqb c "010").
Qed.

Lemma last_app_nonempty {A} (l l' : list A) (d : A) :
  l' ≠ [] → List.last (l ++ l') d = List.last l' d.
Proof.
  intros Hne. induction l as [|x l IH]; [reflexivity |].
  cbn [app]. rewrite <- IH. destruct (l ++ l') eqn:E; [| reflexivity].
  apply app_eq_nil in E as [_ ?]. contradiction.
Qed.

Lemma scan_lines_app (term : string) (cs : bool) (A B : list string) :
  ∀ line_num,
    scan_lines term cs (A ++ B) line_num
    = match scan_lines term cs A line_num with
      | (Some hit, n) => (Some hit, n)
      | (None, n) => scan_lines term cs B n
      end.
Proof.
  induction A as [|l A IH]; intros line_num; [reflexivity |].
  cbn [app scan_lines].
  destruct (Py.contains term (if cs then l else Py.lower l)); [reflexivity |].
  apply IH.
Qed.

(** Two chunks read one after the other are scanned as their
    concatenation read at once. *)
Lemma scan_chunks_merge (term : string) (cs : bool) (c1 c2 : string)
    (rest : list string) (buffer : string) (line_num : nat) :
  scan_chunks term cs (c1 :: c2 :: rest) buffer line_num
  = scan_chunks term cs ((c1 +:+ c2) :: rest) buffer line_num.
Proof.
  cbn [scan_chunks].
  rewrite <- str_app_assoc.
  rewrite (split_nl_app (buffer +:+ c1) c2).
  set (lines1 := Py.split_nl (buffer +:+ c1)).
  set (lines2 := Py.split_nl (List.last lines1 EmptyString +:+ c2)).
  assert (Hne : lines2 ≠ []) by apply split_nl_nonempty.
  rewrite removelast_app by exact Hne.
  rewrite last_app_nonempty by exact Hne.
  rewrite scan_lines_app.
  destruct (scan_lines term cs (removelast lines1) line_num) as [[[line n]|] k];
    reflexivity.
Qed.

Lemma scan_chunks_joined (term : string) (cs : bool) (chunks : list string) :
  ∀ (c buffer : string) (line_num : nat),
    scan_chunks term cs (c :: chunks) buffer line_num
    = scan_chunks term cs [c +:+ foldr String.append EmptyString chunks]
        buffer line_num.
Proof.
  induction chunks as [|c2 chunks IH]; intros c buffer line_num.
  - cbn [foldr]. now rewrite str_app_nil_r.
  - rewrite scan_chunks_merge, IH. cbn [foldr]. now rewrite str_app_assoc.
Qed.

(** With a positive chunk size the scan of a file is the scan of its whole
    text read at once. *)
Lemma search_in_file_whole (w : World) (e : t) (p term text : string)
    (cs : bool) :
  _is_text_file w p = true →
  read_text w p = Some text →
  0 < chunk_size e →
  _search_in_file_optimized w e p term cs
  = scan_chunks (case_adjusted cs term) cs [text] EmptyString 0.
Proof.
  intros Htext Hread Hpos. unfold _search_in_file_optimized.
  rewrite Htext, Hread. cbn [negb]. fold (case_adjusted cs term).
  pose proof (chunks_complete (chunk_size e) text Hpos) as Hall.
  destruct (Py.chunks (chunk_size e) text) as [|c chunks].
  - cbn [foldr] in Hall. subst text. reflexivity.
  - cbn [foldr] in Hall. rewrite scan_chunks_joined. now rewrite Hall.
Qed.

Lemma scan_lines_hit (term : string) (cs : bool) (lines : list string) :
  ∀ (i line_num : nat) (l : string),
    lines !! i = Some l →
    Py.contains term (case_adjusted cs l) = true →
    (∀ j l', j < i → lines !! j = Some l' →
       Py.contains term (case_adjusted cs l') = false) →
    scan_lines term cs lines line_num
    = (Some (Py.prefix_of 200 (Py.strip l), line_num + i + 1),
       line_num + i + 1).
Proof.
  induction lines as [|l0 lines IH]; intros i line_num l Hl Hc Hbefore;
    [discriminate |].
  cbn [scan_lines]. fold (case_adjusted cs l0).
  destruct i as [|i].
  - injection Hl as ->. rewrite Hc.
    now replace (line_num + 0 + 1) with (line_num + 1) by lia.
  - rewrite (Hbefore 0 l0) by (first [lia | reflexivity]).
    rewrite (IH i (line_num + 1) l Hl Hc).
    + now replace (line_num + 1 + i + 1) with (line_num + S i + 1) by lia.
    + intros j l' Hj Hl'. apply (Hbefore (S j) l'); [lia | exact Hl'].
Qed.

Lemma contains_empty_hay (n : string) :
  Py.contains n EmptyString = true → n = EmptyString.
Proof. destruct n; [reflexivity | discriminate]. Qed.

Lemma case_adjusted_empty (cs : bool) (s : string) :
  case_adjusted cs s = EmptyString → s = EmptyString.
Proof. destruct cs, s; simpl; congruence. Qed.

Lemma substring_length_le (n : nat) (s : string) :
  String.length (String.substring 0 n s) ≤ n.
Proof.
  revert s. induction n as [|n IH]; intros [|c s]; simpl; try lia.
  specialize (IH s). lia.
Qed.

Lemma scan_lines_bounds (term : string) (cs : bool) (lines : list string) :
  ∀ line_num hit n,
    scan_lines term cs lines line_num = (Some hit, n) →
    line_num < hit.2 ∧ String.length hit.1 ≤ 200.
Proof.
  induction lines as [|l lines IH]; intros line_num hit n H; [discriminate |].
  cbn [scan_lines] in H.
  destruct (Py.contains term (if cs then l else Py.lower l)).
  - injection H as <- _. simpl. split; [lia | apply substring_length_le].
  - apply IH in H as [? ?]. split; [lia | done].
Qed.

Lemma scan_lines_later (term : string) (cs : bool) (lines : list string) :
  ∀ line_num o n, scan_lines term cs lines line_num = (o, n) → line_num ≤ n.
Proof.
  induction lines as [|l lines IH]; intros line_num o n H; cbn [scan_lines] in H.
  - injection H as _ <-. lia.
  - destruct (Py.contains term (if cs then l else Py.lower l)).
    + injection H as _ <-. lia.
    + apply IH in H. lia.
Qed.

Lemma scan_chunks_bounds (term : string) (cs : bool) (chunks : list string) :
  ∀ buffer line_num,
    scan_chunks term cs chunks buffer line_num = (None, None) ∨
    ∃ line n, scan_chunks term cs chunks buffer line_num = (Some line, Some n) ∧
              line_num < n ∧ String.length line ≤ 200.
Proof.
  induction chunks as [|c chunks IH]; intros buffer line_num; cbn [scan_chunks].
  - destruct (Py.truthy buffer); [| now left].
    destruct (Py.contains term (if cs then buffer else Py.lower buffer));
      [| now left].
    right. do 2 eexists. split; [reflexivity |].
    split; [lia | apply substring_length_le].
  - destruct (scan_lines term cs
                (removelast (Py.split_nl (buffer +:+ c))) line_num)
      as [[[line n]|] k] eqn:Hscan.
    + right. exists line, n. split; [reflexivity |].
      apply scan_lines_bounds in Hscan. exact Hscan.
    + assert (Hk : line_num ≤ k) by (eapply scan_lines_later; eauto).
      destruct (IH (List.last (Py.split_nl (buffer +:+ c)) EmptyString) k)
        as [-> | (line & n & -> & Hn & Hlen)]; [now left |].
      right. exists line, n. split; [reflexivity |]. split; [lia | done].
Qed.

Lemma printable_count (s : string) :
  all_chars printable s = true →
  count_chars printable s = String.length s ∧
  Py.has_char "000" s = false.
Proof.
  induction s as [|c s IH]; [done |].
  cbn [all_chars count_chars String.length Py.has_char].
  intros [Hc Hs]%andb_true_iff. destruct (IH Hs) as [-> ->].
  rewrite Hc. split; [reflexivity |].
  rewrite orb_false_r. destruct (Ascii.eqb_spec "000" c) as [<- |]; [| done].
  discriminate.
Qed.

Lemma truthy_length (s : string) : Py.truthy s = true → 0 < String.length s.
Proof. destruct s; simpl; [discriminate | lia]. Qed.

Lemma search_in_file_bounds (w : World) (e : t) (p term : string) (cs : bool) :
  _search_in_file_optimized w e p term cs = (None, None) ∨
  ∃ line n,
    _search_in_file_optimized w e p term cs = (Some line, Some n) ∧
    1 ≤ n ∧ String.length line ≤ 200.
Proof.
  unfold _search_in_file_optimized.
  destruct (negb (_is_text_file w p)); [now left |].
  destruct (read_text w p) as [text|]; [| now left].
  destruct (scan_chunks_bounds
              (if cs then term else Py.lower term) cs
              (Py.chunks (chunk_size e) text) EmptyString 0)
    as [-> | (line & n & -> & Hn & Hlen)]; [now left |].
  right. exists line, n. split; [reflexivity |]. split; [lia | done].
Qed.

End ContentMore.

(** X5.  [_search_in_file_optimized] on a readable text file, with a
    positive chunk size and a non-empty term, returns the first line of
    the text (the text cut at its line breaks) that contains the
    case-adjusted term, stripped and cut to 200 characters, with its
    number counted from 1, and nothing when no line contains it; the
    answer does not depend on the chunk size. *)
Theorem X5_content_scan_finds_first_line (w : World) (e : SearchEngine.t)
    (p term text : string) (cs : bool) :
  SearchEngine._is_text_file w p = true →
  read_text w p = Some text →
  0 < SearchEngine.chunk_size e →
  term ≠ EmptyString →
  (∀ i l,
     Py.split_nl text !! i = Some l →
     Py.contains (case_adjusted cs term) (case_adjusted cs l) = true →
     (∀ j l', j < i → Py.split_nl text !! j = Some l' →
        Py.contains (case_adjusted cs term) (case_adjusted cs l') = false) →
     SearchEngine._search_in_file_optimized w e p term cs
     = (Some (Py.prefix_of 200 (Py.strip l)), Some (i + 1))) ∧
  ((∀ l, l ∈ Py.split_nl text →
      Py.contains (case_adjusted cs term) (case_adjusted cs l) = false) →
   SearchEngine._search_in_file_optimized w e p term cs = (None, None)) ∧
  (∀ e', 0 < SearchEngine.chunk_size e' →
     SearchEngine._search_in_file_optimized w e' p term cs
     = SearchEngine._search_in_file_optimized w e p term cs).
Proof.
  intros Htext Hread Hpos Hterm.
  assert (Hind : ∀ e', 0 < SearchEngine.chunk_size e' →
            SearchEngine._search_in_file_optimized w e' p term cs
            = SearchEngine._search_in_file_optimized w e p term cs).
  { intros e' Hpos'.
    rewrite (search_in_file_whole w e' p term text cs Htext Hread Hpos').
    now rewrite (search_in_file_whole w e p term text cs Htext Hread Hpos). }
  split; [| split; [| exact Hind]];
    rewrite (search_in_file_whole w e p term text cs Htext Hread Hpos);
    cbn [SearchEngine.scan_chunks]; rewrite str_app_nil_l;
    pose proof (@app_removelast_last string (Py.split_nl text) EmptyString
                  (split_nl_nonempty text)) as Hsplit;
    remember (removelast (Py.split_nl text)) as R eqn:HR;
    remember (List.last (Py.split_nl text) EmptyString) as L eqn:HL;
    clear HR HL; rewrite Hsplit; clear Hsplit.
  - intros i l Hl Hc Hbefore.
    destruct (decide (i < length R)) as [Hi | Hi].
    + rewrite lookup_app_l in Hl by exact Hi.
      rewrite (scan_lines_hit _ cs R i 0 l Hl Hc).
      * reflexivity.
      * intros j l' Hj Hl'. apply (Hbefore j l' Hj).
        rewrite lookup_app_l by lia. exact Hl'.
    + assert (Hlen : i < length (R ++ [L])) by (eapply lookup_lt_Some; eauto).
      rewrite length_app in Hlen. simpl in Hlen.
      assert (i = length R) as -> by lia.
      rewrite list_lookup_middle in Hl by reflexivity. injection Hl as ->.
      rewrite scan_lines_none.
      * assert (HLne : Py.truthy l = true).
        { destruct l; [| reflexivity]. exfalso.
          assert (Hadj : case_adjusted cs EmptyString = EmptyString)
            by now destruct cs.
          rewrite Hadj in Hc. apply contains_empty_hay in Hc.
          now apply case_adjusted_empty in Hc. }
        rewrite HLne. fold (case_adjusted cs l). rewrite Hc. reflexivity.
      * intros l' Hl'. apply list_elem_of_lookup in Hl' as [j Hj].
        apply (Hbefore j l').
        -- eapply lookup_lt_Some; eauto.
        -- rewrite lookup_app_l by (eapply lookup_lt_Some; eauto). exact Hj.
  - intros Hnone. rewrite scan_lines_none.
    + destruct (Py.truthy L); [| reflexivity].
      fold (case_adjusted cs L).
      now rewrite (Hnone L) by (apply elem_of_app; right; apply list_elem_of_singleton; reflexivity).
    + intros l Hl. apply Hnone, elem_of_app. now left.
Qed.

(** X6.  Whatever the file, [_search_in_file_optimized] returns either no
    line and no number, or a line of at most 200 characters together with
    a line number that is at least 1. *)
Theorem X6_content_hit_is_bounded (w : World) (e : SearchEngine.t)
    (p term : string) (cs : bool) :
  SearchEngine._search_in_file_optimized w e p term cs = (None, None) ∨
  ∃ line n,
    SearchEngine._search_in_file_optimized w e p term cs = (Some line, Some n) ∧
    1 ≤ n ∧ String.length line ≤ 200.
Proof.
  unfold SearchEngine._search_in_file_optimized.
  destruct (negb (SearchEngine._is_text_file w p)); [now left |].
  destruct (read_text w p) as [text|]; [| now left].
  destruct (scan_chunks_bounds
              (if cs then term else Py.lower term) cs
              (Py.chunks (SearchEngine.chunk_size e) text) EmptyString 0)
    as [-> | (line & n & -> & Hn & Hlen)]; [now left |].
  right. exists line, n. split; [reflexivity |]. split; [lia | done].
Qed.

(** X7.  [_is_text_file] on a readable file: when the first 1024 bytes are
    all printable ASCII, tabs, line feeds or carriage returns (an empty
    file included) the file counts as text; when they hold a NUL byte and
    the extension is not one of the listed text extensions it does not. *)
Theorem X7_text_file_heuristic (w : World) (p data : string) :
  read_bytes w p = Some data →
  (all_chars SearchEngine.printable (String.substring 0 1024 data) = true →
   SearchEngine._is_text_file w p = true) ∧
  (Py.has_char "000" (String.substring 0 1024 data) = true →
   existsb (String.eqb (Py.lower (Py.path_suffix p)))
     SearchEngine.text_extensions = false →
   SearchEngine._is_text_file w p = false).
Proof.
  intros Hread. unfold SearchEngine._is_text_file. rewrite Hread. split.
  - intros Hall.
    destruct (existsb _ SearchEngine.text_extensions); [reflexivity |].
    destruct (Py.truthy (String.substring 0 1024 data)) eqn:Hne;
      [| reflexivity].
    cbn [negb]. destruct (printable_count _ Hall) as [-> ->].
    apply truthy_length in Hne. apply Nat.ltb_lt. lia.
  - intros Hnul ->. rewrite Hnul.
    destruct (String.substring 0 1024 data); [discriminate | reflexivity].
Qed.

(** [a.txt] holds the one line [hello] *)
Lemma X5_witness :
  SearchEngine._search_in_file_optimized demo_world (SearchEngine.init 4)
    "/root/a.txt" "HELLO" false
  = (Some "hello"%string, Some 1).
Proof.
  refine (proj1 (X5_content_scan_finds_first_line demo_world
                   (SearchEngine.init 4) "/root/a.txt" "HELLO" "hello" false
                   _ _ _ _) 0 "hello"%string _ _ _).
  - reflexivity.
  - reflexivity.
  - vm_compute. lia.
  - discriminate.
  - reflexivity.
  - reflexivity.
  - intros j l' Hj. lia.
Defined.

(** the bytes of [a.txt] are printable *)
Lemma X7_witness : SearchEngine._is_text_file demo_world "/root/a.txt" = true.
Proof.
  refine (proj1 (X7_text_file_heuristic demo_world "/root/a.txt" "hello" _) _);
    reflexivity.
Defined.

(* ===================================================================== *)
(** ** Further properties of the two strategies *)
(* ===================================================================== *)

Section EngineMore.

Import SearchEngine.

Variable fnmatch : string → string → bool.
Variable re_search : string → string → re_result.

(* --------------------------------------------------------------------- *)
(** *** The criteria *)

Lemma type_check_ok (o : option string) (filename : string) :
  Py.truthy_opt o &&
    negb (Py.endswith filename (Py.lower (default EmptyString o))) = false
  ↔ ∀ ext, o = Some ext → ext ≠ EmptyString →
           Py.endswith filename (Py.lower ext) = true.
Proof.
  destruct o as [[|c ext]|]; cbn [Py.truthy_opt Py.truthy andb].
  - split; [intros _ ext [= <-] Hne; congruence | done].
  - change (default EmptyString (Some (String c ext))) with (String c ext).
    rewrite negb_false_iff. split.
    + intros H ext' [= <-] _. exact H.
    + intros H. now apply H.
  - split; [intros _ ext [=] | done].
Qed.

Lemma size_min_check_ok (o : option Z) (size : Z) :
  Py.truthy_int o && (size <? default 0%Z o)%Z = false
  ↔ ∀ n, o = Some n → n ≠ 0%Z → (n ≤ size)%Z.
Proof.
  destruct o as [n|]; simpl; [| split; [intros _ n [=] | done]].
  destruct (Z.eqb_spec n 0) as [-> | Hn]; simpl.
  - split; [intros _ n [= <-] Hne; congruence | done].
  - rewrite Z.ltb_ge. split.
    + intros H n' [= <-] _. exact H.
    + intros H. now apply H.
Qed.

Lemma size_max_check_ok (o : option Z) (size : Z) :
  Py.truthy_int o && (default 0%Z o <? size)%Z = false
  ↔ ∀ n, o = Some n → n ≠ 0%Z → (size ≤ n)%Z.
Proof.
  destruct o as [n|]; simpl; [| split; [intros _ n [=] | done]].
  destruct (Z.eqb_spec n 0) as [-> | Hn]; simpl.
  - split; [intros _ n [= <-] Hne; congruence | done].
  - rewrite Z.ltb_ge. split.
    + intros H n' [= <-] _. exact H.
    + intros H. now apply H.
Qed.

Lemma date_from_check_ok (o : option Z) (date : Z) :
  match o with Some d => (date <? d)%Z | None => false end = false
  ↔ ∀ d, o = Some d → (d ≤ date)%Z.
Proof.
  destruct o as [d|]; [| split; [intros _ d [=] | done]].
  rewrite Z.ltb_ge. split.
  - intros H d' [= <-]. exact H.
  - intros H. now apply H.
Qed.

Lemma date_to_check_ok (o : option Z) (date : Z) :
  match o with Some d => (d <? date)%Z | None => false end = false
  ↔ ∀ d, o = Some d → (date ≤ d)%Z.
Proof.
  destruct o as [d|]; [| split; [intros _ d [=] | done]].
  rewrite Z.ltb_ge. split.
  - intros H d' [= <-]. exact H.
  - intros H. now apply H.
Qed.

(** When the checks after the pattern pass, [os.stat] succeeded, the time
    was converted and the extension, size and date criteria are met, and
    the other way round. *)
Lemma check_type_size_date_iff (w : World) (p : string) (q : args)
    (st : stat_result) (file_date : Z) :
  check_type_size_date w p (Py.basename p) q = Ok (Some (st, file_date)) ↔
    os_stat w p = Some st ∧
    fromtimestamp w (st_mtime st) = Ok file_date ∧
    (∀ ext, file_type q = Some ext → ext ≠ EmptyString →
       Py.endswith (Py.lower (Py.basename p)) (Py.lower ext) = true) ∧
    (∀ n, size_min q = Some n → n ≠ 0%Z → (n ≤ st_size st)%Z) ∧
    (∀ n, size_max q = Some n → n ≠ 0%Z → (st_size st ≤ n)%Z) ∧
    (∀ d, date_from q = Some d → (d ≤ file_date)%Z) ∧
    (∀ d, date_to q = Some d → (file_date ≤ d)%Z).
Proof.
  rewrite <- type_check_ok, <- size_min_check_ok, <- size_max_check_ok,
    <- date_from_check_ok, <- date_to_check_ok.
  unfold check_type_size_date.
  destruct (Py.truthy_opt (file_type q) && _);
    [split; [discriminate | intros (_ & _ & ? & _); discriminate] |].
  destruct (os_stat w p) as [st'|];
    [| split; [discriminate | intros [? _]; discriminate]].
  split.
  - intros H.
    destruct (Py.truthy_int (size_min q) && _) eqn:H1; [discriminate |].
    destruct (Py.truthy_int (size_max q) && _) eqn:H2; [discriminate |].
    destruct (fromtimestamp w (st_mtime st')) as [d| |msg] eqn:Hconv;
      [| discriminate..].
    destruct (match date_from q with Some _ => _ | None => _ end) eqn:H3;
      [discriminate |].
    destruct (match date_to q with Some _ => _ | None => _ end) eqn:H4;
      [discriminate |].
    injection H as <- <-. repeat split; first [assumption | reflexivity].
  - intros ([= ->] & -> & _ & -> & -> & -> & ->). reflexivity.
Qed.


Lemma matches_criteria_iff (w : World) (p : string) (q : args) :
  _matches_criteria fnmatch re_search w p q = Done true ↔
    ∃ st file_date,
      os_stat w p = Some st ∧
      fromtimestamp w (st_mtime st) = Ok file_date ∧
      meets_criteria fnmatch re_search q p st file_date.
Proof.
  unfold _matches_criteria, meets_criteria, meets_name_and_size.
  destruct (_match_pattern fnmatch re_search (Py.basename p) (pattern q)
              (case_sensitive q) (regex q)) as [[|]|msg];
    [| split; [discriminate | intros (? & ? & _ & _ & (? & _) & _); discriminate]..].
  destruct (check_type_size_date w p (Py.basename p) q)
    as [[[st d]|]| |msg] eqn:Hchk.
  - apply check_type_size_date_iff in Hchk
      as (Hst & Hconv & Hext & Hmin & Hmax & Hfrom & Hto).
    split; [| done]. intros _. exists st, d. auto 10.
  - split; [discriminate |].
    intros (st & d & Hst & Hconv & (_ & Hext & Hmin & Hmax) & Hfrom & Hto).
    assert (Hok : check_type_size_date w p (Py.basename p) q = Ok (Some (st, d)))
      by (apply check_type_size_date_iff; auto 10).
    congruence.
  - split; [discriminate |].
    intros (st & d & Hst & Hconv & (_ & Hext & Hmin & Hmax) & Hfrom & Hto).
    assert (Hok : check_type_size_date w p (Py.basename p) q = Ok (Some (st, d)))
      by (apply check_type_size_date_iff; auto 10).
    congruence.
  - split; [discriminate |].
    intros (st & d & Hst & Hconv & (_ & Hext & Hmin & Hmax) & Hfrom & Hto).
    assert (Hok : check_type_size_date w p (Py.basename p) q = Ok (Some (st, d)))
      by (apply check_type_size_date_iff; auto 10).
    congruence.
Qed.



(** Without a content term [_process_file] takes a file exactly when
    [_matches_criteria] holds of it, and raises an exception its caller
    does not catch exactly when one escapes [_matches_criteria]. *)
Lemma process_file_matches_criteria (w : World) (e : t) (p : string) (q : args)
    (rs : list SearchResult) :
  Py.truthy_opt (content_search q) = false →
  ((∃ rs', _process_file fnmatch re_search w e p q rs = Ok (true, rs')) ↔
   _matches_criteria fnmatch re_search w p q = Done true) ∧
  (∀ msg, _process_file fnmatch re_search w e p q rs = Failure msg ↔
          _matches_criteria fnmatch re_search w p q = Escapes msg).
Proof.
  intros Hno. unfold _process_file, _matches_criteria. rewrite Hno.
  destruct (_match_pattern fnmatch re_search (Py.basename p) (pattern q)
              (case_sensitive q) (regex q)) as [[|]|msg'].
  - destruct (check_type_size_date w p (Py.basename p) q)
      as [[[st d]|]| |msg'].
    + split; [split; [done | eauto] | intros msg; split; discriminate].
    + split; [split; [intros [? [=]] | discriminate]
             | intros msg; split; discriminate].
    + split; [split; [intros [? [=]] | discriminate]
             | intros msg; split; discriminate].
    + split; [split; [intros [? [=]] | discriminate] |].
      intros msg; split; intros [= ->]; reflexivity.
  - split; [split; [intros [? [=]] | discriminate]
           | intros msg; split; discriminate].
  - split; [split; [intros [? [=]] | discriminate] |].
    intros msg; split; intros [= ->]; reflexivity.
Qed.

(** What [_process_file] appends describes the file and meets the
    criteria. *)
Lemma process_file_sound (w : World) (e : t) (p : string) (q : args)
    (rs rs' : list SearchResult) :
  _process_file fnmatch re_search w e p q rs = Ok (true, rs') →
  ∃ r, rs' = rs ++ [r] ∧ path r = p ∧ sound_result fnmatch re_search w q r.
Proof.
  unfold _process_file.
  destruct (_match_pattern fnmatch re_search (Py.basename p) (pattern q)
              (case_sensitive q) (regex q)) as [[|]|msg] eqn:Hname;
    [| discriminate..].
  destruct (check_type_size_date w p (Py.basename p) q)
    as [[[st d]|]| |msg] eqn:Hchk; [| discriminate..].
  apply check_type_size_date_iff in Hchk
    as (Hst & Hconv & Hext & Hmin & Hmax & Hfrom & Hto).
  assert (Hmeets : meets_criteria fnmatch re_search q p st d).
  { unfold meets_criteria, meets_name_and_size. auto 10. }
  assert (Hplain : ∀ content_line,
            sound_result fnmatch re_search w q
              (mk_result p (Py.basename p) (st_size st) d (Py.dirname p)
                 "filename" content_line.1 content_line.2)).
  { intros content_line. exists st, d.
    cbn [path name directory size modified match_type].
    split; [exact Hst |]. split; [exact Hconv |]. split; [exact Hmeets |].
    do 4 (split; [reflexivity |]). now left. }
  destruct (Py.truthy_opt (content_search q)) eqn:Hterm.
  - destruct (max_file_size_for_content_search e <? st_size st)%Z.
    + intros [= <-]. eexists. split; [reflexivity |]. split; [reflexivity |].
      exact (Hplain (None, None)).
    + destruct (search_in_file_bounds w e p
                  (default EmptyString (content_search q)) (case_sensitive q))
        as [-> | (line & n & -> & Hn & Hlen)]; cbn [Py.truthy_opt].
      * destruct (_match_pattern fnmatch re_search (Py.basename p)
                    (default EmptyString (content_search q))
                    (case_sensitive q) (regex q)) as [[|]|msg];
          [| discriminate..].
        intros [= <-]. eexists. split; [reflexivity |]. split; [reflexivity |].
        exact (Hplain (None, None)).
      * destruct (Py.truthy line) eqn:Hline.
        -- intros [= <-]. eexists. split; [reflexivity |].
           split; [reflexivity |].
           exists st, d. cbn [path name directory size modified match_type
                                match_line match_line_number].
           split; [exact Hst |]. split; [exact Hconv |].
           split; [exact Hmeets |]. do 4 (split; [reflexivity |]).
           right. split; [reflexivity |]. split; [exact Hterm |].
           exists line, n. split; [reflexivity |].
           split; [now apply truthy_true |]. split; [exact Hlen |].
           split; [reflexivity | exact Hn].
        -- destruct (_match_pattern fnmatch re_search (Py.basename p)
                       (default EmptyString (content_search q))
                       (case_sensitive q) (regex q)) as [[|]|msg];
             [| discriminate..].
           intros [= <-]. eexists. split; [reflexivity |].
           split; [reflexivity |].
           exact (Hplain (Some line, Some n)).
  - intros [= <-]. eexists. split; [reflexivity |]. split; [reflexivity |].
    exact (Hplain (None, None)).
Qed.

(* --------------------------------------------------------------------- *)
(** *** Where the results come from *)

Lemma collect_forall (P : SearchResult → Prop) (w : World) (e : t) (q : args)
    (ps : list string) :
  ∀ rs rs',
    (∀ p r, p ∈ ps →
       (∀ rs, _process_file fnmatch re_search w e p q rs = Ok (true, rs ++ [r])) →
       P r) →
    Forall P rs →
    collect fnmatch re_search w e q ps rs = Done rs' →
    Forall P rs'.
Proof.
  induction ps as [|p ps IH]; intros rs rs' HP Hrs; cbn [collect];
    [now intros [= <-] |].
  destruct (max_results q <=? Z.of_nat (length rs))%Z; [now intros [= <-] |].
  assert (HP' : ∀ p' r, p' ∈ ps →
            (∀ rs, _process_file fnmatch re_search w e p' q rs
                   = Ok (true, rs ++ [r])) → P r).
  { intros p' r Hin. apply HP, elem_of_cons. now right. }
  destruct (process_file_cases fnmatch re_search w e p q)
    as [(r & _ & _ & H) | [H | [H | [msg H]]]]; rewrite H;
    [| now apply IH.. | discriminate].
  apply IH; [exact HP' |].
  apply Forall_app. split; [done |]. apply Forall_singleton.
  apply (HP p r); [apply elem_of_cons; now left | exact H].
Qed.

Lemma index_loop_forall (P : SearchResult → Prop) (w : World) (q : args)
    (total : nat) (candidates : list string) :
  ∀ (i : nat) (results : list SearchResult) (s : state) rs,
    (∀ p st file_date, p ∈ candidates →
       _matches_criteria fnmatch re_search w p q = Done true →
       os_stat w p = Some st →
       fromtimestamp w (st_mtime st) = Ok file_date →
       P (mk_result p (Py.basename p) (st_size st) file_date
            (Py.dirname p) "filename" None None)) →
    Forall P results →
    (_index_loop fnmatch re_search w q total i candidates results s).1
      = Done rs →
    Forall P rs.
Proof.
  induction candidates as [|p candidates IH]; intros i results s rs HP Hres;
    cbn [_index_loop]; [now intros [= <-] |].
  destruct (is_set s) as [cancelled s1].
  destruct (cancelled || (max_results q <=? Z.of_nat (length results))%Z);
    [now intros [= <-] |].
  assert (HP' : ∀ p' st file_date, p' ∈ candidates →
            _matches_criteria fnmatch re_search w p' q = Done true →
            os_stat w p' = Some st →
            fromtimestamp w (st_mtime st) = Ok file_date →
            P (mk_result p' (Py.basename p') (st_size st) file_date
                 (Py.dirname p') "filename" None None)).
  { intros p' st d Hin. apply HP, elem_of_cons. now right. }
  destruct (_matches_criteria fnmatch re_search w p q) as [[|]|msg] eqn:Hm;
    [| now apply IH | discriminate].
  destruct (os_stat w p) as [st|] eqn:Hst; [| now apply IH].
  destruct (fromtimestamp w (st_mtime st)) as [d| |msg] eqn:Hconv;
    [| now apply IH | discriminate].
  apply IH; [exact HP' |].
  apply Forall_app. split; [done |]. apply Forall_singleton.
  apply HP; [apply elem_of_cons; now left | done..].
Qed.

Lemma search_files_forall (P : SearchResult → Prop) (w : World) (now : Z)
    (q : args) (s s' : state) (rs : list SearchResult) :
  search_files fnmatch re_search w now q s = (Ret rs, s') →
  (choose_strategy q (self s) = Filesystem →
   ∀ e p r, p ∈ files_under w (root_path q) →
     (∀ rs, _process_file fnmatch re_search w e p q rs = Ok (true, rs ++ [r])) →
     P r) →
  (choose_strategy q (self s) = Indexed →
   ∀ p st file_date,
     _matches_criteria fnmatch re_search w p q = Done true →
     os_stat w p = Some st →
     fromtimestamp w (st_mtime st) = Ok file_date →
     P (mk_result p (Py.basename p) (st_size st) file_date
          (Py.dirname p) "filename" None None)) →
  Forall P rs.
Proof.
  intros Hrun Hfs Hix.
  apply search_files_ret in Hrun as (_ & _ & Hrun).
  destruct (choose_strategy q (self s)); cbn [run_strategy] in Hrun.
  - unfold _search_with_index in Hrun.
    destruct (is_set _) as [cancelled s1].
    destruct cancelled; [injection Hrun as <- _; constructor |].
    apply (f_equal fst) in Hrun. cbn [fst] in Hrun.
    eapply index_loop_forall; [| constructor | exact Hrun].
    intros p st d _. now apply Hix.
  - destruct (search_filesystem_spec fnmatch re_search w q (prepared now q s))
      as (done & s'' & Hspec & Hpre & _).
    rewrite Hspec in Hrun. injection Hrun as Hrun _.
    apply wrapped_done in Hrun.
    eapply collect_forall; [| constructor | exact Hrun].
    intros p r Hin. apply (Hfs eq_refl).
    destruct Hpre as [rest ->]. apply elem_of_app. now left.
Qed.

Lemma collect_length (w : World) (e : t) (q : args) (ps : list string) :
  ∀ rs rs',
    length rs ≤ Z.to_nat (max_results q) →
    collect fnmatch re_search w e q ps rs = Done rs' →
    length rs' ≤ Z.to_nat (max_results q).
Proof.
  induction ps as [|p ps IH]; intros rs rs' Hlen; cbn [collect];
    [now intros [= <-] |].
  destruct (max_results q <=? Z.of_nat (length rs))%Z eqn:Hcap;
    [now intros [= <-] |].
  apply Z.leb_gt in Hcap.
  destruct (process_file_cases fnmatch re_search w e p q)
    as [(r & _ & _ & H) | [H | [H | [msg H]]]]; rewrite H;
    [| now apply IH.. | discriminate].
  apply IH. rewrite length_app. simpl. lia.
Qed.

Lemma index_loop_length (w : World) (q : args) (total : nat)
    (candidates : list string) :
  ∀ (i : nat) (results : list SearchResult) (s : state) rs,
    length results ≤ Z.to_nat (max_results q) →
    (_index_loop fnmatch re_search w q total i candidates results s).1
      = Done rs →
    length rs ≤ Z.to_nat (max_results q).
Proof.
  induction candidates as [|p candidates IH]; intros i results s rs Hlen;
    cbn [_index_loop]; [now intros [= <-] |].
  destruct (is_set s) as [cancelled s1].
  destruct cancelled; [now intros [= <-] |]. cbn [orb].
  destruct (max_results q <=? Z.of_nat (length results))%Z eqn:Hcap;
    [now intros [= <-] |].
  apply Z.leb_gt in Hcap.
  destruct (_matches_criteria fnmatch re_search w p q) as [[|]|msg];
    [| now apply IH | discriminate].
  destruct (os_stat w p) as [st|]; [| now apply IH].
  destruct (fromtimestamp w (st_mtime st)) as [d| |msg];
    [| now apply IH | discriminate].
  apply IH. rewrite length_app. simpl. lia.
Qed.

(* --------------------------------------------------------------------- *)
(** *** Properties of every call *)


(** X9.  Every result of [search_files], in either strategy and whether or
    not the search was cancelled, describes a file that meets the name,
    extension, size and date criteria of the query, with the name,
    directory, size and converted time of that file; a result of the walk
    is one of the files below the root outside hidden directories, and a
    result of the indexed strategy is a file name match without a matching
    line. *)
Theorem X9_results_meet_the_criteria (w : World) (now : Z) (q : args)
    (s s' : state) (rs : list SearchResult) (r : SearchResult) :
  search_files fnmatch re_search w now q s = (Ret rs, s') →
  r ∈ rs →
  sound_result fnmatch re_search w q r ∧
  (choose_strategy q (self s) = Filesystem →
   path r ∈ files_under w (root_path q)) ∧
  (choose_strategy q (self s) = Indexed →
   match_type r = "filename"%string ∧ match_line r = None ∧
   match_line_number r = None).
Proof.
  intros Hrun Hr.
  pose proof (search_files_forall
    (λ r, sound_result fnmatch re_search w q r ∧
          (choose_strategy q (self s) = Filesystem →
           path r ∈ files_under w (root_path q)) ∧
          (choose_strategy q (self s) = Indexed →
           match_type r = "filename"%string ∧ match_line r = None ∧
           match_line_number r = None))
    w now q s s' rs Hrun) as Hall.
  rewrite Forall_forall in Hall. apply Hall; [| | exact Hr].
  - intros Hfs e p r' Hin Hacc.
    destruct (process_file_sound w e p q [] _ (Hacc []))
      as (r'' & Heq & Hpath & Hsound).
    apply app_inj_tail in Heq as [_ <-].
    split; [exact Hsound |]. split; [now rewrite Hpath | congruence].
  - intros Hix p st d Hm Hst Hconv.
    apply matches_criteria_iff in Hm as (st' & d' & Hst' & Hconv' & Hmeets).
    assert (st' = st) as -> by congruence.
    assert (d' = d) as -> by congruence.
    split; [| split]; [| intros; congruence | intros _; done].
    exists st, d. cbn [path name directory size modified match_type].
    split; [done |]. split; [done |]. split; [exact Hmeets |].
    do 4 (split; [reflexivity |]). now left.
Qed.

(** X10.  [search_files] never returns more than [max_results] results
    (none when [max_results] is zero or negative), in either strategy and
    whether or not the search was cancelled. *)
Theorem X10_results_capped (w : World) (now : Z) (q : args) (s s' : state)
    (rs : list SearchResult) :
  search_files fnmatch re_search w now q s = (Ret rs, s') →
  length rs ≤ Z.to_nat (max_results q).
Proof.
  intros Hrun. apply search_files_ret in Hrun as (_ & _ & Hrun).
  destruct (choose_strategy q (self s)); cbn [run_strategy] in Hrun.
  - unfold _search_with_index in Hrun.
    destruct (is_set _) as [cancelled s1].
    destruct cancelled; [injection Hrun as <- _; simpl; lia |].
    apply (f_equal fst) in Hrun. cbn [fst] in Hrun.
    eapply index_loop_length; [| exact Hrun]. simpl. lia.
  - destruct (search_filesystem_spec fnmatch re_search w q (prepared now q s))
      as (done & s'' & Hspec & _).
    rewrite Hspec in Hrun. injection Hrun as Hrun _.
    apply wrapped_done in Hrun.
    eapply collect_length; [| exact Hrun]. simpl. lia.
Qed.

(** X11.  In the indexed strategy a pattern without any word character,
    such as the default [*], finds nothing: [search_files] returns the
    empty list whatever the directory holds. *)
Theorem X11_indexed_search_needs_a_word (w : World) (now : Z) (q : args)
    (s : state) :
  path_exists w (root_path q) = true →
  path_isdir w (root_path q) = true →
  choose_strategy q (self s) = Indexed →
  Py.findall_word (Py.lower (pattern q)) = [] →
  (search_files fnmatch re_search w now q s).1 = Ret [].
Proof.
  intros He Hd Hix Hwords.
  rewrite (search_files_valid fnmatch re_search w now q s He Hd), Hix.
  cbn [run_strategy fst]. unfold _search_with_index.
  destruct (is_set _) as [cancelled s1]. destruct cancelled; [reflexivity |].
  unfold SearchIndex.search. rewrite Hwords.
  rewrite elements_empty. reflexivity.
Qed.

(* --------------------------------------------------------------------- *)
(** *** The indexed strategy when nobody cancels *)

Lemma take_take_app {A} (n : nat) (l k : list A) :
  take n (take n l ++ k) = take n (l ++ k).
Proof.
  destruct (decide (n ≤ length l)) as [Hle | Hgt].
  - rewrite !take_app_le; [apply take_idemp | lia |].
    rewrite length_take. lia.
  - now rewrite (take_ge l) by lia.
Qed.

Lemma scan_fold_filter (w : World) (ix : SearchIndex.t) (root : string)
    (files : list string) :
  ∀ acc,
    foldl (λ acc file,
             let file_path := Py.join root file in
             if SearchIndex.is_indexed w file_path ix
             then acc else acc ++ [file_path]) acc files
    = acc ++ filter (λ p, SearchIndex.is_indexed w p ix = false)
                    (Py.join root <$> files).
Proof.
  induction files as [|file files IH]; intros acc; cbn [foldl fmap list_fmap].
  - now rewrite filter_nil, app_nil_r.
  - rewrite IH. destruct (SearchIndex.is_indexed w (Py.join root file) ix) eqn:E.
    + now rewrite filter_cons_False by (rewrite E; done).
    + rewrite filter_cons_True by done. now rewrite <- app_assoc.
Qed.

(** Uninterrupted, the first loop of the refresh lists the visible files
    that are not fresh in the index. *)
Lemma update_index_scan_quiet (w : World) (items : list walk_item) :
  ∀ (files_to_index : list string) (s : state),
    quiet s →
    _update_index_scan w items files_to_index s
    = (Some (files_to_index ++
             filter (λ p, SearchIndex.is_indexed w p (index (self s)) = false)
                    (walked_files items)), s).
Proof.
  induction items as [|[[root dirs] files] rest IH]; intros fti s Hq;
    cbn [_update_index_scan].
  - unfold walked_files. cbn [flat_map]. now rewrite filter_nil, app_nil_r.
  - rewrite (is_set_quiet s Hq). rewrite scan_fold_filter, IH by done.
    change (walked_files ((root, dirs, files) :: rest))
      with ((Py.join root <$> files) ++ walked_files rest).
    now rewrite filter_app, app_assoc.
Qed.

(** Uninterrupted, the second loop of the refresh adds every listed file. *)
Lemma update_index_add_quiet (w : World) (callback : bool) (total : nat)
    (files : list string) :
  ∀ (i : nat) (s : state),
    quiet s →
    quiet (_update_index_add w callback total i files s) ∧
    index (self (_update_index_add w callback total i files s))
    = add_files w files (index (self s)).
Proof.
  induction files as [|p files IH]; intros i s Hq; cbn [_update_index_add].
  - auto.
  - rewrite (is_set_quiet s Hq).
    match goal with
    | |- context [_update_index_add w callback total (S i) files ?s2] =>
        destruct (IH (S i) s2) as [Hq' Hix]
    end.
    { apply progress_step_quiet. exact Hq. }
    split; [exact Hq' |]. rewrite Hix, progress_step_self. reflexivity.
Qed.

Lemma update_index_quiet (w : World) (root : string) (callback : bool)
    (s : state) :
  quiet s →
  quiet (_update_index w root callback s) ∧
  index (self (_update_index w root callback s))
  = if indexing_enabled (self s)
    then add_files w
           (filter (λ p, SearchIndex.is_indexed w p (index (self s)) = false)
                   (files_under w root))
           (index (self s))
    else index (self s).
Proof.
  intros Hq. unfold _update_index.
  destruct (indexing_enabled (self s)); cbn [negb]; [| auto].
  rewrite (update_index_scan_quiet w _ [] s Hq), app_nil_l, walk_files_under.
  now apply update_index_add_quiet.
Qed.

(** Uninterrupted, the candidate loop keeps the candidates of which
    [_matches_criteria] holds, in order, up to the cap; it returns when no
    exception escapes [_matches_criteria] on a candidate, and what escapes
    the loop escaped [_matches_criteria] on one of them. *)
Lemma index_loop_quiet (w : World) (q : args) (total : nat)
    (candidates : list string) :
  ∀ (i : nat) (pre : list string) (results : list SearchResult) (s : state),
    quiet s →
    path <$> results
      = take (Z.to_nat (max_results q))
          (filter (λ p, _matches_criteria fnmatch re_search w p q = Done true)
                  pre) →
    let out := _index_loop fnmatch re_search w q total i candidates results s in
    quiet out.2 ∧
    index (self out.2) = index (self s) ∧
    (∀ rs, out.1 = Done rs →
       path <$> rs
         = take (Z.to_nat (max_results q))
             (filter (λ p, _matches_criteria fnmatch re_search w p q = Done true)
                     (pre ++ candidates))) ∧
    ((∀ p msg, p ∈ candidates →
        _matches_criteria fnmatch re_search w p q ≠ Escapes msg) →
     ∃ rs, out.1 = Done rs) ∧
    (∀ msg, out.1 = Escapes msg →
       ∃ p, p ∈ candidates ∧
            _matches_criteria fnmatch re_search w p q = Escapes msg).
Proof.
  induction candidates as [|p candidates IH]; intros i pre results s Hq Hres;
    cbn [_index_loop].
  - rewrite app_nil_r. cbn [fst snd].
    split; [exact Hq |]. split; [reflexivity |].
    split; [now intros rs [= <-] |]. split; [eauto | discriminate].
  - rewrite (is_set_quiet s Hq). cbn [orb].
    assert (Hlen : length results
              = length (take (Z.to_nat (max_results q))
                  (filter (λ p, _matches_criteria fnmatch re_search w p q
                                = Done true) pre)))
      by now rewrite <- Hres, length_fmap.
    rewrite length_take in Hlen.
    destruct (max_results q <=? Z.of_nat (length results))%Z eqn:Hcap.
    + apply Z.leb_le in Hcap. cbn [fst snd].
      split; [exact Hq |]. split; [reflexivity |].
      split; [| split; [eauto | discriminate]].
      intros rs [= <-]. rewrite filter_app, take_app_le by lia. exact Hres.
    + apply Z.leb_gt in Hcap. rewrite take_ge in Hres by lia.
      replace (pre ++ p :: candidates) with ((pre ++ [p]) ++ candidates)
        by now rewrite <- app_assoc.
      destruct (_matches_criteria fnmatch re_search w p q) as [[|]|msg] eqn:Hm.
      * pose proof Hm as Hm'.
        apply matches_criteria_iff in Hm' as (st & d & Hst & Hconv & _).
        rewrite Hst, Hconv.
        match goal with
        | |- context [_index_loop _ _ w q total (S i) candidates ?r ?s2] =>
            destruct (IH (S i) (pre ++ [p]) r s2)
              as (Hq' & Hix & Hp & Hret & Hesc)
        end.
        { apply progress_step_quiet. exact Hq. }
        { rewrite filter_app, filter_cons_True, filter_nil by done.
          rewrite take_ge by (rewrite length_app; simpl; lia).
          now rewrite fmap_app, Hres. }
        split; [exact Hq' |].
        split; [now rewrite Hix, progress_step_self |].
        split; [exact Hp |]. split.
        -- intros Hall. apply Hret. intros p' msg Hin.
           apply Hall, elem_of_cons. now right.
        -- intros msg Hout. destruct (Hesc msg Hout) as (p' & Hin & Hp').
           exists p'. split; [apply elem_of_cons; now right | exact Hp'].
      * match goal with
        | |- context [_index_loop _ _ w q total (S i) candidates results ?s2] =>
            destruct (IH (S i) (pre ++ [p]) results s2)
              as (Hq' & Hix & Hp & Hret & Hesc)
        end.
        { apply progress_step_quiet. exact Hq. }
        { rewrite filter_app, filter_cons_False, filter_nil, app_nil_r
            by (rewrite Hm; done).
          now rewrite take_ge by lia. }
        split; [exact Hq' |].
        split; [now rewrite Hix, progress_step_self |].
        split; [exact Hp |]. split.
        -- intros Hall. apply Hret. intros p' msg Hin.
           apply Hall, elem_of_cons. now right.
        -- intros msg Hout. destruct (Hesc msg Hout) as (p' & Hin & Hp').
           exists p'. split; [apply elem_of_cons; now right | exact Hp'].
      * cbn [fst snd]. split; [exact Hq |]. split; [reflexivity |].
        split; [discriminate |]. split.
        -- intros Hall. exfalso.
           apply (Hall p msg); [apply elem_of_cons; now left | exact Hm].
        -- intros msg' [= <-]. exists p.
           split; [apply elem_of_cons; now left | exact Hm].
Qed.

Lemma search_with_index_quiet (w : World) (q : args) (s : state) :
  quiet s →
  let refreshed :=
    index (self (_update_index w (root_path q) (progress_callback q) s)) in
  let candidates := elements (SearchIndex.search refreshed (pattern q)) in
  let out := _search_with_index fnmatch re_search w q s in
  quiet out.2 ∧
  index (self out.2) = refreshed ∧
  (∀ rs, out.1 = Done rs →
     path <$> rs
       = take (Z.to_nat (max_results q))
           (filter (λ p, _matches_criteria fnmatch re_search w p q = Done true)
                   candidates)) ∧
  ((∀ p msg, p ∈ candidates →
      _matches_criteria fnmatch re_search w p q ≠ Escapes msg) →
   ∃ rs, out.1 = Done rs) ∧
  (∀ msg, out.1 = Escapes msg →
     ∃ p, p ∈ candidates ∧
          _matches_criteria fnmatch re_search w p q = Escapes msg).
Proof.
  intros Hq refreshed candidates out. unfold out, _search_with_index.
  destruct (update_index_quiet w (root_path q) (progress_callback q) s Hq)
    as [Hq1 _].
  unfold candidates, refreshed.
  set (s1 := _update_index w (root_path q) (progress_callback q) s) in *.
  rewrite (is_set_quiet s1 Hq1).
  apply (index_loop_quiet w q _ _ 0 [] [] s1 Hq1).
  now rewrite filter_nil, take_nil.
Qed.


(* --------------------------------------------------------------------- *)
(** *** The walk feeds the index *)

Lemma held_by_add_other (w : World) (ix : SearchIndex.t) (f : string)
    (r : SearchResult) :
  held_by w ix r → held_by w (SearchIndex.add_file w f ix) r.
Proof.
  intros [Hfresh Hwords]. split.
  - now apply is_indexed_add_file_other.
  - intros word Hword. apply elem_of_matches_add_file. left. auto.
Qed.

Lemma held_by_add_same (w : World) (ix : SearchIndex.t) (r : SearchResult) :
  is_Some (os_stat w (path r)) →
  held_by w (SearchIndex.add_file w (path r) ix) r.
Proof.
  intros Hst. split.
  - now apply is_indexed_add_file_same.
  - intros word Hword. apply elem_of_matches_add_file. right.
    split; [done |]. exists word. split; [done | apply contains_refl].
Qed.

Lemma is_set_enabled (s : state) :
  indexing_enabled (self (is_set s).2) = indexing_enabled (self s).
Proof. destruct (is_set_settings s) as (_ & _ & _ & _ & _ & H). now symmetry. Qed.

Lemma files_loop_held (w : World) (q : args) (total : nat) (root : string)
    (files : list string) :
  ∀ (results : list SearchResult) (count : nat) (s : state),
    indexing_enabled (self s) = true →
    Forall (held_by w (index (self s))) results →
    let out := _files_loop fnmatch re_search w q total root files results count s in
    (∀ rs, out.1.1 = Done rs → Forall (held_by w (index (self out.2))) rs) ∧
    indexing_enabled (self out.2) = true.
Proof.
  induction files as [|file files IH]; intros results count s Hen Hres;
    cbn [_files_loop]; [split; [now intros rs [= <-] | exact Hen] |].
  pose proof (is_set_index s) as Hix1. pose proof (is_set_enabled s) as Hen1.
  destruct (is_set s) as [cancelled s1]. cbn [snd] in Hix1, Hen1.
  rewrite Hen in Hen1. rewrite <- Hix1 in Hres.
  destruct (cancelled || (max_results q <=? Z.of_nat (length results))%Z);
    [cbn; split; [now intros rs [= <-] | exact Hen1] |].
  rewrite !progress_step_self.
  destruct (process_file_cases fnmatch re_search w (self s1)
              (Py.join root file) q)
    as [(r & Hpath & (st & Hst & _) & H) | [H | [H | [msg H]]]]; rewrite H.
  - rewrite Hen1. apply IH;
      cbn [on_self self index with_index indexing_enabled];
      rewrite progress_step_self; [exact Hen1 |].
    apply Forall_app. split.
    + eapply Forall_impl; [exact Hres |]. intros r'. apply held_by_add_other.
    + apply Forall_singleton. rewrite <- Hpath. apply held_by_add_same. eauto.
  - apply IH; now rewrite progress_step_self.
  - apply IH; now rewrite progress_step_self.
  - cbn. rewrite progress_step_self. split; [discriminate | exact Hen1].
Qed.

Lemma dirs_loop_held (w : World) (q : args) (total : nat)
    (items : list walk_item) :
  ∀ (results : list SearchResult) (count : nat) (s : state),
    indexing_enabled (self s) = true →
    Forall (held_by w (index (self s))) results →
    let out := _dirs_loop fnmatch re_search w q total items results count s in
    ∀ rs, out.1 = Done rs → Forall (held_by w (index (self out.2))) rs.
Proof.
  induction items as [|[[root dirs] files] rest IH]; intros results count s Hen Hres;
    cbn [_dirs_loop]; [now intros rs [= <-] |].
  pose proof (is_set_index s) as Hix1. pose proof (is_set_enabled s) as Hen1.
  destruct (is_set s) as [cancelled s1]. cbn [snd] in Hix1, Hen1.
  rewrite Hen in Hen1. rewrite <- Hix1 in Hres.
  destruct cancelled; [cbn; now intros rs [= <-] |].
  pose proof (files_loop_held w q total root files results count s1 Hen1 Hres)
    as [Hres2 Hen2].
  destruct (_files_loop fnmatch re_search w q total root files results count s1)
    as [[[results2|msg] count2] s2]; cbn in Hres2, Hen2.
  - apply IH; [exact Hen2 | now apply Hres2].
  - cbn. discriminate.
Qed.

Lemma estimate_loop_index (items : list walk_item) :
  ∀ (count : nat) (s : state),
    index (self (_estimate_loop items count s).2) = index (self s) ∧
    indexing_enabled (self (_estimate_loop items count s).2)
    = indexing_enabled (self s).
Proof.
  induction items as [|[[root dirs] files] rest IH]; intros count s;
    cbn [_estimate_loop]; [auto |].
  pose proof (is_set_index s) as Hix1. pose proof (is_set_enabled s) as Hen1.
  destruct (is_set s) as [cancelled s1]. cbn [snd] in Hix1, Hen1.
  destruct cancelled; [auto |].
  destruct (10000 <? count + length files); [auto |].
  destruct (IH (count + length files) s1) as [-> ->]. auto.
Qed.

(** X13.  The walk feeds the index: when indexing is enabled, every file
    the file-system strategy returns is afterwards fresh in the index
    ([is_indexed] holds of it) and is found there under its own base name
    when that has a word character, also when the walk was cancelled. *)
Theorem X13_walk_results_are_indexed (w : World) (now : Z) (q : args)
    (s s' : state) (rs : list SearchResult) (r : SearchResult) :
  search_files fnmatch re_search w now q s = (Ret rs, s') →
  choose_strategy q (self s) = Filesystem →
  indexing_enabled (self s) = true →
  r ∈ rs →
  SearchIndex.is_indexed w (path r) (index (self s')) = true ∧
  (name_words (path r) ≠ [] →
   path r ∈ SearchIndex.search (index (self s')) (Py.basename (path r))).
Proof.
  intros Hrun Hfs Hen Hr.
  apply search_files_ret in Hrun as (_ & _ & Hrun).
  rewrite Hfs in Hrun. cbn [run_strategy] in Hrun.
  unfold _search_filesystem in Hrun.
  assert (Hen0 : indexing_enabled (self (prepared now q s)) = true).
  { rewrite prepared_self.
    destruct (add_to_history_settings (descriptor now q) (clear_cancel (self s)))
      as (-> & _). exact Hen. }
  assert (Hpre : ∃ n s1,
            (if progress_callback q
             then _estimate_file_count w (root_path q) (prepared now q s)
             else (0, prepared now q s)) = (n, s1) ∧
            indexing_enabled (self s1) = true).
  { destruct (progress_callback q); [| eauto].
    unfold _estimate_file_count.
    destruct (estimate_loop_index (walk w (λ _, true) (root_path q)) 0
                (prepared now q s)) as [_ Hen1].
    destruct (_estimate_loop _ 0 (prepared now q s)) as [n s1].
    exists n, s1. split; [reflexivity |]. cbn [snd] in Hen1. congruence. }
  destruct Hpre as (n & s1 & Heq & Hen1). rewrite Heq in Hrun.
  pose proof (dirs_loop_held w q n (walk w not_hidden (root_path q)) [] 0 s1
                Hen1 (List.Forall_nil _)) as Hall.
  destruct (_dirs_loop fnmatch re_search w q n
              (walk w not_hidden (root_path q)) [] 0 s1) as [out s2].
  injection Hrun as Hout <-. apply wrapped_done in Hout.
  specialize (Hall rs Hout). cbn [snd] in Hall.
  rewrite Forall_forall in Hall. destruct (Hall r Hr) as [Hfresh Hwords].
  split; [exact Hfresh |]. intros Hname.
  apply elem_of_search. fold (name_words (path r)). auto.
Qed.

(* --------------------------------------------------------------------- *)
(** *** The refresh of the index *)

Lemma add_files_cons (w : World) (f : string) (l : list string)
    (ix : SearchIndex.t) :
  add_files w (f :: l) ix = add_files w l (SearchIndex.add_file w f ix).
Proof. reflexivity. Qed.

Lemma add_files_keeps (w : World) (p : string) (l : list string) :
  ∀ ix, SearchIndex.is_indexed w p ix = true →
        SearchIndex.is_indexed w p (add_files w l ix) = true.
Proof.
  induction l as [|f l IH]; intros ix H; [exact H |].
  rewrite add_files_cons. now apply IH, is_indexed_add_file_other.
Qed.

Lemma add_files_fresh (w : World) (p : string) (l : list string) :
  ∀ ix, p ∈ l → is_Some (os_stat w p) →
        SearchIndex.is_indexed w p (add_files w l ix) = true.
Proof.
  induction l as [|f l IH]; intros ix Hin Hst; [inversion Hin |].
  rewrite add_files_cons. apply elem_of_cons in Hin as [-> | Hin].
  - now apply add_files_keeps, is_indexed_add_file_same.
  - now apply IH.
Qed.

Lemma add_file_add_files (w : World) (f : string) (l : list string) :
  ∀ ix, SearchIndex.add_file w f (add_files w l ix)
        = add_files w l (SearchIndex.add_file w f ix).
Proof.
  induction l as [|g l IH]; intros ix; [reflexivity |].
  rewrite !add_files_cons, IH. now rewrite add_file_commute.
Qed.

Lemma add_file_absorbed (w : World) (f : string) (l : list string) :
  ∀ ix, f ∈ l →
        SearchIndex.add_file w f (add_files w l ix) = add_files w l ix.
Proof.
  induction l as [|g l IH]; intros ix Hin; [inversion Hin |].
  rewrite add_files_cons. apply elem_of_cons in Hin as [-> | Hin].
  - now rewrite add_file_add_files, add_file_twice_state.
  - now apply IH.
Qed.

Lemma add_files_absorbed (w : World) (l1 l2 : list string) (ix : SearchIndex.t) :
  (∀ f, f ∈ l2 → f ∈ l1) →
  add_files w l2 (add_files w l1 ix) = add_files w l1 ix.
Proof.
  induction l2 as [|f l2 IH]; intros Hsub; [reflexivity |].
  rewrite add_files_cons, add_file_absorbed.
  - apply IH. intros g Hg. apply Hsub, elem_of_cons. now right.
  - apply Hsub, elem_of_cons. now left.
Qed.

(** X14.  [_update_index], when nobody cancels and indexing is enabled,
    makes every file below the root outside hidden directories that
    [os.stat] can read fresh in the index, keeps fresh what was fresh, and
    is idempotent: refreshing again leaves the index as it is. *)
Theorem X14_refresh_makes_files_fresh (w : World) (root : string)
    (callback : bool) (s : state) :
  quiet s →
  indexing_enabled (self s) = true →
  let refreshed := _update_index w root callback s in
  (∀ p, p ∈ files_under w root → is_Some (os_stat w p) →
        SearchIndex.is_indexed w p (index (self refreshed)) = true) ∧
  (∀ p, SearchIndex.is_indexed w p (index (self s)) = true →
        SearchIndex.is_indexed w p (index (self refreshed)) = true) ∧
  index (self (_update_index w root callback refreshed))
  = index (self refreshed).
Proof.
  intros Hq Hen refreshed.
  destruct (update_index_quiet w root callback s Hq) as [Hq1 Hix1].
  rewrite Hen in Hix1. fold refreshed in Hq1, Hix1.
  assert (Hen1 : indexing_enabled (self refreshed) = true).
  { destruct (update_index_spec w root callback s) as [(_ & _ & _ & _ & _ & H) _].
    fold refreshed in H. congruence. }
  assert (Hkeep : ∀ p, SearchIndex.is_indexed w p (index (self s)) = true →
            SearchIndex.is_indexed w p (index (self refreshed)) = true).
  { intros p Hp. rewrite Hix1. now apply add_files_keeps. }
  split; [| split; [exact Hkeep |]].
  - intros p Hin Hst.
    destruct (SearchIndex.is_indexed w p (index (self s))) eqn:Hold;
      [now apply Hkeep |].
    rewrite Hix1. apply add_files_fresh; [| exact Hst].
    apply list_elem_of_filter. split; [exact Hold | exact Hin].
  - destruct (update_index_quiet w root callback refreshed Hq1) as [_ Hix2].
    rewrite Hen1 in Hix2. rewrite Hix2, Hix1.
    apply add_files_absorbed. intros f Hf.
    apply list_elem_of_filter in Hf as [Hstale Hin].
    apply list_elem_of_filter. split; [| exact Hin].
    destruct (SearchIndex.is_indexed w f (index (self s))) eqn:Hold;
      [| reflexivity].
    rewrite <- Hix1, (Hkeep f Hold) in Hstale. discriminate.
Qed.

(* --------------------------------------------------------------------- *)
(** *** [quick_search] without the index, and the estimate *)

Lemma quick_items_spec (root query_lower : string) (max_results : Z)
    (items : list string) :
  ∀ results,
    (Z.of_nat (length results) < max_results)%Z →
    _quick_items root query_lower max_results items results
    = take (Z.to_nat max_results)
        (results ++
         (Py.join root <$>
            filter (λ entry, Py.contains query_lower (Py.lower entry) = true)
                   items)).
Proof.
  induction items as [|item items IH]; intros results Hlen; cbn [_quick_items].
  - rewrite filter_nil, fmap_nil, app_nil_r. now rewrite take_ge by lia.
  - destruct (Py.contains query_lower (Py.lower item)) eqn:Hc.
    + rewrite filter_cons_True, fmap_cons by done.
      rewrite (cons_middle (Py.join root item) results (_ <$> _)).
      rewrite (app_assoc results [Py.join root item]).
      destruct (max_results <=? Z.of_nat (length (results ++ [Py.join root item])))%Z
        eqn:Hcap.
      * apply Z.leb_le in Hcap. rewrite length_app in Hcap. simpl in Hcap.
        rewrite take_app_length'; [reflexivity |].
        rewrite length_app. simpl. lia.
      * apply Z.leb_gt in Hcap. now apply IH.
    + rewrite filter_cons_False by (rewrite Hc; done). now apply IH.
Qed.

Lemma quick_walk_quiet (query_lower : string) (max_results : Z)
    (items : list walk_item) :
  ∀ (results : list string) (s : state),
    quiet s →
    length results ≤ Z.to_nat max_results →
    _quick_walk query_lower max_results items results s
    = (take (Z.to_nat max_results) (results ++ quick_matches query_lower items), s).
Proof.
  induction items as [|[[root dirs] files] rest IH]; intros results s Hq Hlen;
    cbn [_quick_walk].
  - unfold quick_matches. cbn [flat_map]. rewrite app_nil_r.
    now rewrite take_ge by lia.
  - rewrite (is_set_quiet s Hq). cbn [orb].
    change (quick_matches query_lower ((root, dirs, files) :: rest))
      with ((Py.join root <$>
               filter (λ entry, Py.contains query_lower (Py.lower entry) = true)
                      (dirs ++ files))
            ++ quick_matches query_lower rest).
    destruct (max_results <=? Z.of_nat (length results))%Z eqn:Hcap.
    + apply Z.leb_le in Hcap. rewrite take_app_length'; [reflexivity | lia].
    + apply Z.leb_gt in Hcap.
      rewrite quick_items_spec by exact Hcap.
      rewrite IH; [| exact Hq | rewrite length_take; lia].
      now rewrite take_take_app, <- app_assoc.
Qed.

(** X15.  [quick_search] with indexing disabled, on an existing root and
    when nobody cancels, returns the first [max_results] entries of the
    walk, directories and files alike and hidden ones included, whose
    lowercased name contains the lowercased query, as paths below their
    directory; it returns nothing for a [max_results] of zero or less. *)
Theorem X15_quick_search_walk (w : World) (root query : string)
    (max_results : Z) (s : state) :
  indexing_enabled (self s) = false →
  path_exists w root = true →
  quiet s →
  quick_search w root query max_results s
  = (Ret (take (Z.to_nat max_results)
            (quick_matches (Py.lower query) (walk w (λ _, true) root))), s).
Proof.
  intros Hen He Hq. unfold quick_search. rewrite He, Hen. cbn [negb].
  rewrite quick_walk_quiet by (first [exact Hq | simpl; lia]).
  reflexivity.
Qed.

Lemma estimate_loop_bounds (items : list walk_item) :
  ∀ (count : nat) (s : state),
    count ≤ (_estimate_loop items count s).1 ∧
    (_estimate_loop items count s).1 ≤ count + total_files items ∧
    (quiet s →
     (_estimate_loop items count s).2 = s ∧
     (count + total_files items ≤ 10000 →
      (_estimate_loop items count s).1 = count + total_files items) ∧
     (10000 < count + total_files items →
      10000 < (_estimate_loop items count s).1)).
Proof.
  induction items as [|[[root dirs] files] rest IH]; intros count s;
    cbn [_estimate_loop total_files foldr snd].
  - cbn [fst snd]. repeat split; lia.
  - fold (total_files rest).
    pose proof (is_set_quiet s) as Hq1.
    destruct (is_set s) as [cancelled s1].
    destruct cancelled.
    { cbn [fst snd]. split; [lia |]. split; [lia |].
      intros Hq. specialize (Hq1 Hq). congruence. }
    destruct (10000 <? count + length files) eqn:Hbig.
    { apply Nat.ltb_lt in Hbig. cbn [fst snd].
      split; [lia |]. split; [lia |].
      intros Hq. specialize (Hq1 Hq). injection Hq1 as ->.
      split; [reflexivity |]. split; lia. }
    apply Nat.ltb_ge in Hbig.
    destruct (IH (count + length files) s1) as (Hlo & Hhi & Hquiet).
    split; [lia |]. split; [lia |].
    intros Hq. specialize (Hq1 Hq). injection Hq1 as ->.
    destruct (Hquiet Hq) as (Hs & Hsmall & Hlarge).
    split; [exact Hs |]. split; intros; [rewrite Hsmall | apply Hlarge]; lia.
Qed.

(** X16.  [_estimate_file_count] never exceeds the number of files of the
    whole tree (hidden directories included); when nobody cancels it is
    that number as long as the tree has at most 10000 files, and a number
    above 10000 otherwise. *)
Theorem X16_estimate_is_capped_count (w : World) (root : string) (s : state) :
  (_estimate_file_count w root s).1
    ≤ total_files (walk w (λ _, true) root) ∧
  (quiet s →
   (_estimate_file_count w root s).2 = s ∧
   (total_files (walk w (λ _, true) root) ≤ 10000 →
    (_estimate_file_count w root s).1 = total_files (walk w (λ _, true) root)) ∧
   (10000 < total_files (walk w (λ _, true) root) →
    10000 < (_estimate_file_count w root s).1)).
Proof.
  unfold _estimate_file_count.
  destruct (estimate_loop_bounds (walk w (λ _, true) root) 0 s)
    as (_ & Hhi & Hquiet).
  split; [exact Hhi |]. exact Hquiet.
Qed.

(* --------------------------------------------------------------------- *)
(** *** The flag at the entry of a search, the walk with any criteria *)

(** X17.  A [cancel_search()] issued before a call does not reach it:
    [search_files] on a valid root clears the flag first and ends as it
    ends without that cancellation, in the same final state; and when no
    cancellation arrives during the call the flag is clear at its end,
    whether the call returns or raises. *)
Theorem X17_stale_cancellation_is_cleared (w : World) (now : Z) (q : args)
    (s : state) :
  path_exists w (root_path q) = true →
  path_isdir w (root_path q) = true →
  search_files fnmatch re_search w now q (on_self cancel_search s)
  = search_files fnmatch re_search w now q s ∧
  (cancel_in s = None →
   cancel_event (self (search_files fnmatch re_search w now q s).2) = false).
Proof.
  intros He Hd. split.
  - rewrite !(search_files_valid fnmatch re_search w now q _ He Hd).
    reflexivity.
  - intros Hin.
    rewrite (search_files_valid fnmatch re_search w now q s He Hd). cbn [snd].
    pose proof (prepared_quiet now q s Hin) as Hq.
    destruct (choose_strategy q (self s)); cbn [run_strategy].
    + now destruct (search_with_index_quiet w q (prepared now q s) Hq)
        as ([_ ?] & _).
    + destruct (search_filesystem_spec fnmatch re_search w q (prepared now q s))
        as (done & s' & -> & _ & _ & Hquiet & _).
      now destruct (Hquiet Hq) as [[_ ?] _].
Qed.

(** X18.  The walk with any criteria but a content term, when nobody
    cancels.  When the call returns, it returns in walk order the files
    below the root outside hidden directories of which [_matches_criteria]
    holds, up to [max_results] of them.  It returns when no exception
    escapes [_matches_criteria] on one of these files; when it raises, the
    [SearchError] carries the text of the exception that escaped
    [_matches_criteria] on one of them. *)
Theorem X18_walk_results_any_criteria (w : World) (now : Z) (q : args)
    (s : state) :
  path_exists w (root_path q) = true →
  path_isdir w (root_path q) = true →
  cancel_in s = None →
  choose_strategy q (self s) = Filesystem →
  Py.truthy_opt (content_search q) = false →
  (∀ rs s',
     search_files fnmatch re_search w now q s = (Ret rs, s') →
     path <$> rs
       = take (Z.to_nat (max_results q))
           (filter (λ p, _matches_criteria fnmatch re_search w p q = Done true)
                   (files_under w (root_path q)))) ∧
  ((∀ p msg, p ∈ files_under w (root_path q) →
      _matches_criteria fnmatch re_search w p q ≠ Escapes msg) →
   ∃ rs s', search_files fnmatch re_search w now q s = (Ret rs, s')) ∧
  (∀ e s',
     search_files fnmatch re_search w now q s = (Raise e, s') →
     ∃ p msg,
       p ∈ files_under w (root_path q) ∧
       _matches_criteria fnmatch re_search w p q = Escapes msg ∧
       e = SearchError
             ("Search operation failed: Filesystem search failed: " +:+ msg)).
Proof.
  intros He Hd Hin Hfs Hno.
  assert (Hrun : ∃ s1,
            search_files fnmatch re_search w now q s
            = (walk_outcome
                 (collect fnmatch re_search w (self (prepared now q s)) q
                    (files_under w (root_path q)) []), s1)).
  { rewrite (search_files_valid fnmatch re_search w now q s He Hd), Hfs.
    cbn [run_strategy].
    destruct (search_filesystem_spec fnmatch re_search w q (prepared now q s))
      as (done & s1 & -> & _ & _ & Hquiet & _).
    destruct (Hquiet (prepared_quiet now q s Hin)) as [_ ->].
    exists s1. reflexivity. }
  destruct Hrun as [s1 Hrun]. rewrite Hrun.
  destruct (collect fnmatch re_search w (self (prepared now q s)) q
              (files_under w (root_path q)) []) as [out|msg] eqn:Hwalk.
  - split; [| split].
    + intros rs s' [= <- _].
      rewrite (collect_paths fnmatch re_search w _ q
                 (files_under w (root_path q)) [] [] out)
        by (first [now rewrite filter_nil, take_nil | exact Hwalk]).
      rewrite app_nil_l. f_equal. apply list_filter_iff. intros p.
      rewrite <- (proj1 (process_file_matches_criteria w
                           (self (prepared now q s)) p q [] Hno)).
      unfold accepts.
      destruct (_process_file fnmatch re_search w (self (prepared now q s)) p q [])
        as [[[|] rs']| |]; split; try done; eauto; intros [? [=]].
    + intros _. eauto.
    + intros e s' Hout. cbv [walk_outcome reraised wrapped] in Hout.
      discriminate.
  - destruct (collect_escapes fnmatch re_search w _ q _ [] msg Hwalk)
      as (p & Hp & Hfail).
    assert (Hesc : _matches_criteria fnmatch re_search w p q = Escapes msg).
    { apply (proj2 (process_file_matches_criteria w
                      (self (prepared now q s)) p q [] Hno)), Hfail. }
    split; [| split].
    + intros rs s' Hout. cbv [walk_outcome reraised wrapped] in Hout.
      discriminate.
    + intros Hall. exfalso. exact (Hall p msg Hp Hesc).
    + intros e s' [= <- _]. exists p, msg. auto.
Qed.

(* --------------------------------------------------------------------- *)
(** *** The index built from nothing, the first indexed search *)

Lemma elem_of_matches_add_files (w : World) (word p : string)
    (l : list string) :
  ∀ ix,
    p ∈ SearchIndex.matches (add_files w l ix) word ↔
      p ∈ SearchIndex.matches ix word ∨
      (p ∈ l ∧ ∃ indexed_word, indexed_word ∈ name_words p ∧
                               Py.contains word indexed_word = true).
Proof.
  induction l as [|f l IH]; intros ix.
  - cbn [add_files foldl]. split; [now left |].
    intros [H | [H _]]; [exact H | inversion H].
  - rewrite add_files_cons, IH, elem_of_matches_add_file. split.
    + intros [[H | [-> H]] | [Hin H]].
      * now left.
      * right. split; [apply elem_of_cons; now left | exact H].
      * right. split; [apply elem_of_cons; now right | exact H].
    + intros [H | [Hin H]]; [left; now left |].
      apply elem_of_cons in Hin as [-> | Hin].
      * left. right. split; [reflexivity | exact H].
      * right. split; [exact Hin | exact H].
Qed.

Lemma matches_init (word p : string) :
  p ∉ SearchIndex.matches SearchIndex.init word.
Proof.
  rewrite elem_of_matches. intros (k & posting & Hk & _).
  cbn [SearchIndex.init SearchIndex.index] in Hk.
  rewrite lookup_empty in Hk. discriminate.
Qed.

Lemma elem_of_search_add_files (w : World) (paths : list string)
    (query p : string) :
  p ∈ SearchIndex.search (add_files w paths SearchIndex.init) query ↔
    p ∈ paths ∧
    Py.findall_word (Py.lower query) ≠ [] ∧
    ∀ word, word ∈ Py.findall_word (Py.lower query) →
            ∃ indexed_word, indexed_word ∈ name_words p ∧
                            Py.contains word indexed_word = true.
Proof.
  rewrite elem_of_search. split.
  - intros [Hne Hall].
    destruct (Py.findall_word (Py.lower query)) as [|word0 rest] eqn:Hw;
      [congruence |].
    assert (Hin : p ∈ paths).
    { destruct (proj1 (elem_of_matches_add_files w word0 p paths _)
                  (Hall word0 ltac:(apply elem_of_cons; now left)))
        as [H | [H _]]; [now apply matches_init in H | exact H]. }
    split; [exact Hin |]. split; [exact Hne |]. intros word Hword.
    destruct (proj1 (elem_of_matches_add_files w word p paths _)
                (Hall word Hword)) as [H | [_ H]];
      [now apply matches_init in H | exact H].
  - intros (Hin & Hne & Hall). split; [exact Hne |]. intros word Hword.
    apply elem_of_matches_add_files. right. split; [exact Hin |].
    now apply Hall.
Qed.

(** X19.  What an index built from nothing answers: after [add_file] on
    the paths of a list, [search] returns a path exactly when it is one of
    the list, the query has a word, and every word of the lowercased
    query is contained in some word of the path's lowercased file name. *)
Theorem X19_search_of_built_index (w : World) (paths : list string)
    (query p : string) :
  p ∈ SearchIndex.search (add_files w paths SearchIndex.init) query ↔
    p ∈ paths ∧
    Py.findall_word (Py.lower query) ≠ [] ∧
    ∀ word, word ∈ Py.findall_word (Py.lower query) →
            ∃ indexed_word, indexed_word ∈ name_words p ∧
                            Py.contains word indexed_word = true.
Proof. apply elem_of_search_add_files. Qed.

Lemma filter_all_stale (w : World) (l : list string) :
  filter (λ p, SearchIndex.is_indexed w p SearchIndex.init = false) l = l.
Proof.
  induction l as [|f l IH]; [reflexivity |].
  rewrite filter_cons_True by reflexivity. now rewrite IH.
Qed.

(** X20.  The first indexed search of an engine, when nobody cancels.
    When the call returns, a returned file lies below the root outside
    hidden directories, passes [_matches_criteria], and every word of the
    lowercased pattern is contained in a word of its lowercased name; and
    when fewer than [max_results] files are returned, every such file is
    returned.  The call returns when no exception escapes
    [_matches_criteria] on a file below the root. *)
Theorem X20_first_indexed_search (w : World) (now : Z) (q : args) (s : state) :
  path_exists w (root_path q) = true →
  path_isdir w (root_path q) = true →
  cancel_in s = None →
  choose_strategy q (self s) = Indexed →
  index (self s) = SearchIndex.init →
  let wanted (p : string) :=
    p ∈ files_under w (root_path q) ∧
    _matches_criteria fnmatch re_search w p q = Done true ∧
    Py.findall_word (Py.lower (pattern q)) ≠ [] ∧
    ∀ word, word ∈ Py.findall_word (Py.lower (pattern q)) →
            ∃ indexed_word, indexed_word ∈ name_words p ∧
                            Py.contains word indexed_word = true in
  (∀ rs s',
     search_files fnmatch re_search w now q s = (Ret rs, s') →
     (∀ p, p ∈ path <$> rs → wanted p) ∧
     (length rs < Z.to_nat (max_results q) →
      ∀ p, wanted p → p ∈ path <$> rs)) ∧
  ((∀ p msg, p ∈ files_under w (root_path q) →
      _matches_criteria fnmatch re_search w p q ≠ Escapes msg) →
   ∃ rs s', search_files fnmatch re_search w now q s = (Ret rs, s')).
Proof.
  intros He Hd Hin Hix Hinit wanted.
  rewrite (search_files_valid fnmatch re_search w now q s He Hd), Hix.
  cbn [run_strategy].
  pose proof (prepared_quiet now q s Hin) as Hq.
  destruct (search_with_index_quiet w q (prepared now q s) Hq)
    as (_ & _ & Hp & Hret & _).
  destruct (update_index_quiet w (root_path q) (progress_callback q)
              (prepared now q s) Hq) as [_ Hrefreshed].
  destruct (add_to_history_settings (descriptor now q) (clear_cancel (self s)))
    as (Hen' & _ & _ & Hsame').
  rewrite <- prepared_self in Hen', Hsame'.
  assert (Hen : indexing_enabled (self (prepared now q s)) = true).
  { rewrite Hen'. unfold choose_strategy in Hix.
    destruct (self s) as [? ? ? ? ? ? ? enabled].
    cbn [clear_cancel indexing_enabled with_cancel] in *.
    destruct (use_index q), enabled; try discriminate. reflexivity. }
  assert (Hsame : index (self (prepared now q s)) = SearchIndex.init).
  { rewrite Hsame', <- Hinit. now destruct (self s). }
  rewrite Hen, Hsame, filter_all_stale in Hrefreshed.
  rewrite Hrefreshed in Hp, Hret.
  assert (Hcand : ∀ p,
            p ∈ filter (λ p, _matches_criteria fnmatch re_search w p q = Done true)
                  (elements (SearchIndex.search
                               (add_files w (files_under w (root_path q))
                                  SearchIndex.init) (pattern q)))
            ↔ wanted p).
  { intros p. rewrite list_elem_of_filter, elem_of_elements,
      elem_of_search_add_files. unfold wanted. tauto. }
  destruct (_search_with_index fnmatch re_search w q (prepared now q s))
    as [out s1]. cbn [fst snd] in *.
  split.
  - intros rs s' [= Hout _]. apply reraised_ret in Hout.
    specialize (Hp rs Hout). split.
    + intros p Hp_in. apply Hcand. rewrite Hp in Hp_in.
      exact (subseteq_take _ _ p Hp_in).
    + intros Hfew p Hwanted. rewrite Hp.
      assert (Hlen := f_equal length Hp).
      rewrite length_fmap, length_take in Hlen.
      rewrite take_ge by lia. now apply Hcand.
  - intros Hall. destruct Hret as [rs ->]; [| eauto].
    intros p msg Hcandidate. apply Hall.
    apply elem_of_elements, elem_of_search_add_files in Hcandidate.
    apply Hcandidate.
Qed.

End EngineMore.

(* --------------------------------------------------------------------- *)
(** *** The further properties on the example directories *)

(** [report*] among the [txt] files of 5 to 1000 bytes of [/office] *)
Lemma X9_witness :
  let q := SearchEngine.mk_args "/office" "report*" None (Some "txt"%string)
             (Some 5%Z) (Some 1000%Z) None None false false 1000 false false in
  let run := SearchEngine.search_files glob plain_search office_world 0 q fresh in
  let r := SearchEngine.mk_result "/office/report.txt" "report.txt" 1000 501
             "/office" "filename" None None in
  run = (SearchEngine.Ret
           [SearchEngine.mk_result "/office/Report.TXT" "Report.TXT" 10 500
              "/office" "filename" None None; r], run.2) ∧
  sound_result glob plain_search office_world q r ∧
  SearchEngine.path r ∈ files_under office_world "/office".
Proof.
  intros q run r.
  assert (Hrun : run = (SearchEngine.Ret
           [SearchEngine.mk_result "/office/Report.TXT" "Report.TXT" 10 500
              "/office" "filename" None None; r], run.2))
    by (vm_compute; reflexivity).
  split; [exact Hrun |].
  assert (Hin : r ∈ [SearchEngine.mk_result "/office/Report.TXT" "Report.TXT"
                       10 500 "/office" "filename" None None; r])
    by (apply elem_of_cons; right; apply elem_of_cons; left; reflexivity).
  destruct (X9_results_meet_the_criteria glob plain_search office_world 0 q
              fresh run.2 _ r Hrun Hin) as (Hsound & Hwalk & _).
  split; [exact Hsound |]. apply Hwalk. reflexivity.
Defined.

(** a search of [/office] for one result *)
Lemma X10_witness :
  let q := SearchEngine.mk_args "/office" "*" None None None None None None
             false false 1 false false in
  let run := SearchEngine.search_files glob plain_search office_world 0 q fresh in
  let r := SearchEngine.mk_result "/office/Report.TXT" "Report.TXT" 10 500
             "/office" "filename" None None in
  run = (SearchEngine.Ret [r], run.2) ∧ length [r] ≤ Z.to_nat 1.
Proof.
  intros q run r.
  assert (Hrun : run = (SearchEngine.Ret [r], run.2))
    by (vm_compute; reflexivity).
  split; [exact Hrun |].
  exact (X10_results_capped glob plain_search office_world 0 q fresh run.2 [r]
           Hrun).
Defined.

(** the pattern [*.*] has no word: the indexed search of [/root] finds
    nothing *)
Lemma X11_witness :
  Py.findall_word (Py.lower "*.*") = [] ∧
  (SearchEngine.search_files glob plain_search demo_world 0
     (SearchEngine.defaults "/root" "*.*") fresh).1 = SearchEngine.Ret [].
Proof.
  assert (Hwords : Py.findall_word (Py.lower "*.*") = [])
    by (vm_compute; reflexivity).
  split; [exact Hwords |].
  apply (X11_indexed_search_needs_a_word glob plain_search demo_world 0
           (SearchEngine.defaults "/root" "*.*") fresh);
    [reflexivity | reflexivity | reflexivity | exact Hwords].
Defined.


(** after the walk of [/root] the index answers for [sub.py] *)
Lemma X13_witness :
  let q := walk_query "/root" "*" in
  let run := SearchEngine.search_files glob plain_search demo_world 0 q fresh in
  let r := SearchEngine.mk_result "/root/b/sub.py" "sub.py" 11 2001 "/root/b"
             "filename" None None in
  run = (SearchEngine.Ret
           [SearchEngine.mk_result "/root/a.txt" "a.txt" 5 2000 "/root"
              "filename" None None; r], run.2) ∧
  SearchIndex.is_indexed demo_world "/root/b/sub.py"
    (SearchEngine.index (SearchEngine.self run.2)) = true ∧
  "/root/b/sub.py"%string
    ∈ SearchIndex.search (SearchEngine.index (SearchEngine.self run.2)) "sub.py".
Proof.
  intros q run r.
  assert (Hrun : run = (SearchEngine.Ret
           [SearchEngine.mk_result "/root/a.txt" "a.txt" 5 2000 "/root"
              "filename" None None; r], run.2))
    by (vm_compute; reflexivity).
  split; [exact Hrun |].
  assert (Hin : r ∈ [SearchEngine.mk_result "/root/a.txt" "a.txt" 5 2000 "/root"
                       "filename" None None; r])
    by (apply elem_of_cons; right; apply elem_of_cons; left; reflexivity).
  destruct (X13_walk_results_are_indexed glob plain_search demo_world 0 q fresh
              run.2 _ r Hrun eq_refl eq_refl Hin) as [Hfresh Hfound].
  split; [exact Hfresh |]. apply Hfound. vm_compute. discriminate.
Defined.

(** a refresh below [/root] on a new engine *)
Lemma X14_witness :
  quiet fresh ∧
  SearchIndex.is_indexed demo_world "/root/b/sub.py"
    (SearchEngine.index
       (SearchEngine.self
          (SearchEngine._update_index demo_world "/root" false fresh))) = true.
Proof.
  assert (Hq : quiet fresh) by (split; reflexivity).
  split; [exact Hq |].
  destruct (X14_refresh_makes_files_fresh demo_world "/root" false fresh Hq
              eq_refl) as (Hall & _ & _).
  apply Hall.
  - apply (bool_decide_unpack _). vm_compute. exact I.
  - vm_compute. eexists. reflexivity.
Defined.

(** a quick search for [B] below [/root] without the index reports the
    directory [b] and the file in it *)
Lemma X15_witness :
  quiet unindexed ∧
  SearchEngine.quick_search demo_world "/root" "B" 10 unindexed
  = (SearchEngine.Ret ["/root/b"; "/root/b/sub.py"]%string, unindexed).
Proof.
  assert (Hq : quiet unindexed) by (split; reflexivity).
  split; [exact Hq |].
  rewrite (X15_quick_search_walk demo_world "/root" "B" 10 unindexed
             eq_refl eq_refl Hq).
  vm_compute. reflexivity.
Defined.

(** [cancel_search()] before a search of [/root] changes nothing *)
Lemma X17_witness :
  SearchEngine.cancel_event
    (SearchEngine.self (SearchEngine.on_self SearchEngine.cancel_search fresh))
  = true ∧
  SearchEngine.search_files glob plain_search demo_world 0
    (SearchEngine.defaults "/root" "*.txt")
    (SearchEngine.on_self SearchEngine.cancel_search fresh)
  = SearchEngine.search_files glob plain_search demo_world 0
      (SearchEngine.defaults "/root" "*.txt") fresh.
Proof.
  split; [reflexivity |].
  exact (proj1 (X17_stale_cancellation_is_cleared glob plain_search demo_world 0
                  (SearchEngine.defaults "/root" "*.txt") fresh
                  eq_refl eq_refl)).
Defined.

(** the walk of [/office] for [report*] among the [txt] files of 5 to 1000
    bytes *)
Lemma X18_witness :
  let q := SearchEngine.mk_args "/office" "report*" None (Some "txt"%string)
             (Some 5%Z) (Some 1000%Z) None None false false 1000 false false in
  let run := SearchEngine.search_files glob plain_search office_world 0 q fresh in
  ∃ rs,
    run = (SearchEngine.Ret rs, run.2) ∧
    SearchEngine.path <$> rs
      = ["/office/Report.TXT"; "/office/report.txt"]%string.
Proof.
  intros q run.
  assert (Hrun : ∃ rs, run = (SearchEngine.Ret rs, run.2))
    by (eexists; vm_compute; reflexivity).
  destruct Hrun as [rs Hrun]. exists rs. split; [exact Hrun |].
  destruct (X18_walk_results_any_criteria glob plain_search office_world 0 q
              fresh eq_refl eq_refl eq_refl eq_refl eq_refl)
    as (Hreturned & _).
  rewrite (Hreturned rs run.2 Hrun). vm_compute. reflexivity.
Defined.

(** the first indexed search of [/root] for [*.txt] finds [a.txt] and
    nothing of the hidden directory *)
Lemma X20_witness :
  let run := SearchEngine.search_files glob plain_search demo_world 0
               (SearchEngine.defaults "/root" "*.txt") fresh in
  SearchEngine.index (SearchEngine.self fresh) = SearchIndex.init ∧
  ∃ rs,
    run = (SearchEngine.Ret rs, run.2) ∧
    (∀ p, p ∈ SearchEngine.path <$> rs → p ∈ files_under demo_world "/root").
Proof.
  intros run. split; [reflexivity |].
  assert (Hrun : ∃ rs, run = (SearchEngine.Ret rs, run.2))
    by (eexists; vm_compute; reflexivity).
  destruct Hrun as [rs Hrun]. exists rs. split; [exact Hrun |].
  destruct (X20_first_indexed_search glob plain_search demo_world 0
              (SearchEngine.defaults "/root" "*.txt") fresh
              eq_refl eq_refl eq_refl eq_refl eq_refl)
    as (Hreturned & _).
  destruct (Hreturned rs run.2 Hrun) as [Hsound _].
  intros p Hp. exact (proj1 (Hsound p Hp)).
Defined.
